(** * Extract-and-load pipeline: GitHub and PyPI extractors

    A shallow embedding of [src/extractors/github_extractor.py],
    [src/extractors/pypi_extractor.py] and the task callables of
    [src/dags/data_engineering_pipeline_dag.py].  Python values are an inductive type,
    the HTTP service, the wall clock and the warehouse are oracles held in an
    explicit world, and every method of the two extractor classes is a
    computation in a state-and-exception monad over that world.  Each call
    that leaves the process (HTTP GET, sleep, log line, warehouse call) is
    appended to a trace, and the properties below are stated on results and
    traces. *)

From Stdlib Require Import ZArith NArith List String Ascii Bool Lia Arith.
From Stdlib Require Import DecimalString Decimal DecimalNat DecimalZ.
From Stdlib Require DecimalFacts DecimalPos DecimalN.
Import ListNotations.

Local Open Scope string_scope.
Local Open Scope Z_scope.

(** ** Python values *)

(** The values the extractors handle: what [response.json()] can return
    ([None], booleans, integers, strings, lists, string-keyed dicts), plus
    tuples and [datetime] objects, which a caller of [save_to_snowflake] can
    place in a record.  Dicts keep insertion order, as Python's do.  Strings
    are sequences of code points below 256. *)
Record datetime : Type := mk_datetime {
  dt_year : Z; dt_month : Z; dt_day : Z;
  dt_hour : Z; dt_minute : Z; dt_second : Z; dt_microsecond : Z
}.

#[warnings="-register-all"]
Inductive PyVal : Type :=
| PNone
| PBool (b : bool)
| PInt (z : Z)
| PStr (s : string)
| PList (l : list PyVal)
| PTuple (l : list PyVal)
| PDict (d : list (string * PyVal))
| PDatetime (t : datetime).

Definition PyDict : Type := list (string * PyVal).

(** Exceptions, by the classes the handlers of the source tell apart.
    [RequestException] stands for [requests.exceptions.RequestException] and
    its subclasses (connection errors, [HTTPError] from [raise_for_status],
    the JSON decoding error of [response.json()]). *)
Inductive Exn : Type :=
| TypeError (msg : string)
| ValueError (msg : string)
| AttributeError (msg : string)
| KeyError (msg : string)
| IndexError (msg : string)
| RequestException (msg : string)
| HTTPError (status : Z) (url : string)
| SnowflakeError (msg : string).

Inductive Result (A : Type) : Type :=
| Ok (a : A)
| Raise (e : Exn).
Arguments Ok {A} a.
Arguments Raise {A} e.

(** [isinstance(e, requests.exceptions.RequestException)] *)
Definition is_RequestException (e : Exn) : bool :=
  match e with
  | RequestException _ | HTTPError _ _ => true
  | _ => false
  end.

(** [isinstance(e, (TypeError, ValueError))] *)
Definition is_TypeError_or_ValueError (e : Exn) : bool :=
  match e with
  | TypeError _ | ValueError _ => true
  | _ => false
  end.

(** *** Decimal rendering *)

Definition str_of_Z (z : Z) : string := NilZero.string_of_int (Z.to_int z).

(** [str(e)] *)
Definition exn_str (e : Exn) : string :=
  match e with
  | TypeError m | ValueError m | AttributeError m | KeyError m
  | IndexError m | RequestException m | SnowflakeError m => m
  | HTTPError st url => str_of_Z st ++ " Error for url: " ++ url
  end.

(** *** Truthiness, [len], [dict.get], subscription, [in], [==] *)

Definition truthy (v : PyVal) : bool :=
  match v with
  | PNone => false
  | PBool b => b
  | PInt z => negb (z =? 0)
  | PStr s => negb (String.eqb s "")
  | PList l | PTuple l => match l with [] => false | _ => true end
  | PDict d => match d with [] => false | _ => true end
  | PDatetime _ => true
  end.

Definition dict_truthy (d : PyDict) : bool :=
  match d with [] => false | _ => true end.

Definition list_truthy {A} (l : list A) : bool :=
  match l with [] => false | _ => true end.

Fixpoint dict_lookup (k : string) (d : PyDict) : option PyVal :=
  match d with
  | [] => None
  | (k', v) :: d' => if String.eqb k k' then Some v else dict_lookup k d'
  end.

(** [d.get(k, default)] on a dict *)
Definition dict_get (d : PyDict) (k : string) (default : PyVal) : PyVal :=
  match dict_lookup k d with
  | Some v => v
  | None => default
  end.

(** [d[k] = v]: an existing key keeps its position *)
Fixpoint dict_set (k : string) (v : PyVal) (d : PyDict) : PyDict :=
  match d with
  | [] => [(k, v)]
  | (k', v') :: d' =>
      if String.eqb k k' then (k', v) :: d' else (k', v') :: dict_set k v d'
  end.

(** A dict display [{k1: v1, ..., kn: vn}], evaluated left to right. *)
Definition dict_literal (kvs : list (string * PyVal)) : PyDict :=
  fold_left (fun d kv => dict_set (fst kv) (snd kv) d) kvs [].

Definition type_name (v : PyVal) : string :=
  match v with
  | PNone => "NoneType"
  | PBool _ => "bool"
  | PInt _ => "int"
  | PStr _ => "str"
  | PList _ => "list"
  | PTuple _ => "tuple"
  | PDict _ => "dict"
  | PDatetime _ => "datetime"
  end.

(** [v.get(k, default)]: only dicts have the method *)
Definition py_get (v : PyVal) (k : string) (default : PyVal) : Result PyVal :=
  match v with
  | PDict d => Ok (dict_get d k default)
  | _ => Raise (AttributeError ("'" ++ type_name v ++ "' object has no attribute 'get'"))
  end.

(** [len(v)] *)
Definition py_len (v : PyVal) : Result Z :=
  match v with
  | PStr s => Ok (Z.of_nat (String.length s))
  | PList l | PTuple l => Ok (Z.of_nat (List.length l))
  | PDict d => Ok (Z.of_nat (List.length d))
  | _ => Raise (TypeError ("object of type '" ++ type_name v ++ "' has no len()"))
  end.

(** An index as Python's sequences take it: an [int] (or a [bool], which is
    one), counted from the end when negative. *)
Definition py_as_index (i : PyVal) : option Z :=
  match i with
  | PInt z => Some z
  | PBool b => Some (if b then 1 else 0)
  | _ => None
  end.

Definition seq_index {A} (l : list A) (i : Z) : option A :=
  let n := Z.of_nat (List.length l) in
  let j := if i <? 0 then i + n else i in
  if (0 <=? j) && (j <? n) then nth_error l (Z.to_nat j) else None.

Definition str_index (s : string) (i : Z) : option string :=
  let n := Z.of_nat (String.length s) in
  let j := if i <? 0 then i + n else i in
  if (0 <=? j) && (j <? n) then
    match String.get (Z.to_nat j) s with
    | Some c => Some (String c EmptyString)
    | None => None
    end
  else None.

(** Whether [hash(v)] succeeds. *)
Fixpoint hashable (v : PyVal) : bool :=
  match v with
  | PList _ | PDict _ => false
  | PTuple l => forallb hashable l
  | _ => true
  end.

(** [v[i]] *)
Definition py_getitem (v i : PyVal) : Result PyVal :=
  match v with
  | PList l | PTuple l =>
      match py_as_index i with
      | Some z =>
          match seq_index l z with
          | Some x => Ok x
          | None => Raise (IndexError (type_name v ++ " index out of range"))
          end
      | None => Raise (TypeError (type_name v ++ " indices must be integers or slices"))
      end
  | PStr s =>
      match py_as_index i with
      | Some z =>
          match str_index s z with
          | Some c => Ok (PStr c)
          | None => Raise (IndexError "string index out of range")
          end
      | None => Raise (TypeError "string indices must be integers")
      end
  | PDict d =>
      if hashable i then
        match i with
        | PStr k =>
            match dict_lookup k d with
            | Some x => Ok x
            | None => Raise (KeyError k)
            end
        | _ => Raise (KeyError (type_name i))
        end
      else Raise (TypeError ("unhashable type: '" ++ type_name i ++ "'"))
  | _ => Raise (TypeError ("'" ++ type_name v ++ "' object is not subscriptable"))
  end.

(** [a == b] *)
Definition datetime_eqb (a b : datetime) : bool :=
  (dt_year a =? dt_year b) && (dt_month a =? dt_month b) && (dt_day a =? dt_day b)
  && (dt_hour a =? dt_hour b) && (dt_minute a =? dt_minute b)
  && (dt_second a =? dt_second b) && (dt_microsecond a =? dt_microsecond b).

Fixpoint py_eq (a b : PyVal) {struct a} : bool :=
  match a, b with
  | PNone, PNone => true
  | PBool x, PBool y => Bool.eqb x y
  | PBool x, PInt y => (if x then 1 else 0) =? y
  | PInt x, PBool y => x =? (if y then 1 else 0)
  | PInt x, PInt y => x =? y
  | PStr x, PStr y => String.eqb x y
  | PList la, PList lb | PTuple la, PTuple lb =>
      (fix all2 (la lb : list PyVal) {struct la} : bool :=
         match la, lb with
         | [], [] => true
         | x :: la', y :: lb' => py_eq x y && all2 la' lb'
         | _, _ => false
         end) la lb
  | PDict da, PDict db =>
      Nat.eqb (List.length da) (List.length db)
      && (fix sub (da : list (string * PyVal)) {struct da} : bool :=
            match da with
            | [] => true
            | (k, v) :: da' =>
                match dict_lookup k db with
                | Some v' => py_eq v v'
                | None => false
                end && sub da'
            end) da
  | PDatetime x, PDatetime y => datetime_eqb x y
  | _, _ => false
  end.

Fixpoint is_substring (sub s : string) : bool :=
  String.prefix sub s
  || match s with
     | EmptyString => false
     | String _ s' => is_substring sub s'
     end.

(** [x in v] *)
Definition py_contains (v x : PyVal) : Result bool :=
  match v with
  | PDict d =>
      if hashable x then
        match x with
        | PStr k => Ok (match dict_lookup k d with Some _ => true | None => false end)
        | _ => Ok false
        end
      else Raise (TypeError ("unhashable type: '" ++ type_name x ++ "'"))
  | PList l | PTuple l => Ok (existsb (fun y => py_eq y x) l)
  | PStr s =>
      match x with
      | PStr sub => Ok (is_substring sub s)
      | _ => Raise (TypeError "'in <string>' requires string as left operand")
      end
  | _ => Raise (TypeError ("argument of type '" ++ type_name v ++ "' is not iterable"))
  end.

(** ** The world outside the process *)

Record Response : Type := mk_response {
  status_code : Z;
  (** what [response.json()] returns; [None] when the body does not decode *)
  json_body : option PyVal
}.

(** What one [requests.get] call does: fail on the wire, or answer. *)
Inductive HttpOutcome : Type :=
| HttpFail (msg : string)
| HttpResp (r : Response).

Inductive LogLevel : Type := INFO | WARNING | ERROR.

(** A row handed to [cursor.executemany]:
    [(extracted_at, <entity>_name, raw_data)]. *)
Definition Row : Type := (datetime * PyVal * string)%type.

(** The calls made on the warehouse connection and its cursor. *)
Inductive WhCall : Type :=
| WhConnect
| WhCursor
| WhExecute (sql : string)
| WhExecuteMany (sql : string) (rows : list Row)
| WhCommit
| WhRollback
| WhCursorClose
| WhConnClose.

Inductive Event : Type :=
| EvGet (url : string) (headers : list (string * string))
| EvSleep (seconds : Z)
| EvLog (level : LogLevel) (fmt : string) (args : list PyVal)
| EvWh (c : WhCall).

Inductive Connection : Type := SnowflakeConnection.
Inductive Cursor : Type := SnowflakeCursor.

(** The state a computation runs in.  [w_http n url] is what the [n]-th
    [requests.get] of the run does when asked for [url]; [w_clock n] is the
    [n]-th reading of [datetime.now(timezone.utc)]; [w_wh c] is [Some msg]
    when the warehouse call [c] raises.  [w_conn] and [w_cursor] are the
    local variables [conn] and [cursor] of the running [save_to_snowflake],
    which its [except] and [finally] clauses read. *)
Record World : Type := mk_world {
  w_http : nat -> string -> HttpOutcome;
  w_reqs : nat;
  w_clock : nat -> datetime;
  w_ticks : nat;
  w_wh : WhCall -> option string;
  w_conn : option Connection;
  w_cursor : option Cursor;
  w_trace : list Event
}.

Definition emit (e : Event) (w : World) : World :=
  mk_world (w_http w) (w_reqs w) (w_clock w) (w_ticks w) (w_wh w)
           (w_conn w) (w_cursor w) (w_trace w ++ [e]).

(** ** The monad of the embedding: state and exceptions *)

Definition M (A : Type) : Type := World -> Result A * World.

Definition ret {A} (a : A) : M A := fun w => (Ok a, w).

Definition bind {A B} (m : M A) (f : A -> M B) : M B :=
  fun w =>
    match m w with
    | (Ok a, w') => f a w'
    | (Raise e, w') => (Raise e, w')
    end.

Definition raise {A} (e : Exn) : M A := fun w => (Raise e, w).

(** A pure step that can raise. *)
Definition lift {A} (r : Result A) : M A := fun w => (r, w).

Declare Scope py_scope.
Delimit Scope py_scope with py.
Notation "x <- m ;; k" := (bind m (fun x => k))
  (at level 61, m at next level, right associativity) : py_scope.
Notation "m ;; k" := (bind m (fun _ => k))
  (at level 61, right associativity) : py_scope.
Local Open Scope py_scope.

(** [try: m  except Exception as e: h e] *)
Definition try_except {A} (m : M A) (h : Exn -> M A) : M A :=
  fun w =>
    match m w with
    | (Ok a, w') => (Ok a, w')
    | (Raise e, w') => h e w'
    end.

(** [try: m  finally: c] -- [c] runs on every exit; when [c] itself raises,
    its exception replaces the outcome of [m]. *)
Definition try_finally {A} (m : M A) (c : M unit) : M A :=
  fun w =>
    match m w with
    | (r, w') =>
        match c w' with
        | (Ok _, w'') => (r, w'')
        | (Raise e, w'') => (Raise e, w'')
        end
    end.

(** *** Primitive effects *)

(** [logger.info(f"...")] and the like: the f-string is kept as its
    template and the values formatted into it. *)
Definition logger (lvl : LogLevel) (fmt : string) (args : list PyVal) : M unit :=
  fun w => (Ok tt, emit (EvLog lvl fmt args) w).

Definition time_sleep (seconds : Z) : M unit :=
  fun w => (Ok tt, emit (EvSleep seconds) w).

(** [datetime.now(timezone.utc)] *)
Definition datetime_now : M datetime :=
  fun w =>
    (Ok (w_clock w (w_ticks w)),
     mk_world (w_http w) (w_reqs w) (w_clock w) (S (w_ticks w)) (w_wh w)
              (w_conn w) (w_cursor w) (w_trace w)).

(** [requests.get(url, headers=headers)] *)
Definition requests_get (url : string) (headers : list (string * string)) : M Response :=
  fun w =>
    let w' := mk_world (w_http w) (S (w_reqs w)) (w_clock w) (w_ticks w) (w_wh w)
                       (w_conn w) (w_cursor w) (w_trace w ++ [EvGet url headers]) in
    match w_http w (w_reqs w) url with
    | HttpFail msg => (Raise (RequestException msg), w')
    | HttpResp r => (Ok r, w')
    end.

(** [response.raise_for_status()]: raises for 4xx and 5xx. *)
Definition raise_for_status (url : string) (r : Response) : M unit :=
  if (400 <=? status_code r) && (status_code r <? 600)
  then raise (HTTPError (status_code r) url)
  else ret tt.

(** [response.json()] *)
Definition response_json (r : Response) : M PyVal :=
  match json_body r with
  | Some v => ret v
  | None => raise (RequestException "Expecting value: line 1 column 1 (char 0)")
  end.

(** A call on the warehouse: logged, then it returns or raises as the
    oracle says. *)
Definition wh_call (c : WhCall) : M unit :=
  fun w =>
    match w_wh w c with
    | Some msg => (Raise (SnowflakeError msg), emit (EvWh c) w)
    | None => (Ok tt, emit (EvWh c) w)
    end.

(** ** The [json] module on these values *)

Definition dquote : ascii := "034"%char.
Definition backslash : ascii := "092"%char.

Definition hex_digit (n : N) : ascii :=
  match n with
  | 0 => "0" | 1 => "1" | 2 => "2" | 3 => "3" | 4 => "4" | 5 => "5" | 6 => "6"
  | 7 => "7" | 8 => "8" | 9 => "9" | 10 => "a" | 11 => "b" | 12 => "c"
  | 13 => "d" | 14 => "e" | _ => "f"
  end%char%N.

(** One character of a string under [ensure_ascii=True]: the quote and the
    backslash are escaped, the five short escapes are used, every other
    character outside [' '..'~'] becomes [\u00XX]. *)
Definition json_escape_char (c : ascii) : string :=
  let n := N_of_ascii c in
  if Ascii.eqb c dquote then String backslash (String dquote EmptyString)
  else if Ascii.eqb c backslash then String backslash (String backslash EmptyString)
  else if N.eqb n 10 then String backslash "n"
  else if N.eqb n 13 then String backslash "r"
  else if N.eqb n 9 then String backslash "t"
  else if N.eqb n 8 then String backslash "b"
  else if N.eqb n 12 then String backslash "f"
  else if (N.ltb n 32 || N.ltb 126 n)%bool then
    String backslash
      (String "u" (String "0" (String "0"
         (String (hex_digit (n / 16)) (String (hex_digit (n mod 16)) EmptyString)))))
  else String c EmptyString.

Fixpoint json_escape (s : string) : string :=
  match s with
  | EmptyString => EmptyString
  | String c s' => json_escape_char c ++ json_escape s'
  end.

Definition json_quote (s : string) : string :=
  String dquote (json_escape s ++ String dquote EmptyString).

(** The first exception of a sequence of results, or all their values. *)
Fixpoint all_ok {A} (rs : list (Result A)) : Result (list A) :=
  match rs with
  | [] => Ok []
  | Ok a :: rs' =>
      match all_ok rs' with
      | Ok l => Ok (a :: l)
      | Raise e => Raise e
      end
  | Raise e :: _ => Raise e
  end.

(** [json.dumps(v)] with the default options: [", "] and [": "] separators,
    tuples written as arrays, a [TypeError] for a value of any other type. *)
Fixpoint json_dumps (v : PyVal) : Result string :=
  match v with
  | PNone => Ok "null"
  | PBool b => Ok (if b then "true" else "false")
  | PInt z => Ok (str_of_Z z)
  | PStr s => Ok (json_quote s)
  | PList l | PTuple l =>
      match all_ok (map json_dumps l) with
      | Ok items => Ok ("[" ++ String.concat ", " items ++ "]")
      | Raise e => Raise e
      end
  | PDict d =>
      match all_ok (map (fun kv : string * PyVal =>
                           let (k, x) := kv in
                           match json_dumps x with
                           | Ok sx => Ok (json_quote k ++ ": " ++ sx)
                           | Raise e => Raise e
                           end) d) with
      | Ok members => Ok ("{" ++ String.concat ", " members ++ "}")
      | Raise e => Raise e
      end
  | PDatetime _ => Raise (TypeError "Object of type datetime is not JSON serializable")
  end.

(** *** Decoding *)

Definition is_ws (c : ascii) : bool :=
  let n := N_of_ascii c in
  (N.eqb n 32 || N.eqb n 9 || N.eqb n 10 || N.eqb n 13)%bool.

Fixpoint skip_ws (s : string) : string :=
  match s with
  | String c s' => if is_ws c then skip_ws s' else s
  | EmptyString => s
  end.

Definition is_digit (c : ascii) : bool :=
  let n := N_of_ascii c in (N.leb 48 n && N.leb n 57)%bool.

Definition hex_value (c : ascii) : option N :=
  let n := N_of_ascii c in
  if (N.leb 48 n && N.leb n 57)%bool then Some (n - 48)%N
  else if (N.leb 97 n && N.leb n 102)%bool then Some (n - 87)%N
  else if (N.leb 65 n && N.leb n 70)%bool then Some (n - 55)%N
  else None.

(** The body of a string literal, after its opening quote: the decoded
    string and the text after the closing quote. *)
Fixpoint parse_string_body (s : string) : option (string * string) :=
  match s with
  | EmptyString => None
  | String c s1 =>
      if Ascii.eqb c dquote then Some (EmptyString, s1)
      else if Ascii.eqb c backslash then
        match s1 with
        | String e s2 =>
            let simple (d : ascii) :=
              match parse_string_body s2 with
              | Some (r, rest) => Some (String d r, rest)
              | None => None
              end in
            if Ascii.eqb e dquote then simple dquote
            else if Ascii.eqb e backslash then simple backslash
            else if Ascii.eqb e "/" then simple "/"%char
            else if Ascii.eqb e "n" then simple (ascii_of_N 10)
            else if Ascii.eqb e "r" then simple (ascii_of_N 13)
            else if Ascii.eqb e "t" then simple (ascii_of_N 9)
            else if Ascii.eqb e "b" then simple (ascii_of_N 8)
            else if Ascii.eqb e "f" then simple (ascii_of_N 12)
            else if Ascii.eqb e "u" then
              match s2 with
              | String h1 (String h2 (String h3 (String h4 s3))) =>
                  match hex_value h1, hex_value h2, hex_value h3, hex_value h4 with
                  | Some a, Some b, Some c', Some d =>
                      let cp := (((a * 16 + b) * 16 + c') * 16 + d)%N in
                      if N.ltb cp 256 then
                        match parse_string_body s3 with
                        | Some (r, rest) => Some (String (ascii_of_N cp) r, rest)
                        | None => None
                        end
                      else None
                  | _, _, _, _ => None
                  end
              | _ => None
              end
            else None
        | EmptyString => None
        end
      else if N.ltb (N_of_ascii c) 32 then None
      else
        match parse_string_body s1 with
        | Some (r, rest) => Some (String c r, rest)
        | None => None
        end
  end.

(** The longest prefix of digits and what follows it. *)
Fixpoint span_digits (s : string) : string * string :=
  match s with
  | String c s' =>
      if is_digit c then let (d, r) := span_digits s' in (String c d, r)
      else (EmptyString, s)
  | EmptyString => (EmptyString, EmptyString)
  end.

Definition starts_fraction (s : string) : bool :=
  match s with
  | String c _ => (Ascii.eqb c "." || Ascii.eqb c "e" || Ascii.eqb c "E")%bool
  | EmptyString => false
  end.

(** An integer literal (an optional minus sign, then a lone zero or a
    non-zero digit and further digits) that no fraction or exponent follows (a literal with one denotes a float, which these values do not
    include). *)
Definition parse_int (s : string) : option (Z * string) :=
  let (neg, s1) :=
    match s with
    | String c s' => if Ascii.eqb c "-" then (true, s') else (false, s)
    | EmptyString => (false, s)
    end in
  match s1 with
  | String c s2 =>
      if Ascii.eqb c "0" then
        if starts_fraction s2 then None else Some (0, s2)
      else if is_digit c then
        let (ds, rest) := span_digits s1 in
        if starts_fraction rest then None
        else
          match NilZero.uint_of_string ds with
          | Some u => Some (if neg then - Z.of_uint u else Z.of_uint u, rest)
          | None => None
          end
      else None
  | EmptyString => None
  end.

Fixpoint strip_prefix (p s : string) : option string :=
  match p with
  | EmptyString => Some s
  | String a p' =>
      match s with
      | String b s' => if Ascii.eqb a b then strip_prefix p' s' else None
      | EmptyString => None
      end
  end.

(** A JSON value at the head of [s]; [parse_elements] and [parse_members]
    read the rest of an array or an object whose opening bracket has been
    consumed.  An object becomes a dict the way [dict(pairs)] builds it. *)
Fixpoint parse_value (fuel : nat) (s : string) {struct fuel} : option (PyVal * string) :=
  match fuel with
  | O => None
  | S fuel' =>
      match s with
      | EmptyString => None
      | String c s1 =>
          if Ascii.eqb c dquote then
            match parse_string_body s1 with
            | Some (str, rest) => Some (PStr str, rest)
            | None => None
            end
          else if Ascii.eqb c "[" then
            match skip_ws s1 with
            | String c2 rest =>
                if Ascii.eqb c2 "]" then Some (PList [], rest)
                else parse_elements fuel' (String c2 rest) []
            | EmptyString => None
            end
          else if Ascii.eqb c "{" then
            match skip_ws s1 with
            | String c2 rest =>
                if Ascii.eqb c2 "}" then Some (PDict [], rest)
                else parse_members fuel' (String c2 rest) []
            | EmptyString => None
            end
          else if Ascii.eqb c "n" then
            match strip_prefix "ull" s1 with
            | Some rest => Some (PNone, rest)
            | None => None
            end
          else if Ascii.eqb c "t" then
            match strip_prefix "rue" s1 with
            | Some rest => Some (PBool true, rest)
            | None => None
            end
          else if Ascii.eqb c "f" then
            match strip_prefix "alse" s1 with
            | Some rest => Some (PBool false, rest)
            | None => None
            end
          else
            match parse_int s with
            | Some (z, rest) => Some (PInt z, rest)
            | None => None
            end
      end
  end
with parse_elements (fuel : nat) (s : string) (acc : list PyVal) {struct fuel}
  : option (PyVal * string) :=
  match fuel with
  | O => None
  | S fuel' =>
      match parse_value fuel' s with
      | Some (v, rest) =>
          match skip_ws rest with
          | String c rest' =>
              if Ascii.eqb c "," then parse_elements fuel' (skip_ws rest') (v :: acc)
              else if Ascii.eqb c "]" then Some (PList (List.rev (v :: acc)), rest')
              else None
          | EmptyString => None
          end
      | None => None
      end
  end
with parse_members (fuel : nat) (s : string) (acc : list (string * PyVal)) {struct fuel}
  : option (PyVal * string) :=
  match fuel with
  | O => None
  | S fuel' =>
      match s with
      | String q s1 =>
          if Ascii.eqb q dquote then
            match parse_string_body s1 with
            | Some (k, rest) =>
                match skip_ws rest with
                | String c rest1 =>
                    if Ascii.eqb c ":" then
                      match parse_value fuel' (skip_ws rest1) with
                      | Some (v, rest2) =>
                          match skip_ws rest2 with
                          | String c2 rest3 =>
                              if Ascii.eqb c2 "," then
                                parse_members fuel' (skip_ws rest3) ((k, v) :: acc)
                              else if Ascii.eqb c2 "}" then
                                Some (PDict (dict_literal (List.rev ((k, v) :: acc))), rest3)
                              else None
                          | EmptyString => None
                          end
                      | None => None
                      end
                    else None
                | EmptyString => None
                end
            | None => None
            end
          else None
      | EmptyString => None
      end
  end.

(** [json.loads(s)]: one value, white space around it, nothing else; a
    [ValueError] (the decoder's [JSONDecodeError]) otherwise. *)
Definition json_loads (s : string) : Result PyVal :=
  match parse_value (2 * String.length s + 2) (skip_ws s) with
  | Some (v, rest) =>
      match skip_ws rest with
      | EmptyString => Ok v
      | _ => Raise (ValueError "Extra data")
      end
  | None => Raise (ValueError "Expecting value")
  end.

(** ** [datetime] *)

Definition zpad (width : nat) (z : Z) : string :=
  let s := str_of_Z z in
  (fix zeros (n : nat) : string :=
     match n with O => s | S n' => String "0" (zeros n') end)
    (width - String.length s)%nat.

(** [t.isoformat()] of an aware UTC datetime: the fraction is written only
    when the microsecond is not zero. *)
Definition isoformat (t : datetime) : string :=
  zpad 4 (dt_year t) ++ "-" ++ zpad 2 (dt_month t) ++ "-" ++ zpad 2 (dt_day t)
  ++ "T" ++ zpad 2 (dt_hour t) ++ ":" ++ zpad 2 (dt_minute t) ++ ":" ++ zpad 2 (dt_second t)
  ++ (if dt_microsecond t =? 0 then "" else "." ++ zpad 6 (dt_microsecond t))
  ++ "+00:00".

(** [a < b] on datetimes of one time zone: field by field. *)
Fixpoint lex_ltb (a b : list Z) : bool :=
  match a, b with
  | x :: a', y :: b' => (x <? y) || ((x =? y) && lex_ltb a' b')
  | _, _ => false
  end.

Definition datetime_fields (t : datetime) : list Z :=
  [dt_year t; dt_month t; dt_day t; dt_hour t; dt_minute t; dt_second t; dt_microsecond t].

Definition datetime_ltb (a b : datetime) : bool :=
  lex_ltb (datetime_fields a) (datetime_fields b).

(** ** Warehouse session, shared by the two extractors *)

Definition set_conn (c : option Connection) : M unit :=
  fun w => (Ok tt, mk_world (w_http w) (w_reqs w) (w_clock w) (w_ticks w) (w_wh w)
                            c (w_cursor w) (w_trace w)).

Definition set_cursor (c : option Cursor) : M unit :=
  fun w => (Ok tt, mk_world (w_http w) (w_reqs w) (w_clock w) (w_ticks w) (w_wh w)
                            (w_conn w) c (w_trace w)).

Definition get_conn : M (option Connection) := fun w => (Ok (w_conn w), w).
Definition get_cursor : M (option Cursor) := fun w => (Ok (w_cursor w), w).

(** [snowflake.connector.connect(...)] *)
Definition get_snowflake_connection : M Connection :=
  wh_call WhConnect ;; ret SnowflakeConnection.

Definition conn_cursor (conn : Connection) : M Cursor :=
  wh_call WhCursor ;; ret SnowflakeCursor.

Definition cursor_execute (cursor : Cursor) (sql : string) : M unit :=
  wh_call (WhExecute sql).

Definition cursor_executemany (cursor : Cursor) (sql : string) (rows : list Row) : M unit :=
  wh_call (WhExecuteMany sql rows).

Definition conn_commit (conn : Connection) : M unit := wh_call WhCommit.
Definition conn_rollback (conn : Connection) : M unit := wh_call WhRollback.
Definition cursor_close (cursor : Cursor) : M unit := wh_call WhCursorClose.
Definition conn_close (conn : Connection) : M unit := wh_call WhConnClose.

Definition use_schema_query : string :=
  "USE SCHEMA DATA_ENGINEERING_PROJECT.RAW_DATA".

(** The loop that fills [insert_data], common to both loaders up to the
    name of the entity column [name_key] ([repo_name] or [package_name]):
    an empty record is skipped; a record whose [json.dumps] or [json.loads]
    raises [TypeError] or [ValueError] is logged and skipped; any other
    exception leaves the loop. *)
Definition stage_record (name_key : string) (record : PyDict) : M (option Row) :=
  try_except
    (json_str <- lift (json_dumps (PDict record)) ;;
     _ <- lift (json_loads json_str) ;;
     now <- datetime_now ;;
     ret (Some (now, dict_get record name_key PNone, json_str)))
    (fun e =>
       if is_TypeError_or_ValueError e then
         logger ERROR "JSON serialization/validation failed for {}: {}"
                [dict_get record name_key PNone; PStr (exn_str e)] ;;
         ret None
       else raise e).

Fixpoint prepare_insert_data (name_key : string) (data : list PyDict) (insert_data : list Row)
  : M (list Row) :=
  match data with
  | [] => ret insert_data
  | record :: data' =>
      if dict_truthy record then
        r <- stage_record name_key record ;;
        match r with
        | Some row => prepare_insert_data name_key data' (insert_data ++ [row])%list
        | None => prepare_insert_data name_key data' insert_data
        end
      else prepare_insert_data name_key data' insert_data
  end.

(** ** The loader and the driver, as both extractors write them

    [save_to_snowflake], the extraction loop and [run] are the same text in
    the two classes up to the table names, the entity column and the words
    of the log lines; they are written once here over those and
    instantiated in each module. *)

Record Tables : Type := mk_tables {
  name_key : string;
  temp_table_query : string;
  temp_insert_query : string;
  final_insert_query : string;
  saved_fmt : string
}.

(** The body of the outer [try] of [save_to_snowflake].  Every path through
    it that returns, returns [None]. *)
Definition save_body (tb : Tables) (data : list PyDict) : M PyVal :=
  conn <- get_snowflake_connection ;;
  set_conn (Some conn) ;;
  cursor <- conn_cursor conn ;;
  set_cursor (Some cursor) ;;
  cursor_execute cursor use_schema_query ;;
  cursor_execute cursor (temp_table_query tb) ;;
  insert_data <- prepare_insert_data (name_key tb) data [] ;;
  if negb (list_truthy insert_data) then
    logger WARNING "No valid data to insert after filtering." [] ;;
    ret PNone
  else
    cursor_executemany cursor (temp_insert_query tb) insert_data ;;
    cursor_execute cursor (final_insert_query tb) ;;
    conn_commit conn ;;
    logger INFO (saved_fmt tb) [PInt (Z.of_nat (List.length insert_data))] ;;
    ret PNone.

(** The [except Exception as e] clause of [save_to_snowflake]. *)
Definition save_handler (e : Exn) : M PyVal :=
  logger ERROR "Error saving to Snowflake: {}" [PStr (exn_str e)] ;;
  conn <- get_conn ;;
  match conn with
  | Some c => conn_rollback c
  | None => ret tt
  end ;;
  raise e.

(** The [finally] clause of [save_to_snowflake]. *)
Definition save_finally : M unit :=
  cursor <- get_cursor ;;
  match cursor with
  | Some c => cursor_close c
  | None => ret tt
  end ;;
  conn <- get_conn ;;
  match conn with
  | Some c => conn_close c
  | None => ret tt
  end.

(** [save_to_snowflake(data)].  [conn = None] opens the function; [cursor]
    is unbound until it is assigned, which [None] stands for here, so that
    [w_cursor] is [Some _] exactly when ['cursor' in locals() and cursor]
    holds. *)
Definition save_to_snowflake_on (tb : Tables) (data : list PyDict) : M PyVal :=
  if negb (list_truthy data) then
    logger WARNING "No data to save" [] ;;
    ret PNone
  else
    set_conn None ;;
    set_cursor None ;;
    try_finally (try_except (save_body tb data) save_handler) save_finally.

(** The [for] loop of [extract_all_repositories] / [extract_all_packages]
    over a fetcher. *)
Fixpoint extract_loop (fetch : string -> M (option PyDict)) (entities : list string)
         (extracted_data : list PyDict) : M (list PyDict) :=
  match entities with
  | [] => ret extracted_data
  | entity :: entities' =>
      logger INFO "Extracting data for {}" [PStr entity] ;;
      entity_data <- fetch entity ;;
      let extracted_data :=
        match entity_data with
        | Some d => if dict_truthy d then (extracted_data ++ [d])%list else extracted_data
        | None => extracted_data
        end in
      time_sleep 1 ;;
      extract_loop fetch entities' extracted_data
  end.

Definition extract_all (start_fmt done_fmt : string)
           (fetch : string -> M (option PyDict)) (entities : list string) : M (list PyDict) :=
  logger INFO start_fmt [PInt (Z.of_nat (List.length entities))] ;;
  extracted_data <- extract_loop fetch entities [] ;;
  logger INFO done_fmt [PInt (Z.of_nat (List.length extracted_data))] ;;
  ret extracted_data.

(** ** The GitHub extractor *)

Module GitHub.

Record GitHubExtractor : Type := mk_extractor {
  github_token : option string;
  base_url : string;
  headers : list (string * string);
  repositories : list string
}.

(** [GitHubExtractor.__init__], given what [os.getenv("GITHUB_TOKEN")]
    returns. *)
Definition init (env_GITHUB_TOKEN : option string) : GitHubExtractor :=
  {| github_token := env_GITHUB_TOKEN;
     base_url := "https://api.github.com";
     headers :=
       [("Authorization",
         "Bearer " ++ match env_GITHUB_TOKEN with Some t => t | None => "None" end);
        ("Accept", "application/vnd.github.v3+json")];
     repositories :=
       ["apache/airflow"; "dbt-labs/dbt-core"; "apache/spark"; "pandas-dev/pandas";
        "sqlalchemy/sqlalchemy"; "great-expectations/great_expectations";
        "prefecthq/prefect"; "apache/kafka";
        "snowflakedb/snowflake-connector-python"; "duckdb/duckdb"] |}.

(** The body of the [try] of [get_repo_data]. *)
Definition get_repo_data_body (self : GitHubExtractor) (repo_name : string) : M (option PyDict) :=
  let repo_url := base_url self ++ "/repos/" ++ repo_name in
  response <- requests_get repo_url (headers self) ;;
  response <- (if status_code response =? 403 then
                 logger WARNING "Rate limit hit for {}, waiting..." [PStr repo_name] ;;
                 time_sleep 60 ;;
                 requests_get repo_url (headers self)
               else ret response) ;;
  raise_for_status repo_url response ;;
  repo_data <- response_json response ;;
  let contributors_url := base_url self ++ "/repos/" ++ repo_name ++ "/contributors" in
  contributors_response <- requests_get contributors_url (headers self) ;;
  contributors_count <- (if status_code contributors_response =? 200 then
                           j <- response_json contributors_response ;;
                           lift (py_len j)
                         else ret 0) ;;
  let releases_url := base_url self ++ "/repos/" ++ repo_name ++ "/releases" in
  releases_response <- requests_get releases_url (headers self) ;;
  releases <- (if status_code releases_response =? 200 then
                 response_json releases_response
               else ret (PList [])) ;;
  full_name <- lift (py_get repo_data "full_name" PNone) ;;
  description <- lift (py_get repo_data "description" PNone) ;;
  language <- lift (py_get repo_data "language" PNone) ;;
  stars <- lift (py_get repo_data "stargazers_count" (PInt 0)) ;;
  forks <- lift (py_get repo_data "forks_count" (PInt 0)) ;;
  watchers <- lift (py_get repo_data "watchers_count" (PInt 0)) ;;
  open_issues <- lift (py_get repo_data "open_issues_count" (PInt 0)) ;;
  size <- lift (py_get repo_data "size" (PInt 0)) ;;
  created_at <- lift (py_get repo_data "created_at" PNone) ;;
  updated_at <- lift (py_get repo_data "updated_at" PNone) ;;
  pushed_at <- lift (py_get repo_data "pushed_at" PNone) ;;
  default_branch <- lift (py_get repo_data "default_branch" PNone) ;;
  releases_count <- lift (py_len releases) ;;
  latest_release <- (if truthy releases then lift (py_getitem releases (PInt 0))
                     else ret PNone) ;;
  topics <- lift (py_get repo_data "topics" (PList [])) ;;
  license <- (c <- lift (py_get repo_data "license" PNone) ;;
              if truthy c then
                l <- lift (py_get repo_data "license" (PDict [])) ;;
                lift (py_get l "name" PNone)
              else ret PNone) ;;
  now <- datetime_now ;;
  let extracted_data :=
    dict_literal
      [("repo_name", PStr repo_name);
       ("full_name", full_name);
       ("description", description);
       ("language", language);
       ("stars", stars);
       ("forks", forks);
       ("watchers", watchers);
       ("open_issues", open_issues);
       ("size", size);
       ("created_at", created_at);
       ("updated_at", updated_at);
       ("pushed_at", pushed_at);
       ("default_branch", default_branch);
       ("contributors_count", PInt contributors_count);
       ("releases_count", PInt releases_count);
       ("latest_release", latest_release);
       ("topics", topics);
       ("license", license);
       ("extracted_at", PStr (isoformat now))] in
  logger INFO "Successfully extracted data for {}" [PStr repo_name] ;;
  ret (Some extracted_data).

(** [get_repo_data]: the body under its two [except] clauses, tried in
    order; both log and return [None]. *)
Definition get_repo_data (self : GitHubExtractor) (repo_name : string) : M (option PyDict) :=
  try_except
    (get_repo_data_body self repo_name)
    (fun e =>
       if is_RequestException e then
         logger ERROR "Error fetching data for {}: {}" [PStr repo_name; PStr (exn_str e)] ;;
         ret None
       else
         logger ERROR "Unexpected error for {}: {}" [PStr repo_name; PStr (exn_str e)] ;;
         ret None).

Definition tables : Tables :=
  {| name_key := "repo_name";
     temp_table_query := "
                CREATE TEMPORARY TABLE GITHUB_REPOS_TEMP (
                    extracted_at TIMESTAMP,
                    repo_name STRING,
                    raw_data STRING
                )
            ";
     temp_insert_query := "
                INSERT INTO GITHUB_REPOS_TEMP (extracted_at, repo_name, raw_data)
                VALUES (%s, %s, %s)
            ";
     final_insert_query := "
                INSERT INTO DATA_ENGINEERING_PROJECT.RAW_DATA.GITHUB_REPOS (extracted_at, repo_name, raw_data)
                SELECT extracted_at, repo_name, PARSE_JSON(raw_data)
                FROM GITHUB_REPOS_TEMP
            ";
     saved_fmt := "Successfully saved {} repositories to Snowflake" |}.

Definition save_to_snowflake (self : GitHubExtractor) (data : list PyDict) : M PyVal :=
  save_to_snowflake_on tables data.

Definition extract_all_repositories (self : GitHubExtractor) : M (list PyDict) :=
  extract_all "Starting extraction for {} repositories"
              "Extraction completed. {} repositories processed successfully"
              (get_repo_data self) (repositories self).

Definition token_error : Exn :=
  ValueError "GitHub token not provided. Set GITHUB_TOKEN environment variable.".

(** [not self.github_token]: the token is [None] or the empty string. *)
Definition token_missing (self : GitHubExtractor) : bool :=
  match github_token self with
  | None => true
  | Some t => String.eqb t ""
  end.

Definition run (self : GitHubExtractor) : M PyVal :=
  try_except
    ((if token_missing self then raise token_error else ret tt) ;;
     logger INFO "Starting GitHub data extraction" [] ;;
     data <- extract_all_repositories self ;;
     if list_truthy data then
       save_to_snowflake self data ;;
       logger INFO "GitHub extraction completed successfully" [] ;;
       ret PNone
     else
       logger WARNING "No data extracted" [] ;;
       ret PNone)
    (fun e =>
       logger ERROR "GitHub extraction failed: {}" [PStr (exn_str e)] ;;
       raise e).

End GitHub.

(** ** The PyPI extractor *)

Module PyPI.

Record PyPIExtractor : Type := mk_extractor {
  base_url : string;
  stats_url : string;
  packages : list string
}.

(** [PyPIExtractor.__init__] *)
Definition init : PyPIExtractor :=
  {| base_url := "https://pypi.org/pypi";
     stats_url := "https://pypistats.org/api";
     packages :=
       ["apache-airflow"; "dbt-core"; "pyspark"; "pandas"; "sqlalchemy";
        "great-expectations"; "prefect"; "kafka-python";
        "snowflake-connector-python"; "duckdb"] |}.

(** [stats_data.get("data", {}).get(k, 0)] *)
Definition recent (stats_data : PyVal) (k : string) : M PyVal :=
  d <- lift (py_get stats_data "data" (PDict [])) ;;
  lift (py_get d k (PInt 0)).

(** [latest_files[0].get(k)] *)
Definition first_file (latest_files : PyVal) (k : string) : M PyVal :=
  f <- lift (py_getitem latest_files (PInt 0)) ;;
  lift (py_get f k PNone).

(** The body of the [try] of [get_package_info]. *)
Definition get_package_info_body (self : PyPIExtractor) (package_name : string)
  : M (option PyDict) :=
  let package_url := base_url self ++ "/" ++ package_name ++ "/json" in
  response <- requests_get package_url [] ;;
  raise_for_status package_url response ;;
  package_data <- response_json response ;;
  let stats_url := stats_url self ++ "/packages/" ++ package_name ++ "/recent" in
  stats_response <- requests_get stats_url [] ;;
  download_stats <- (if status_code stats_response =? 200 then
                       stats_data <- response_json stats_response ;;
                       last_day <- recent stats_data "last_day" ;;
                       last_week <- recent stats_data "last_week" ;;
                       last_month <- recent stats_data "last_month" ;;
                       ret (dict_literal [("downloads_last_day", last_day);
                                          ("downloads_last_week", last_week);
                                          ("downloads_last_month", last_month)])
                     else ret []) ;;
  info <- lift (py_get package_data "info" (PDict [])) ;;
  releases <- lift (py_get package_data "releases" (PDict [])) ;;
  latest_version <- lift (py_get info "version" PNone) ;;
  has_latest <- (if truthy latest_version then lift (py_contains releases latest_version)
                 else ret false) ;;
  latest_release_info <-
    (if has_latest then
       latest_files <- lift (py_getitem releases latest_version) ;;
       if truthy latest_files then
         upload_time <- first_file latest_files "upload_time" ;;
         python_version <- first_file latest_files "python_version" ;;
         size <- first_file latest_files "size" ;;
         filename <- first_file latest_files "filename" ;;
         ret (dict_literal [("upload_time", upload_time);
                            ("python_version", python_version);
                            ("size", size);
                            ("filename", filename)])
       else ret []
     else ret []) ;;
  summary <- lift (py_get info "summary" PNone) ;;
  description_content_type <- lift (py_get info "description_content_type" PNone) ;;
  home_page <- lift (py_get info "home_page" PNone) ;;
  author <- lift (py_get info "author" PNone) ;;
  author_email <- lift (py_get info "author_email" PNone) ;;
  maintainer <- lift (py_get info "maintainer" PNone) ;;
  license <- lift (py_get info "license" PNone) ;;
  keywords <- lift (py_get info "keywords" PNone) ;;
  classifiers <- lift (py_get info "classifiers" (PList [])) ;;
  requires_dist <- lift (py_get info "requires_dist" (PList [])) ;;
  requires_python <- lift (py_get info "requires_python" PNone) ;;
  project_urls <- lift (py_get info "project_urls" (PDict [])) ;;
  release_count <- lift (py_len releases) ;;
  now <- datetime_now ;;
  let extracted_data :=
    dict_literal
      ([("package_name", PStr package_name);
        ("version", latest_version);
        ("summary", summary);
        ("description_content_type", description_content_type);
        ("home_page", home_page);
        ("author", author);
        ("author_email", author_email);
        ("maintainer", maintainer);
        ("license", license);
        ("keywords", keywords);
        ("classifiers", classifiers);
        ("requires_dist", requires_dist);
        ("requires_python", requires_python);
        ("project_urls", project_urls);
        ("release_count", PInt release_count);
        ("latest_release_info", PDict latest_release_info)]
       ++ download_stats
       ++ [("extracted_at", PStr (isoformat now))])%list in
  logger INFO "Successfully extracted data for {}" [PStr package_name] ;;
  ret (Some extracted_data).

Definition get_package_info (self : PyPIExtractor) (package_name : string) : M (option PyDict) :=
  try_except
    (get_package_info_body self package_name)
    (fun e =>
       if is_RequestException e then
         logger ERROR "Error fetching data for {}: {}" [PStr package_name; PStr (exn_str e)] ;;
         ret None
       else
         logger ERROR "Unexpected error for {}: {}" [PStr package_name; PStr (exn_str e)] ;;
         ret None).

Definition tables : Tables :=
  {| name_key := "package_name";
     temp_table_query := "
                CREATE TEMPORARY TABLE PYPI_PACKAGES_TEMP (
                    extracted_at TIMESTAMP,
                    package_name STRING,
                    raw_data STRING
                )
            ";
     temp_insert_query := "
                INSERT INTO PYPI_PACKAGES_TEMP (extracted_at, package_name, raw_data)
                VALUES (%s, %s, %s)
            ";
     final_insert_query := "
                INSERT INTO DATA_ENGINEERING_PROJECT.RAW_DATA.PYPI_PACKAGES (extracted_at, package_name, raw_data)
                SELECT extracted_at, package_name, PARSE_JSON(raw_data)
                FROM PYPI_PACKAGES_TEMP
            ";
     saved_fmt := "Successfully saved {} packages to Snowflake" |}.

Definition save_to_snowflake (self : PyPIExtractor) (data : list PyDict) : M PyVal :=
  save_to_snowflake_on tables data.

Definition extract_all_packages (self : PyPIExtractor) : M (list PyDict) :=
  extract_all "Starting extraction for {} packages"
              "Extraction completed. {} packages processed successfully"
              (get_package_info self) (packages self).

Definition run (self : PyPIExtractor) : M PyVal :=
  try_except
    (logger INFO "Starting PyPI data extraction" [] ;;
     data <- extract_all_packages self ;;
     if list_truthy data then
       save_to_snowflake self data ;;
       logger INFO "PyPI extraction completed successfully" [] ;;
       ret PNone
     else
       logger WARNING "No data extracted" [] ;;
       ret PNone)
    (fun e =>
       logger ERROR "PyPI extraction failed: {}" [PStr (exn_str e)] ;;
       raise e).

End PyPI.

(** ** Sample worlds

    A world whose HTTP service answers the successive requests from a
    script (and refuses the connection once the script is over), whose
    clock ticks from a list of readings, and whose warehouse fails the
    calls a predicate picks. *)

Definition resp (status : Z) (body : option PyVal) : HttpOutcome :=
  HttpResp (mk_response status body).

Definition noon (second microsecond : Z) : datetime :=
  mk_datetime 2025 8 30 12 0 second microsecond.

Definition scripted (http : list HttpOutcome) (clock : list datetime)
           (wh : WhCall -> option string) : World :=
  mk_world (fun n _ => nth n http (HttpFail "connection refused")) 0
           (fun n => nth n clock (noon 59 999999)) 0 wh None None [].

Definition wh_ok : WhCall -> option string := fun _ => None.

Definition gh : GitHub.GitHubExtractor := GitHub.init (Some "ghp_token").
Definition pypi : PyPI.PyPIExtractor := PyPI.init.

(** The two templates of the fetchers' error lines. *)
Definition fetch_error_fmts : list string :=
  ["Error fetching data for {}: {}"; "Unexpected error for {}: {}"].

(** ** Vocabulary of the loader's properties *)

(** The serialize-and-validate gate of the staging loop, by itself: the text
    of a record when [json.dumps] and then [json.loads] both return, the
    exception of the first that raises otherwise. *)
Definition gate (record : PyDict) : Result string :=
  match json_dumps (PDict record) with
  | Ok json_str =>
      match json_loads json_str with
      | Ok _ => Ok json_str
      | Raise e => Raise e
      end
  | Raise e => Raise e
  end.

Definition passes_gate (record : PyDict) : bool :=
  match gate record with Ok _ => true | Raise _ => false end.

(** The rows the loop stages from [data] when the clock has been read
    [tick] times: one per non-empty record that passes the gate, each
    stamped with the next reading of the clock. *)
Fixpoint staged (name_key : string) (clock : nat -> datetime) (tick : nat)
         (data : list PyDict) : list Row :=
  match data with
  | [] => []
  | record :: data' =>
      if dict_truthy record then
        match gate record with
        | Ok json_str =>
            (clock tick, dict_get record name_key PNone, json_str)
              :: staged name_key clock (S tick) data'
        | Raise _ => staged name_key clock tick data'
        end
      else staged name_key clock tick data'
  end.

(** The lines the loop logs: one per non-empty record the gate rejects. *)
Fixpoint drop_logs (name_key : string) (data : list PyDict) : list Event :=
  match data with
  | [] => []
  | record :: data' =>
      if dict_truthy record then
        match gate record with
        | Ok _ => drop_logs name_key data'
        | Raise e =>
            EvLog ERROR "JSON serialization/validation failed for {}: {}"
                  [dict_get record name_key PNone; PStr (exn_str e)]
              :: drop_logs name_key data'
        end
      else drop_logs name_key data'
  end.

(** [w] after [n] more readings of the clock and the events [evs]. *)
Definition tick_and_emit (n : nat) (evs : list Event) (w : World) : World :=
  mk_world (w_http w) (w_reqs w) (w_clock w) (w_ticks w + n) (w_wh w)
           (w_conn w) (w_cursor w) (w_trace w ++ evs).

(** *** The paths through [save_to_snowflake]

    A run of the loader on a non-empty batch is decided by which warehouse
    call raises first, if any.  The table below lists, for each such
    outcome of the [try] body, the calls and log lines the body makes; the
    lemma [save_to_snowflake_run] shows that the code follows it. *)

Inductive LoadStage : Type :=
| AtConnect | AtCursor | AtUseSchema | AtCreateTemp | AtInsert | AtPromote | AtCommit.

Inductive BodyOutcome : Type :=
| Failed (at_stage : LoadStage) (msg : string)   (* the call of that stage raised *)
| Filtered                                       (* no row survived the loop *)
| Saved.                                         (* committed *)

Definition body_outcome (tb : Tables) (wh : WhCall -> option string) (rows : list Row)
  : BodyOutcome :=
  match wh WhConnect with Some m => Failed AtConnect m | None =>
  match wh WhCursor with Some m => Failed AtCursor m | None =>
  match wh (WhExecute use_schema_query) with Some m => Failed AtUseSchema m | None =>
  match wh (WhExecute (temp_table_query tb)) with Some m => Failed AtCreateTemp m | None =>
  match rows with [] => Filtered | _ :: _ =>
  match wh (WhExecuteMany (temp_insert_query tb) rows) with Some m => Failed AtInsert m | None =>
  match wh (WhExecute (final_insert_query tb)) with Some m => Failed AtPromote m | None =>
  match wh WhCommit with Some m => Failed AtCommit m | None =>
  Saved
  end end end end end end end end.

Definition open_session (tb : Tables) : list Event :=
  [EvWh WhConnect; EvWh WhCursor; EvWh (WhExecute use_schema_query);
   EvWh (WhExecute (temp_table_query tb))].

Definition body_events (tb : Tables) (rows : list Row) (logs : list Event) (o : BodyOutcome)
  : list Event :=
  match o with
  | Failed AtConnect _ => [EvWh WhConnect]
  | Failed AtCursor _ => [EvWh WhConnect; EvWh WhCursor]
  | Failed AtUseSchema _ => [EvWh WhConnect; EvWh WhCursor; EvWh (WhExecute use_schema_query)]
  | Failed AtCreateTemp _ => open_session tb
  | Filtered =>
      open_session tb ++ logs ++ [EvLog WARNING "No valid data to insert after filtering." []]
  | Failed AtInsert _ =>
      open_session tb ++ logs ++ [EvWh (WhExecuteMany (temp_insert_query tb) rows)]
  | Failed AtPromote _ =>
      open_session tb ++ logs
        ++ [EvWh (WhExecuteMany (temp_insert_query tb) rows);
            EvWh (WhExecute (final_insert_query tb))]
  | Failed AtCommit _ =>
      open_session tb ++ logs
        ++ [EvWh (WhExecuteMany (temp_insert_query tb) rows);
            EvWh (WhExecute (final_insert_query tb));
            EvWh WhCommit]
  | Saved =>
      open_session tb ++ logs
        ++ [EvWh (WhExecuteMany (temp_insert_query tb) rows);
            EvWh (WhExecute (final_insert_query tb));
            EvWh WhCommit;
            EvLog INFO (saved_fmt tb) [PInt (Z.of_nat (List.length rows))]]
  end%list.

(** Whether [conn] and [cursor] were assigned, and whether the loop ran. *)
Definition has_conn (o : BodyOutcome) : bool :=
  match o with Failed AtConnect _ => false | _ => true end.

Definition has_cursor (o : BodyOutcome) : bool :=
  match o with Failed AtConnect _ | Failed AtCursor _ => false | _ => true end.

Definition loop_ran (o : BodyOutcome) : bool :=
  match o with
  | Failed AtConnect _ | Failed AtCursor _ | Failed AtUseSchema _ | Failed AtCreateTemp _ => false
  | _ => true
  end.

(** The [except] clause: nothing when the body returned; the ERROR line and,
    with a connection, the rollback when it raised. *)
Definition handler_events (o : BodyOutcome) : list Event :=
  match o with
  | Failed _ msg =>
      EvLog ERROR "Error saving to Snowflake: {}" [PStr msg]
        :: (if has_conn o then [EvWh WhRollback] else [])
  | _ => []
  end.

Definition handler_result (wh : WhCall -> option string) (o : BodyOutcome) : Result PyVal :=
  match o with
  | Failed _ msg =>
      if has_conn o then
        match wh WhRollback with
        | Some m => Raise (SnowflakeError m)
        | None => Raise (SnowflakeError msg)
        end
      else Raise (SnowflakeError msg)
  | _ => Ok PNone
  end.

(** The [finally] clause: the cursor is closed when there is one, then the
    connection when there is one -- unless closing the cursor raised. *)
Definition cursor_close_raises (wh : WhCall -> option string) (o : BodyOutcome) : option string :=
  if has_cursor o then wh WhCursorClose else None.

Definition finally_events (wh : WhCall -> option string) (o : BodyOutcome) : list Event :=
  ((if has_cursor o then [EvWh WhCursorClose] else [])
   ++ match cursor_close_raises wh o with
      | Some _ => []
      | None => if has_conn o then [EvWh WhConnClose] else []
      end)%list.

Definition load_result (wh : WhCall -> option string) (o : BodyOutcome) : Result PyVal :=
  match cursor_close_raises wh o with
  | Some m => Raise (SnowflakeError m)
  | None =>
      match (if has_conn o then wh WhConnClose else None) with
      | Some m => Raise (SnowflakeError m)
      | None => handler_result wh o
      end
  end.

Definition load_events (tb : Tables) (wh : WhCall -> option string) (rows : list Row)
           (logs : list Event) (o : BodyOutcome) : list Event :=
  (body_events tb rows logs o ++ handler_events o ++ finally_events wh o)%list.

(** The call each stage makes. *)
Definition stage_call (tb : Tables) (rows : list Row) (st : LoadStage) : WhCall :=
  match st with
  | AtConnect => WhConnect
  | AtCursor => WhCursor
  | AtUseSchema => WhExecute use_schema_query
  | AtCreateTemp => WhExecute (temp_table_query tb)
  | AtInsert => WhExecuteMany (temp_insert_query tb) rows
  | AtPromote => WhExecute (final_insert_query tb)
  | AtCommit => WhCommit
  end.

(** The session opens and the temporary table is created. *)
Definition stage_created (tb : Tables) (wh : WhCall -> option string) : Prop :=
  wh WhConnect = None /\ wh WhCursor = None
  /\ wh (WhExecute use_schema_query) = None
  /\ wh (WhExecute (temp_table_query tb)) = None.

(** Between the creation of the temporary table and the commit, the call
    of stage [st] -- the staging insert, the promotion or the commit -- is
    the first to raise, with message [msg]. *)
Definition load_fails_at (tb : Tables) (wh : WhCall -> option string) (rows : list Row)
           (st : LoadStage) (msg : string) : Prop :=
  wh (stage_call tb rows st) = Some msg
  /\ match st with
     | AtInsert => True
     | AtPromote => wh (WhExecuteMany (temp_insert_query tb) rows) = None
     | AtCommit =>
         wh (WhExecuteMany (temp_insert_query tb) rows) = None
         /\ wh (WhExecute (final_insert_query tb)) = None
     | _ => False
     end.

(** The calls of the body that come before the call of stage [st], once the
    temporary table exists. *)
Definition calls_before (tb : Tables) (rows : list Row) (st : LoadStage) : list Event :=
  match st with
  | AtPromote => [EvWh (WhExecuteMany (temp_insert_query tb) rows)]
  | AtCommit => [EvWh (WhExecuteMany (temp_insert_query tb) rows);
                 EvWh (WhExecute (final_insert_query tb))]
  | _ => []
  end.

Definition is_commit (e : Event) : bool :=
  match e with EvWh WhCommit => true | _ => false end.

(** A record the loop stages: non-empty, and through the gate. *)
Definition accepted (record : PyDict) : bool :=
  dict_truthy record && passes_gate record.

(** A record the loop logs and drops: non-empty, and stopped by the gate. *)
Definition dropped (record : PyDict) : bool :=
  dict_truthy record && negb (passes_gate record).

(** What a staged row holds of its record: the entity name and the text
    [json.dumps] gave. *)
Definition row_of_record (name_key : string) (record : PyDict) (row : Row) : Prop :=
  snd (fst row) = dict_get record name_key PNone
  /\ json_dumps (PDict record) = Ok (snd row).

Definition row_stamp (row : Row) : datetime := fst (fst row).

(** Worlds and records to run the loader on. *)
Definition wh_fails (bad : WhCall -> bool) (msg : string) : WhCall -> option string :=
  fun c => if bad c then Some msg else None.

Definition is_promotion (tb : Tables) (c : WhCall) : bool :=
  match c with
  | WhExecute sql => String.eqb sql (final_insert_query tb)
  | _ => false
  end.

Definition airflow_record : PyDict :=
  [("repo_name", PStr "apache/airflow"); ("stars", PInt 41000);
   ("extracted_at", PStr "2025-08-30T12:00:01+00:00")].

Definition spark_record : PyDict :=
  [("repo_name", PStr "apache/spark"); ("topics", PList [PStr "sql"; PStr "big-data"]);
   ("extracted_at", PStr "2025-08-30T12:00:03+00:00")].

(** A warehouse in which the staging insert raises and then
    [cursor.close()] raises too, and one in which the promotion raises and
    then the rollback raises too. *)
Definition insert_and_close_fail : WhCall -> option string :=
  fun c =>
    match c with
    | WhExecuteMany _ _ => Some "insert failed"
    | WhCursorClose => Some "session expired"
    | _ => None
    end.

Definition promotion_and_rollback_fail : WhCall -> option string :=
  fun c =>
    match c with
    | WhExecute sql =>
        if String.eqb sql (final_insert_query GitHub.tables)
        then Some "SQL compilation error" else None
    | WhRollback => Some "connection lost"
    | _ => None
    end.

(** A record that [json.dumps] refuses: it holds a [datetime] object. *)
Definition unserializable_record : PyDict :=
  [("repo_name", PStr "duckdb/duckdb"); ("extracted_at", PDatetime (noon 5 0))].

(** A run in which only the first repository answers, and the wall clock
    is set back by a second between the fetch and the load. *)
Definition clock_set_back_world : World :=
  scripted [resp 200 (Some (PDict [("full_name", PStr "apache/airflow")]));
            resp 200 (Some (PList [])); resp 200 (Some (PList []))]
           [noon 30 0; noon 29 0] wh_ok.

(** A clock that advances by a microsecond at each reading, and a world
    in which it has been read once (by a fetch) when the loader is called. *)
Definition ticking_clock (n : nat) : datetime :=
  mk_datetime 2025 8 30 12 0 0 (Z.of_nat n).

Definition after_fetch_world : World :=
  mk_world (fun _ _ => HttpFail "connection refused") 3 ticking_clock 1 wh_ok None None [].

Definition airflow_json : string :=
  Eval vm_compute in
    match json_dumps (PDict airflow_record) with Ok t => t | Raise _ => "" end.

(** The run of [clock_set_back_world] again, on the ticking clock: its
    trace, and the rows it hands to [executemany]. *)
Definition ticking_run_world : World :=
  mk_world (w_http clock_set_back_world) 0 ticking_clock 0 wh_ok None None [].

Definition executemany_rows (evs : list Event) : list Row :=
  flat_map (fun e => match e with EvWh (WhExecuteMany _ rows) => rows | _ => [] end) evs.

Definition ticking_run_trace : list Event :=
  Eval vm_compute in w_trace (snd (GitHub.run gh ticking_run_world)).

Definition ticking_run_rows : list Row :=
  Eval vm_compute in executemany_rows ticking_run_trace.

(** Every later reading of the clock is later. *)
Definition clock_increasing (clock : nat -> datetime) : Prop :=
  forall i j, (i < j)%nat -> datetime_ltb (clock i) (clock j) = true.

(** A computation leaves the clock as it is and only reads it forward. *)
Definition clock_mono {A} (m : M A) : Prop :=
  forall w r w', m w = (r, w') ->
    w_clock w' = w_clock w /\ (w_ticks w <= w_ticks w')%nat.

(** The record's [extracted_at] is one of the readings [lo], ..., [hi - 1]
    of the clock. *)
Definition stamped_in (clock : nat -> datetime) (lo hi : nat) (record : PyDict) : Prop :=
  exists i, (lo <= i < hi)%nat
            /\ dict_lookup "extracted_at" record = Some (PStr (isoformat (clock i))).

Definition not_warehouse (e : Event) : Prop :=
  match e with EvWh _ => False | _ => True end.

(** In a run [m], on a clock whose readings increase, each row handed to
    [executemany] was staged from a record of one extracted batch, and its
    stamp is later than the [extracted_at] of every record of that batch. *)
Definition stamps_later {A} (name_key : string) (m : M A) : Prop :=
  forall w evs sql rows,
    clock_increasing (w_clock w) ->
    w_trace (snd (m w)) = (w_trace w ++ evs)%list ->
    In (EvWh (WhExecuteMany sql rows)) evs ->
    exists batch,
      Forall2 (row_of_record name_key) (filter accepted batch) rows
      /\ forall record row, In record batch -> In row rows ->
           exists t, dict_lookup "extracted_at" record = Some (PStr (isoformat t))
                     /\ datetime_ltb t (row_stamp row) = true.

(** ** Vocabulary of the fetchers' properties *)

(** The keys of the dict display of [get_repo_data], in its order. *)
Definition github_fields : list string :=
  ["repo_name"; "full_name"; "description"; "language"; "stars"; "forks"; "watchers";
   "open_issues"; "size"; "created_at"; "updated_at"; "pushed_at"; "default_branch";
   "contributors_count"; "releases_count"; "latest_release"; "topics"; "license";
   "extracted_at"].

(** The keys the dict display of [get_package_info] writes out itself, up to
    the place where [**download_stats] is spliced in. *)
Definition pypi_fields : list string :=
  ["package_name"; "version"; "summary"; "description_content_type"; "home_page";
   "author"; "author_email"; "maintainer"; "license"; "keywords"; "classifiers";
   "requires_dist"; "requires_python"; "project_urls"; "release_count";
   "latest_release_info"].

(** The keys of [download_stats] when the statistics call answers 200. *)
Definition download_fields : list string :=
  ["downloads_last_day"; "downloads_last_week"; "downloads_last_month"].

(** Whether the statistics call of [get_package_info] -- the second request
    it sends -- is answered with status 200. *)
Definition stats_answered_200 (self : PyPI.PyPIExtractor) (package_name : string) (w : World)
  : bool :=
  match w_http w (S (w_reqs w))
               (PyPI.stats_url self ++ "/packages/" ++ package_name ++ "/recent") with
  | HttpResp r => status_code r =? 200
  | HttpFail _ => false
  end.

(** The record [get_repo_data] builds when the primary answer is an empty
    object and neither secondary call answers 200. *)
Definition github_defaults (repo_name : string) (now : datetime) : PyDict :=
  [("repo_name", PStr repo_name); ("full_name", PNone); ("description", PNone);
   ("language", PNone); ("stars", PInt 0); ("forks", PInt 0); ("watchers", PInt 0);
   ("open_issues", PInt 0); ("size", PInt 0); ("created_at", PNone);
   ("updated_at", PNone); ("pushed_at", PNone); ("default_branch", PNone);
   ("contributors_count", PInt 0); ("releases_count", PInt 0);
   ("latest_release", PNone); ("topics", PList []); ("license", PNone);
   ("extracted_at", PStr (isoformat now))].

(** The record [get_package_info] builds when both answers are empty
    objects with status 200. *)
Definition pypi_defaults (package_name : string) (now : datetime) : PyDict :=
  [("package_name", PStr package_name); ("version", PNone); ("summary", PNone);
   ("description_content_type", PNone); ("home_page", PNone); ("author", PNone);
   ("author_email", PNone); ("maintainer", PNone); ("license", PNone);
   ("keywords", PNone); ("classifiers", PList []); ("requires_dist", PList []);
   ("requires_python", PNone); ("project_urls", PDict []); ("release_count", PInt 0);
   ("latest_release_info", PDict []);
   ("downloads_last_day", PInt 0); ("downloads_last_week", PInt 0);
   ("downloads_last_month", PInt 0);
   ("extracted_at", PStr (isoformat now))].

(** A request or a sleep that would be a further attempt at [url]. *)
Definition is_retry_of (url : string) (e : Event) : bool :=
  match e with
  | EvSleep _ => true
  | EvGet u _ => String.eqb u url
  | _ => false
  end.

(** An answer [raise_for_status] does not let through, or no answer. *)
Definition http_refused (o : HttpOutcome) : bool :=
  match o with
  | HttpFail _ => true
  | HttpResp r => (400 <=? status_code r) && (status_code r <? 600)
  end.

Definition repo_url (self : GitHub.GitHubExtractor) (repo_name : string) : string :=
  GitHub.base_url self ++ "/repos/" ++ repo_name.

Definition package_url (self : PyPI.PyPIExtractor) (package_name : string) : string :=
  PyPI.base_url self ++ "/" ++ package_name ++ "/json".

(** ** Vocabulary of the driver's property *)

(** One pass of the extraction loop over [entities], from world [w]: the
    result of the fetch of each entity, in order, and the world left.  Each
    entity is announced with a log line, fetched once in the world so
    reached, and followed by the one-second pause, whether the fetch
    returned a record or [None]. *)
Inductive Pass (fetch : string -> M (option PyDict))
  : list string -> World -> list (option PyDict) -> World -> Prop :=
| Pass_done w : Pass fetch [] w [] w
| Pass_step entity entities w r w1 rs w2 :
    fetch entity (emit (EvLog INFO "Extracting data for {}" [PStr entity]) w) = (Ok r, w1) ->
    Pass fetch entities (emit (EvSleep 1) w1) rs w2 ->
    Pass fetch (entity :: entities) w (r :: rs) w2.

(** The records among the results of a pass, in order. *)
Fixpoint successes (rs : list (option PyDict)) : list PyDict :=
  match rs with
  | [] => []
  | Some d :: rs' => d :: successes rs'
  | None :: rs' => successes rs'
  end.

(** The entities whose fetch returned a record, in order. *)
Fixpoint succeeded (entities : list string) (rs : list (option PyDict)) : list string :=
  match entities, rs with
  | entity :: entities', Some _ :: rs' => entity :: succeeded entities' rs'
  | _ :: entities', None :: rs' => succeeded entities' rs'
  | _, _ => []
  end.

(** The scenario of two repositories: the first is rate-limited once and
    then answers, the second does not exist. *)
Definition two_repos : GitHub.GitHubExtractor :=
  GitHub.mk_extractor (Some "ghp_token") "https://api.github.com"
                      (GitHub.headers gh) ["orgA/repoX"; "orgB/repoY"].

Definition two_repos_world : World :=
  scripted [resp 403 None;
            resp 200 (Some (PDict [("full_name", PStr "orgA/repoX")]));
            resp 200 (Some (PList [])); resp 200 (Some (PList []));
            resp 404 None]
           [noon 1 0] wh_ok.

Definition is_sleep (seconds : Z) (e : Event) : bool :=
  match e with EvSleep n => n =? seconds | _ => false end.

(** ** Vocabulary of the round trip *)

(** What can follow a value in the text [json.dumps] writes. *)
Definition delimited (rest : string) : Prop :=
  match rest with
  | EmptyString => True
  | String c _ => c = ","%char \/ c = "]"%char \/ c = "}"%char
  end.

Fixpoint keys_distinct (ks : list string) : bool :=
  match ks with
  | [] => true
  | k :: ks' => negb (existsb (String.eqb k) ks') && keys_distinct ks'
  end.

(** The values that are Python values at all: a dict has each key once. *)
Fixpoint well_formed (v : PyVal) : bool :=
  match v with
  | PList l | PTuple l => forallb well_formed l
  | PDict d => keys_distinct (map fst d) && forallb (fun kv => well_formed (snd kv)) d
  | _ => true
  end.

(** The values JSON has: [None], booleans, integers, strings, lists and
    dicts of such -- no tuple, no [datetime]. *)
Fixpoint json_native (v : PyVal) : bool :=
  match v with
  | PNone | PBool _ | PInt _ | PStr _ => true
  | PList l => forallb json_native l
  | PDict d => keys_distinct (map fst d) && forallb (fun kv => json_native (snd kv)) d
  | PTuple _ | PDatetime _ => false
  end.

(** What [json.loads] makes of the text of a value: tuples come back as
    lists. *)
Fixpoint json_norm (v : PyVal) : PyVal :=
  match v with
  | PList l | PTuple l => PList (map json_norm l)
  | PDict d => PDict (map (fun kv => (fst kv, json_norm (snd kv))) d)
  | _ => v
  end.

(** Fuel that suffices to parse the text of a value. *)
Fixpoint parse_fuel (v : PyVal) : nat :=
  match v with
  | PList l | PTuple l => S (fold_right (fun x n => S (parse_fuel x + n)) 0 l)
  | PDict d => S (fold_right (fun kv n => S (parse_fuel (snd kv) + n)) 0 d)
  | _ => 1
  end%nat.

(** The first character of the text of a value. *)
Definition value_head (c : ascii) : Prop :=
  is_ws c = false /\ c <> "]"%char /\ c <> "}"%char.

(** The text of one member of an object, as [json_dumps] writes it. *)
Definition dumps_member (kv : string * PyVal) : Result string :=
  let (k, x) := kv in
  match json_dumps x with
  | Ok sx => Ok (json_quote k ++ ": " ++ sx)%string
  | Raise e => Raise e
  end.

Definition norm_member (kv : string * PyVal) : string * PyVal :=
  (fst kv, json_norm (snd kv)).

(** The decoder, given fuel enough, reads the text of [v] back as
    [json_norm v] and stops at what follows it. *)
Definition parses (v : PyVal) : Prop :=
  forall s, json_dumps v = Ok s -> well_formed v = true ->
  forall fuel rest, delimited rest -> (parse_fuel v <= fuel)%nat ->
  parse_value fuel (s ++ rest)%string = Some (json_norm v, rest).

(** A record that passes the gate and does not come back as it went in:
    its [topics] is a tuple. *)
Definition tuple_record : PyDict :=
  [("repo_name", PStr "apache/kafka"); ("topics", PTuple [PStr "streaming"; PStr "queue"])].

(** ** Vocabulary of the proofs *)

(** Which exceptions a computation can raise. *)
Definition raises_only {A} (P : Exn -> Prop) (m : M A) : Prop :=
  forall w e w', m w = (Raise e, w') -> P e.

Definition never_raises {A} (m : M A) : Prop := raises_only (fun _ => False) m.

Definition is_SnowflakeError (e : Exn) : Prop := exists msg, e = SnowflakeError msg.

(** Which events a computation can add to the trace. *)
Definition emits_only {A} (P : Event -> Prop) (m : M A) : Prop :=
  forall w r w', m w = (r, w') ->
    exists evs, w_trace w' = (w_trace w ++ evs)%list /\ Forall P evs.


(** ** Induction on values *)

Section PyVal_induction.
Variable P : PyVal -> Prop.
Hypothesis HNone : P PNone.
Hypothesis HBool : forall b, P (PBool b).
Hypothesis HInt : forall z, P (PInt z).
Hypothesis HStr : forall s, P (PStr s).
Hypothesis HList : forall l, Forall P l -> P (PList l).
Hypothesis HTuple : forall l, Forall P l -> P (PTuple l).
Hypothesis HDict : forall d, Forall (fun kv => P (snd kv)) d -> P (PDict d).
Hypothesis HDatetime : forall t, P (PDatetime t).

Fixpoint PyVal_nested_ind (v : PyVal) : P v :=
  match v with
  | PNone => HNone
  | PBool b => HBool b
  | PInt z => HInt z
  | PStr s => HStr s
  | PList l =>
      HList l ((fix go (l : list PyVal) : Forall P l :=
                  match l with
                  | [] => Forall_nil P
                  | x :: l' => Forall_cons x (PyVal_nested_ind x) (go l')
                  end) l)
  | PTuple l =>
      HTuple l ((fix go (l : list PyVal) : Forall P l :=
                   match l with
                   | [] => Forall_nil P
                   | x :: l' => Forall_cons x (PyVal_nested_ind x) (go l')
                   end) l)
  | PDict d =>
      HDict d ((fix go (d : list (string * PyVal)) : Forall (fun kv => P (snd kv)) d :=
                  match d with
                  | [] => Forall_nil _
                  | kv :: d' =>
                      Forall_cons (P := fun kv => P (snd kv)) kv
                                  (PyVal_nested_ind (snd kv)) (go d')
                  end) d)
  | PDatetime t => HDatetime t
  end.
End PyVal_induction.

(** ** Vocabulary of the further properties *)

(** A warehouse call or a log line: what the loader does. *)
Definition wh_or_log (e : Event) : Prop :=
  match e with EvWh _ | EvLog _ _ _ => True | _ => False end.

(** The body of [run] that the two classes share, over the fetcher, the
    catalog, the tables and the words of the log lines. *)
Definition run_body (start_fmt done_fmt : string) (fetch : string -> M (option PyDict))
           (entities : list string) (tb : Tables) (l1 l2 l3 : string) : M PyVal :=
  logger INFO l1 [] ;;
  data <- extract_all start_fmt done_fmt fetch entities ;;
  if list_truthy data then
    save_to_snowflake_on tb data ;;
    logger INFO l2 [] ;;
    ret PNone
  else
    logger WARNING l3 [] ;;
    ret PNone.

(** How a run goes: the batch the extraction returns in world [w1], what
    the loader then adds to the trace, and the last line [run] logs. *)
Definition run_phases (m : M PyVal) (extract : M (list PyDict)) (tb : Tables)
           (l1 l2 l3 l4 : string) (w : World) : Prop :=
  exists batch w1 pre load tail,
    extract (emit (EvLog INFO l1 []) w) = (Ok batch, w1)
    /\ w_trace w1 = (w_trace w ++ EvLog INFO l1 [] :: pre)%list
    /\ Forall not_warehouse pre
    /\ w_trace (snd (m w)) = (w_trace w1 ++ load ++ [tail])%list
    /\ Forall wh_or_log load
    /\ (batch = [] ->
        load = [] /\ tail = EvLog WARNING l3 [] /\ fst (m w) = Ok PNone)
    /\ (batch <> [] ->
        w_trace (snd (save_to_snowflake_on tb batch w1)) = (w_trace w1 ++ load)%list
        /\ match fst (save_to_snowflake_on tb batch w1) with
           | Ok _ => fst (m w) = Ok PNone /\ tail = EvLog INFO l2 []
           | Raise e => fst (m w) = Raise e /\ tail = EvLog ERROR l4 [PStr (exn_str e)]
           end).

(** Every request fails on the wire. *)
Definition offline (w : World) : Prop :=
  forall n url, exists msg, w_http w n url = HttpFail msg.

(** Neither the opening nor the closing of the connection. *)
Definition within_session (e : Event) : Prop :=
  e <> EvWh WhConnect /\ e <> EvWh WhConnClose.

Definition contributors_url (self : GitHub.GitHubExtractor) (repo_name : string) : string :=
  GitHub.base_url self ++ "/repos/" ++ repo_name ++ "/contributors".

Definition releases_url (self : GitHub.GitHubExtractor) (repo_name : string) : string :=
  GitHub.base_url self ++ "/repos/" ++ repo_name ++ "/releases".

Definition recent_url (self : PyPI.PyPIExtractor) (package_name : string) : string :=
  PyPI.stats_url self ++ "/packages/" ++ package_name ++ "/recent".

(** What a fetch of [repo_name] that is not rate-limited adds to the trace
    when it returns a record; after a 403, the warning, the pause and the
    second request for the primary URL come after the first. *)
Definition github_fetch_events (self : GitHub.GitHubExtractor) (repo_name : string)
           (rate_limited : bool) : list Event :=
  (EvGet (repo_url self repo_name) (GitHub.headers self)
   :: (if rate_limited then
         [EvLog WARNING "Rate limit hit for {}, waiting..." [PStr repo_name];
          EvSleep 60;
          EvGet (repo_url self repo_name) (GitHub.headers self)]
       else [])
   ++ [EvGet (contributors_url self repo_name) (GitHub.headers self);
       EvGet (releases_url self repo_name) (GitHub.headers self);
       EvLog INFO "Successfully extracted data for {}" [PStr repo_name]])%list.

Definition pypi_fetch_events (self : PyPI.PyPIExtractor) (package_name : string) : list Event :=
  [EvGet (package_url self package_name) [];
   EvGet (recent_url self package_name) [];
   EvLog INFO "Successfully extracted data for {}" [PStr package_name]].

(** A computation that leaves the world as it found it. *)
Definition silent {A} (m : M A) : Prop := forall w r w', m w = (r, w') -> w' = w.

(** The answer [get_repo_data] builds its record from: the first answer to
    the primary request, or the second when the first was a 403. *)
Definition primary_answer (self : GitHub.GitHubExtractor) (repo_name : string) (w : World)
  : option Response :=
  match w_http w (w_reqs w) (repo_url self repo_name) with
  | HttpResp r1 =>
      if status_code r1 =? 403 then
        match w_http w (S (w_reqs w)) (repo_url self repo_name) with
        | HttpResp r2 => Some r2
        | HttpFail _ => None
        end
      else Some r1
  | HttpFail _ => None
  end.

(** How many requests for the primary URL that took. *)
Definition primary_requests (self : GitHub.GitHubExtractor) (repo_name : string) (w : World)
  : nat :=
  match w_http w (w_reqs w) (repo_url self repo_name) with
  | HttpResp r1 => if status_code r1 =? 403 then 2 else 1
  | HttpFail _ => 1
  end.

(** [len(contributors_response.json()) if contributors_response.status_code == 200 else 0] *)
Definition contributors_counted (rc : Response) (n : Z) : Prop :=
  if status_code rc =? 200
  then exists j, json_body rc = Some j /\ py_len j = Ok n
  else n = 0.

(** [releases], its length, and [releases[0] if releases else None] *)
Definition releases_listed (rr : Response) (n : Z) (latest : PyVal) : Prop :=
  exists releases,
    (if status_code rr =? 200 then json_body rr = Some releases else releases = PList [])
    /\ py_len releases = Ok n
    /\ if truthy releases then py_getitem releases (PInt 0) = Ok latest else latest = PNone.

(** The record of [get_repo_data], field by field, from the object [rd] of
    the primary answer. *)
Definition github_record (repo_name : string) (rd : PyDict)
           (contributors_count releases_count : Z) (latest_release : PyVal)
           (now : datetime) : PyDict :=
  [("repo_name", PStr repo_name);
   ("full_name", dict_get rd "full_name" PNone);
   ("description", dict_get rd "description" PNone);
   ("language", dict_get rd "language" PNone);
   ("stars", dict_get rd "stargazers_count" (PInt 0));
   ("forks", dict_get rd "forks_count" (PInt 0));
   ("watchers", dict_get rd "watchers_count" (PInt 0));
   ("open_issues", dict_get rd "open_issues_count" (PInt 0));
   ("size", dict_get rd "size" (PInt 0));
   ("created_at", dict_get rd "created_at" PNone);
   ("updated_at", dict_get rd "updated_at" PNone);
   ("pushed_at", dict_get rd "pushed_at" PNone);
   ("default_branch", dict_get rd "default_branch" PNone);
   ("contributors_count", PInt contributors_count);
   ("releases_count", PInt releases_count);
   ("latest_release", latest_release);
   ("topics", dict_get rd "topics" (PList []));
   ("license", match dict_get rd "license" PNone with
               | PDict l => dict_get l "name" PNone
               | _ => PNone
               end);
   ("extracted_at", PStr (isoformat now))].

(** [download_stats]: the three counts of the statistics answer when its
    status is 200, the empty dict otherwise. *)
Definition download_stats_of (rs : Response) (download_stats : PyDict) : Prop :=
  if status_code rs =? 200 then
    exists stats_data data,
      json_body rs = Some (PDict stats_data)
      /\ dict_get stats_data "data" (PDict []) = PDict data
      /\ download_stats
         = [("downloads_last_day", dict_get data "last_day" (PInt 0));
            ("downloads_last_week", dict_get data "last_week" (PInt 0));
            ("downloads_last_month", dict_get data "last_month" (PInt 0))]
  else download_stats = [].

Definition file_info (file : PyDict) : PyDict :=
  [("upload_time", dict_get file "upload_time" PNone);
   ("python_version", dict_get file "python_version" PNone);
   ("size", dict_get file "size" PNone);
   ("filename", dict_get file "filename" PNone)].

(** [latest_release_info]: the four fields of the first file of the latest
    version, when there is a version, it is among the releases and it has
    files; the empty dict otherwise. *)
Definition latest_release_info_of (latest_version releases : PyVal)
           (latest_release_info : PyDict) : Prop :=
  if truthy latest_version then
    exists listed,
      py_contains releases latest_version = Ok listed
      /\ if listed then
           exists latest_files,
             py_getitem releases latest_version = Ok latest_files
             /\ if truthy latest_files then
                  exists file,
                    py_getitem latest_files (PInt 0) = Ok (PDict file)
                    /\ latest_release_info = file_info file
                else latest_release_info = []
         else latest_release_info = []
  else latest_release_info = [].

(** The record of [get_package_info], field by field, from the object
    [info] of the primary answer. *)
Definition pypi_record (package_name : string) (info : PyDict) (release_count : Z)
           (latest_release_info download_stats : PyDict) (now : datetime) : PyDict :=
  ([("package_name", PStr package_name);
    ("version", dict_get info "version" PNone);
    ("summary", dict_get info "summary" PNone);
    ("description_content_type", dict_get info "description_content_type" PNone);
    ("home_page", dict_get info "home_page" PNone);
    ("author", dict_get info "author" PNone);
    ("author_email", dict_get info "author_email" PNone);
    ("maintainer", dict_get info "maintainer" PNone);
    ("license", dict_get info "license" PNone);
    ("keywords", dict_get info "keywords" PNone);
    ("classifiers", dict_get info "classifiers" (PList []));
    ("requires_dist", dict_get info "requires_dist" (PList []));
    ("requires_python", dict_get info "requires_python" PNone);
    ("project_urls", dict_get info "project_urls" (PDict []));
    ("release_count", PInt release_count);
    ("latest_release_info", PDict latest_release_info)]
   ++ download_stats
   ++ [("extracted_at", PStr (isoformat now))])%list.

(** The values [json.dumps] writes: no [datetime] anywhere inside. *)
Fixpoint serializable (v : PyVal) : bool :=
  match v with
  | PList l | PTuple l => forallb serializable l
  | PDict d => forallb (fun kv => serializable (snd kv)) d
  | PDatetime _ => false
  | _ => true
  end.

(** A character between the space and the tilde. *)
Definition printable (c : ascii) : bool :=
  let n := N_of_ascii c in (N.leb 32 n && N.leb n 126)%bool.

Fixpoint all_printable (s : string) : bool :=
  match s with
  | EmptyString => true
  | String c s' => printable c && all_printable s'
  end.

(** Every body the HTTP service sends is made of JSON's own values, as the
    bodies [response.json()] decodes are. *)
Definition json_bodies (w : World) : Prop :=
  forall n url r v, w_http w n url = HttpResp r -> json_body r = Some v ->
                    json_native v = true.

(** A computation leaves the HTTP service as it answers. *)
Definition keeps_http {A} (m : M A) : Prop :=
  forall w r w', m w = (r, w') -> w_http w' = w_http w.

(** ** The Airflow tasks

    The callables of [src/dags/data_engineering_pipeline_dag.py].  They run
    the extractors and the warehouse calls of above and, besides, read the
    environment, print, read result rows and start processes; a task runs in
    a world that holds the world of the extractors and the oracles for
    those.  The environment of a task world is the one the code reads, after
    [load_dotenv()]; nothing in these files writes to it. *)

(** [os.environ]: variables and their values. *)
Definition Environ : Type := list (string * string).

Fixpoint environ_lookup (k : string) (env : Environ) : option string :=
  match env with
  | [] => None
  | (k', v) :: env' => if String.eqb k k' then Some v else environ_lookup k env'
  end.

(** [env[k] = v] *)
Fixpoint environ_set (k v : string) (env : Environ) : Environ :=
  match env with
  | [] => [(k, v)]
  | (k', v') :: env' =>
      if String.eqb k k' then (k', v) :: env' else (k', v') :: environ_set k v env'
  end.

(** [os.getenv(k)] and [env.get(k, default)] *)
Definition os_getenv (env : Environ) (k : string) : option string := environ_lookup k env.

Definition environ_get (env : Environ) (k default : string) : string :=
  match environ_lookup k env with
  | Some v => v
  | None => default
  end.

(** What a task callable can raise: the exceptions of the extractors, the
    [RuntimeError] of [check_dbt_models], and the [OSError] of a directory
    or a program that is not there. *)
Inductive TaskExn : Type :=
| PyExn (e : Exn)
| RuntimeError (msg : string)
| OSError (msg : string).

Record CompletedProcess : Type := mk_completed {
  returncode : Z;
  proc_stdout : string;
  proc_stderr : string
}.

Inductive ProcOutcome : Type :=
| ProcFail (msg : string)
| ProcDone (result : CompletedProcess).

Inductive TaskEvent : Type :=
| TEv (e : Event)
| TPrint (fmt : string) (args : list PyVal)
| TFetchone
| TChdir (path : string)
| TSubprocess (args : list string) (env : Environ).

(** [tw_rows n] is what the [n]-th [cursor.fetchone()] of the task does;
    [tw_chdir path] is [Some msg] when [os.chdir(path)] raises;
    [tw_procs n args env] is what the [n]-th [subprocess.run] does.  The
    trace of a task holds its own events and, under [TEv], those of the
    extractor and warehouse calls it makes, in the order they happen. *)
Record TaskWorld : Type := mk_task_world {
  tw_world : World;
  tw_environ : Environ;
  tw_rows : nat -> Result PyVal;
  tw_fetched : nat;
  tw_chdir : string -> option string;
  tw_procs : nat -> list string -> Environ -> ProcOutcome;
  tw_spawned : nat;
  tw_trace : list TaskEvent
}.

Inductive TaskResult (A : Type) : Type :=
| Returned (a : A)
| Raised (e : TaskExn).
Arguments Returned {A} a.
Arguments Raised {A} e.

Definition Task (A : Type) : Type := TaskWorld -> TaskResult A * TaskWorld.

Definition task_ret {A} (a : A) : Task A := fun tw => (Returned a, tw).

Definition task_bind {A B} (m : Task A) (f : A -> Task B) : Task B :=
  fun tw =>
    match m tw with
    | (Returned a, tw') => f a tw'
    | (Raised e, tw') => (Raised e, tw')
    end.

Definition task_raise {A} (e : TaskExn) : Task A := fun tw => (Raised e, tw).

Declare Scope task_scope.
Delimit Scope task_scope with task.
Notation "x <- m ;; k" := (task_bind m (fun x => k))
  (at level 61, m at next level, right associativity) : task_scope.
Notation "m ;; k" := (task_bind m (fun _ => k))
  (at level 61, right associativity) : task_scope.

(** [try: m  finally: c] *)
Definition task_try_finally {A} (m : Task A) (c : Task unit) : Task A :=
  fun tw =>
    match m tw with
    | (r, tw') =>
        match c tw' with
        | (Returned _, tw'') => (r, tw'')
        | (Raised e, tw'') => (Raised e, tw'')
        end
    end.

Definition task_emit (e : TaskEvent) (tw : TaskWorld) : TaskWorld :=
  mk_task_world (tw_world tw) (tw_environ tw) (tw_rows tw) (tw_fetched tw)
                (tw_chdir tw) (tw_procs tw) (tw_spawned tw) (tw_trace tw ++ [e])%list.

(** The events a computation added to the trace of the extractors' world. *)
Definition new_events (w w' : World) : list Event :=
  skipn (List.length (w_trace w)) (w_trace w').

(** A computation of the extractors, run inside a task. *)
Definition in_world {A} (m : M A) : Task A :=
  fun tw =>
    match m (tw_world tw) with
    | (r, w') =>
        let tw' :=
          mk_task_world w' (tw_environ tw) (tw_rows tw) (tw_fetched tw)
                        (tw_chdir tw) (tw_procs tw) (tw_spawned tw)
                        (tw_trace tw ++ map TEv (new_events (tw_world tw) w'))%list in
        match r with
        | Ok a => (Returned a, tw')
        | Raise e => (Raised (PyExn e), tw')
        end
    end.

(** A pure step that can raise. *)
Definition task_lift {A} (r : Result A) : Task A :=
  fun tw =>
    match r with
    | Ok a => (Returned a, tw)
    | Raise e => (Raised (PyExn e), tw)
    end.

(** [print(f"...")], kept as its template and the values formatted in. *)
Definition print (fmt : string) (args : list PyVal) : Task unit :=
  fun tw => (Returned tt, task_emit (TPrint fmt args) tw).

Definition os_environ : Task Environ := fun tw => (Returned (tw_environ tw), tw).

(** [cursor.fetchone()] *)
Definition cursor_fetchone (cursor : Cursor) : Task PyVal :=
  fun tw =>
    let tw' :=
      mk_task_world (tw_world tw) (tw_environ tw) (tw_rows tw) (S (tw_fetched tw))
                    (tw_chdir tw) (tw_procs tw) (tw_spawned tw)
                    (tw_trace tw ++ [TFetchone])%list in
    match tw_rows tw (tw_fetched tw) with
    | Ok row => (Returned row, tw')
    | Raise e => (Raised (PyExn e), tw')
    end.

(** [os.chdir(path)] *)
Definition os_chdir (path : string) : Task unit :=
  fun tw =>
    match tw_chdir tw path with
    | Some msg => (Raised (OSError msg), task_emit (TChdir path) tw)
    | None => (Returned tt, task_emit (TChdir path) tw)
    end.

(** [subprocess.run(args, capture_output=True, text=True, env=env)] *)
Definition subprocess_run (args : list string) (env : Environ) : Task CompletedProcess :=
  fun tw =>
    let tw' :=
      mk_task_world (tw_world tw) (tw_environ tw) (tw_rows tw) (tw_fetched tw)
                    (tw_chdir tw) (tw_procs tw) (S (tw_spawned tw))
                    (tw_trace tw ++ [TSubprocess args env])%list in
    match tw_procs tw (tw_spawned tw) args env with
    | ProcFail msg => (Raised (OSError msg), tw')
    | ProcDone result => (Returned result, tw')
    end.

Module Dag.

Local Open Scope task_scope.

Definition DBT_DIR : string := "/opt/airflow/dags/dbt_project".

(** [DBT_ENV]: a copy of the environment with the profiles directory set
    and the user's [bin] put first on the [PATH].  The module builds it when
    it is loaded, from the environment the task then runs in. *)
Definition DBT_ENV (environ : Environ) : Environ :=
  let env := environ_set "DBT_PROFILES_DIR" DBT_DIR environ in
  environ_set "PATH" ("/home/airflow/.local/bin:" ++ environ_get env "PATH" "") env.

Definition extract_github_data : Task PyVal :=
  environ <- os_environ ;;
  let extractor := GitHub.init (os_getenv environ "GITHUB_TOKEN") in
  print "Starting GitHub data extraction for {} technologies"
        [PInt (Z.of_nat (List.length (GitHub.repositories extractor)))] ;;
  in_world (GitHub.run extractor) ;;
  print "Successfully completed GitHub data extraction" [] ;;
  task_ret (PInt (Z.of_nat (List.length (GitHub.repositories extractor)))).

Definition extract_pypi_data : Task PyVal :=
  let extractor := PyPI.init in
  print "Starting PyPI data extraction for {} packages"
        [PInt (Z.of_nat (List.length (PyPI.packages extractor)))] ;;
  in_world (PyPI.run extractor) ;;
  print "Successfully completed PyPI data extraction" [] ;;
  task_ret (PInt (Z.of_nat (List.length (PyPI.packages extractor)))).

Definition github_count_query : string := "
            SELECT COUNT(*) FROM DATA_ENGINEERING_PROJECT.RAW_DATA.GITHUB_REPOS 
            WHERE DATE(extracted_at) = CURRENT_DATE()
        ".

Definition pypi_count_query : string := "
            SELECT COUNT(*) FROM DATA_ENGINEERING_PROJECT.RAW_DATA.PYPI_PACKAGES
            WHERE DATE(extracted_at) = CURRENT_DATE()
        ".

(** The body of the [try] of [validate_raw_data]. *)
Definition validate_body (cursor : Cursor) : Task PyVal :=
  in_world (cursor_execute cursor github_count_query) ;;
  row <- cursor_fetchone cursor ;;
  github_count <- task_lift (py_getitem row (PInt 0)) ;;
  in_world (cursor_execute cursor pypi_count_query) ;;
  row <- cursor_fetchone cursor ;;
  pypi_count <- task_lift (py_getitem row (PInt 0)) ;;
  print "Data validation results:" [] ;;
  print "- GitHub repos extracted today: {}" [github_count] ;;
  print "- PyPI packages extracted today: {}" [pypi_count] ;;
  if py_eq github_count (PInt 0) || py_eq pypi_count (PInt 0) then
    task_raise (PyExn (ValueError "No data found for today's extraction"))
  else
    task_ret (PDict (dict_literal [("github_count", github_count);
                                   ("pypi_count", pypi_count)])).

(** [validate_raw_data]: the connection and the cursor are made before the
    [try]; its [finally] closes both.  The task connects with the arguments
    the extractors connect with. *)
Definition validate_raw_data : Task PyVal :=
  conn <- in_world get_snowflake_connection ;;
  cursor <- in_world (conn_cursor conn) ;;
  task_try_finally
    (validate_body cursor)
    (in_world (cursor_close cursor) ;; in_world (conn_close conn)).

Definition dbt_commands : list (list string) :=
  [["dbt"; "clean"]; ["dbt"; "deps"]; ["dbt"; "compile"; "--no-partial-parse"]].

(** The [for] loop of [check_dbt_models]. *)
Fixpoint run_commands (env : Environ) (commands : list (list string)) : Task unit :=
  match commands with
  | [] => task_ret tt
  | args :: commands' =>
      result <- subprocess_run args env ;;
      if negb (returncode result =? 0) then
        print "dbt command failed: {}" [PStr (String.concat " " args)] ;;
        print "stdout:
{}" [PStr (proc_stdout result)] ;;
        print "stderr:
{}" [PStr (proc_stderr result)] ;;
        task_raise (RuntimeError "dbt command failed")
      else run_commands env commands'
  end.

Definition check_dbt_models : Task PyVal :=
  os_chdir DBT_DIR ;;
  environ <- os_environ ;;
  run_commands (DBT_ENV environ) dbt_commands ;;
  print "All dbt models compiled successfully" [] ;;
  task_ret (PBool true).

End Dag.

(** ** Vocabulary of the tasks' properties *)

(** What the body of [validate_raw_data] does: it runs one of its two
    queries, reads a row, or prints. *)
Definition validate_step (e : TaskEvent) : Prop :=
  match e with
  | TEv (EvWh (WhExecute sql)) => sql = Dag.github_count_query \/ sql = Dag.pypi_count_query
  | TFetchone | TPrint _ _ => True
  | _ => False
  end.

(** A task computation adds only events that satisfy [P] to the trace, and
    leaves the warehouse as it answers. *)
Definition task_emits_only {A} (P : TaskEvent -> Prop) (m : Task A) : Prop :=
  forall tw r tw', m tw = (r, tw') ->
    w_wh (tw_world tw') = w_wh (tw_world tw)
    /\ exists evs, tw_trace tw' = (tw_trace tw ++ evs)%list /\ Forall P evs.

(** The [i]-th of [commands], started as process number [tw_spawned tw + i],
    returns the code 0. *)
Definition returns_zero (tw : TaskWorld) (env : Environ) (commands : list (list string))
           (i : nat) : Prop :=
  exists result,
    tw_procs tw (tw_spawned tw + i)%nat (nth i commands []) env = ProcDone result
    /\ returncode result = 0.

Definition failure_report (args : list string) (result : CompletedProcess) : list TaskEvent :=
  [TPrint "dbt command failed: {}" [PStr (String.concat " " args)];
   TPrint "stdout:
{}" [PStr (proc_stdout result)];
   TPrint "stderr:
{}" [PStr (proc_stderr result)]].

(** [tw] after [n] more processes and the events [evs]. *)
Definition spawn_and_emit (n : nat) (evs : list TaskEvent) (tw : TaskWorld) : TaskWorld :=
  mk_task_world (tw_world tw) (tw_environ tw) (tw_rows tw) (tw_fetched tw)
                (tw_chdir tw) (tw_procs tw) (tw_spawned tw + n)%nat (tw_trace tw ++ evs)%list.

(** Worlds to run the further properties on. *)
Definition is_connect_call (c : WhCall) : bool :=
  match c with WhConnect => true | _ => false end.

Definition is_cursor_call (c : WhCall) : bool :=
  match c with WhCursor => true | _ => false end.

Definition is_cursor_close_call (c : WhCall) : bool :=
  match c with WhCursorClose => true | _ => false end.

(** The three answers of a fetch of [apache/airflow] that finds an object
    with one field, no contributors page and no release. *)
Definition airflow_answers : list HttpOutcome :=
  [resp 200 (Some (PDict [("stargazers_count", PInt 41000)]));
   resp 404 None; resp 200 (Some (PList []))].

Definition airflow_world : World := scripted airflow_answers [noon 1 0] wh_ok.

Definition airflow_fetched : PyDict :=
  Eval vm_compute in
    match fst (GitHub.get_repo_data gh "apache/airflow" airflow_world) with
    | Ok (Some d) => d
    | _ => []
    end.

(** The two answers of a fetch of [pandas]: one release with one file, and
    the download counts. *)
Definition pandas_answers : list HttpOutcome :=
  [resp 200 (Some (PDict [("info", PDict [("version", PStr "2.3.0")]);
                          ("releases",
                           PDict [("2.3.0", PList [PDict [("size", PInt 4400000)]])])]));
   resp 200 (Some (PDict [("data", PDict [("last_day", PInt 7000000)])]))].

Definition pandas_world : World := scripted pandas_answers [noon 2 0] wh_ok.

Definition pandas_fetched : PyDict :=
  Eval vm_compute in
    match fst (PyPI.get_package_info pypi "pandas" pandas_world) with
    | Ok (Some d) => d
    | _ => []
    end.

Definition airflow_batch : list PyDict :=
  Eval vm_compute in
    match fst (GitHub.extract_all_repositories gh airflow_world) with
    | Ok batch => batch
    | Raise _ => []
    end.

(** Each body of the script is made of JSON's own values. *)
Definition json_outcome (o : HttpOutcome) : Prop :=
  match o with
  | HttpResp r =>
      match json_body r with
      | Some v => json_native v = true
      | None => True
      end
  | HttpFail _ => True
  end.

(** A task world over [w]: the environment holds the token, the count
    queries answer the rows of [rows], every directory is there and the
    [n]-th process returns [codes n]. *)
Definition task_world (w : World) (environ : Environ) (rows : list PyVal)
           (codes : nat -> Z) : TaskWorld :=
  mk_task_world w environ (fun n => Ok (nth n rows PNone)) 0 (fun _ => None)
                (fun n _ _ => ProcDone (mk_completed (codes n) "" "Compilation Error")) 0 [].

Definition with_token : Environ := [("GITHUB_TOKEN", "ghp_token"); ("PATH", "/usr/bin")].

(** * Properties *)

Local Open Scope list_scope.


(** ** The monad *)

Lemma bind_Ok_inv {A B} (m : M A) (f : A -> M B) w b w2 :
  bind m f w = (Ok b, w2) ->
  exists a w1, m w = (Ok a, w1) /\ f a w1 = (Ok b, w2).
Proof.
  unfold bind. destruct (m w) as [[a | e] w1]; intros H.
  - exists a, w1. split; [reflexivity | exact H].
  - discriminate H.
Qed.

Lemma all_ok_raises {A} (rs : list (Result A)) e :
  all_ok rs = Raise e -> In (Raise e) rs.
Proof.
  induction rs as [ | [a | e'] rs IH]; simpl; intros H.
  - discriminate.
  - destruct (all_ok rs); [discriminate | ]. right. apply IH. exact H.
  - left. inversion H; reflexivity.
Qed.

(** JSON errors are the two classes the loader's inner handler names. *)
Lemma json_dumps_raises v e :
  json_dumps v = Raise e -> exists msg, e = TypeError msg.
Proof.
  revert e. induction v as [ | b | z | s | l IH | l IH | d IH | t ] using PyVal_nested_ind;
    intros e; simpl; try discriminate.
  - destruct (all_ok _) eqn:E; [discriminate | ].
    intros H; inversion H; subst. apply all_ok_raises in E.
    apply in_map_iff in E. destruct E as [x [Hx Hin]].
    rewrite Forall_forall in IH. eapply IH; eassumption.
  - destruct (all_ok _) eqn:E; [discriminate | ].
    intros H; inversion H; subst. apply all_ok_raises in E.
    apply in_map_iff in E. destruct E as [x [Hx Hin]].
    rewrite Forall_forall in IH. eapply IH; eassumption.
  - destruct (all_ok _) eqn:E; [discriminate | ].
    intros H; inversion H; subst. apply all_ok_raises in E.
    apply in_map_iff in E. destruct E as [[k x] [Hx Hin]].
    rewrite Forall_forall in IH. specialize (IH _ Hin). simpl in IH.
    destruct (json_dumps x); [discriminate | ].
    inversion Hx; subst. eapply IH; reflexivity.
  - intros H; inversion H; subst. eexists; reflexivity.
Qed.

Lemma json_loads_raises s e :
  json_loads s = Raise e -> exists msg, e = ValueError msg.
Proof.
  unfold json_loads.
  destruct (parse_value _ _) as [[v rest] | ].
  - destruct (skip_ws rest); [discriminate | ].
    intros H; inversion H; eexists; reflexivity.
  - intros H; inversion H; eexists; reflexivity.
Qed.

(** ** The fetcher never raises (C7) *)

(** C7.  Whatever the HTTP service does, [get_repo_data] and
    [get_package_info] return -- a record or [None] -- and never raise.
    When the body of the [try] raises [e] (a network error, a response that
    does not decode, a response of an unexpected shape), the fetcher
    returns [None] and the only thing it adds is one ERROR log line that
    carries the entity and [str(e)]; when the body returns, the fetcher
    returns the same. *)
Theorem fetcher_never_raises :
  (forall self repo w,
      (exists r w', GitHub.get_repo_data self repo w = (Ok r, w'))
      /\ (forall e w1, GitHub.get_repo_data_body self repo w = (Raise e, w1) ->
          exists fmt, In fmt fetch_error_fmts
            /\ GitHub.get_repo_data self repo w
               = (Ok None, emit (EvLog ERROR fmt [PStr repo; PStr (exn_str e)]) w1))
      /\ (forall r w1, GitHub.get_repo_data_body self repo w = (Ok r, w1) ->
          GitHub.get_repo_data self repo w = (Ok r, w1)))
  /\
  (forall self package w,
      (exists r w', PyPI.get_package_info self package w = (Ok r, w'))
      /\ (forall e w1, PyPI.get_package_info_body self package w = (Raise e, w1) ->
          exists fmt, In fmt fetch_error_fmts
            /\ PyPI.get_package_info self package w
               = (Ok None, emit (EvLog ERROR fmt [PStr package; PStr (exn_str e)]) w1))
      /\ (forall r w1, PyPI.get_package_info_body self package w = (Ok r, w1) ->
          PyPI.get_package_info self package w = (Ok r, w1))).
Proof.
  split; intros self name w.
  - unfold GitHub.get_repo_data, try_except.
    destruct (GitHub.get_repo_data_body self name w) as [[r | e] w1].
    + split; [eauto | split; [discriminate | intros r' w1' H; exact H]].
    + assert (Hh : exists fmt, In fmt fetch_error_fmts
                /\ (if is_RequestException e
                    then logger ERROR "Error fetching data for {}: {}"
                                [PStr name; PStr (exn_str e)] ;; ret None
                    else logger ERROR "Unexpected error for {}: {}"
                                [PStr name; PStr (exn_str e)] ;; ret None) w1
                   = (Ok (@None PyDict), emit (EvLog ERROR fmt [PStr name; PStr (exn_str e)]) w1)).
      { destruct (is_RequestException e); eexists; (split; [ | reflexivity]); simpl; auto. }
      destruct Hh as [fmt [Hin Heq]].
      split; [rewrite Heq; eauto | split; [ | discriminate]].
      intros e' w1' H; inversion H; subst. exists fmt; auto.
  - unfold PyPI.get_package_info, try_except.
    destruct (PyPI.get_package_info_body self name w) as [[r | e] w1].
    + split; [eauto | split; [discriminate | intros r' w1' H; exact H]].
    + assert (Hh : exists fmt, In fmt fetch_error_fmts
                /\ (if is_RequestException e
                    then logger ERROR "Error fetching data for {}: {}"
                                [PStr name; PStr (exn_str e)] ;; ret None
                    else logger ERROR "Unexpected error for {}: {}"
                                [PStr name; PStr (exn_str e)] ;; ret None) w1
                   = (Ok (@None PyDict), emit (EvLog ERROR fmt [PStr name; PStr (exn_str e)]) w1)).
      { destruct (is_RequestException e); eexists; (split; [ | reflexivity]); simpl; auto. }
      destruct Hh as [fmt [Hin Heq]].
      split; [rewrite Heq; eauto | split; [ | discriminate]].
      intros e' w1' H; inversion H; subst. exists fmt; auto.
Qed.

(** Three failures of the three kinds, run: the connection is refused; the
    body of the primary answer does not decode; the primary answer is a
    JSON list where a dict is expected. *)
Example fetch_network_error :
  fst (GitHub.get_repo_data gh "apache/airflow" (scripted [] [] wh_ok)) = Ok None.
Proof. vm_compute. reflexivity. Qed.

Example fetch_malformed_json :
  fst (PyPI.get_package_info pypi "pandas" (scripted [resp 200 None] [] wh_ok)) = Ok None.
Proof. vm_compute. reflexivity. Qed.

Example fetch_unexpected_shape :
  fst (GitHub.get_repo_data gh "apache/airflow"
         (scripted [resp 200 (Some (PList [])); resp 200 (Some (PList []));
                    resp 200 (Some (PList []))] [] wh_ok)) = Ok None.
Proof. vm_compute. reflexivity. Qed.

Lemma fetcher_never_raises_witness :
  exists fmt, In fmt fetch_error_fmts
    /\ GitHub.get_repo_data gh "apache/airflow" (scripted [] [] wh_ok)
       = (Ok None,
          emit (EvLog ERROR fmt [PStr "apache/airflow"; PStr "connection refused"])
               (snd (GitHub.get_repo_data_body gh "apache/airflow" (scripted [] [] wh_ok)))).
Proof.
  exact (proj1 (proj2 (proj1 fetcher_never_raises gh "apache/airflow" (scripted [] [] wh_ok)))
               (RequestException "connection refused") _ eq_refl).
Defined.

(** ** Which exceptions a computation can raise *)

Lemma never_raises_returns {A} (m : M A) :
  never_raises m -> forall w, exists a w', m w = (Ok a, w').
Proof.
  intros H w. destruct (m w) as [[a | e] w'] eqn:E; [eauto | ].
  destruct (H _ _ _ E).
Qed.

Lemma raises_only_weaken {A} (P Q : Exn -> Prop) (m : M A) :
  (forall e, P e -> Q e) -> raises_only P m -> raises_only Q m.
Proof. intros HPQ H w e w' E. apply HPQ. eapply H; eassumption. Qed.

Lemma raises_only_ret {A} P (a : A) : raises_only P (ret a).
Proof. intros w e w' H. discriminate H. Qed.

Lemma raises_only_raise {A} (P : Exn -> Prop) e : P e -> raises_only P (@raise A e).
Proof. intros HP w e' w' H. inversion H; subst. exact HP. Qed.

Lemma raises_only_bind {A B} P (m : M A) (f : A -> M B) :
  raises_only P m -> (forall a, raises_only P (f a)) -> raises_only P (bind m f).
Proof.
  intros Hm Hf w e w' H. unfold bind in H.
  destruct (m w) as [[a | e1] w1] eqn:E.
  - eapply Hf; eassumption.
  - inversion H; subst. eapply Hm; eassumption.
Qed.

Lemma raises_only_try_except {A} P Q (m : M A) (h : Exn -> M A) :
  raises_only Q m -> (forall e, Q e -> raises_only P (h e)) ->
  raises_only P (try_except m h).
Proof.
  intros Hm Hh w e w' H. unfold try_except in H.
  destruct (m w) as [[a | e1] w1] eqn:E.
  - discriminate H.
  - eapply Hh; [ | eassumption]. eapply Hm; eassumption.
Qed.

Lemma raises_only_try_finally {A} P (m : M A) (c : M unit) :
  raises_only P m -> raises_only P c -> raises_only P (try_finally m c).
Proof.
  intros Hm Hc w e w' H. unfold try_finally in H.
  destruct (m w) as [r w1] eqn:E. destruct (c w1) as [[u | e2] w2] eqn:E2.
  - inversion H; subst. eapply Hm; eassumption.
  - inversion H; subst. eapply Hc; eassumption.
Qed.

Lemma raises_only_logger P lvl fmt args : raises_only P (logger lvl fmt args).
Proof. intros w e w' H. discriminate H. Qed.

Lemma raises_only_sleep P n : raises_only P (time_sleep n).
Proof. intros w e w' H. discriminate H. Qed.

Lemma raises_only_now P : raises_only P datetime_now.
Proof. intros w e w' H. discriminate H. Qed.

Lemma raises_only_set_conn P c : raises_only P (set_conn c).
Proof. intros w e w' H. discriminate H. Qed.

Lemma raises_only_set_cursor P c : raises_only P (set_cursor c).
Proof. intros w e w' H. discriminate H. Qed.

Lemma raises_only_get_conn P : raises_only P get_conn.
Proof. intros w e w' H. discriminate H. Qed.

Lemma raises_only_get_cursor P : raises_only P get_cursor.
Proof. intros w e w' H. discriminate H. Qed.

Lemma raises_only_wh_call c : raises_only is_SnowflakeError (wh_call c).
Proof.
  intros w e w' H. unfold wh_call in H.
  destruct (w_wh w c); inversion H; subst. eexists; reflexivity.
Qed.

Lemma raises_only_lift {A} (P : Exn -> Prop) (r : Result A) :
  (forall e, r = Raise e -> P e) -> raises_only P (lift r).
Proof. intros Hr w e w' H. inversion H; subst. apply Hr. reflexivity. Qed.

Create HintDb raises.

#[local] Hint Resolve raises_only_ret raises_only_logger raises_only_sleep
  raises_only_now raises_only_set_conn raises_only_set_cursor
  raises_only_get_conn raises_only_get_cursor raises_only_wh_call : raises.

(** The staging loop never raises: the only exceptions [json.dumps] and
    [json.loads] have are the two its handler catches. *)
Lemma stage_record_never_raises name_key record :
  never_raises (stage_record name_key record).
Proof.
  unfold stage_record.
  apply raises_only_try_except
    with (Q := fun e => is_TypeError_or_ValueError e = true).
  - apply raises_only_bind.
    + apply raises_only_lift. intros e H.
      apply json_dumps_raises in H. destruct H as [m ->]. reflexivity.
    + intros json_str. apply raises_only_bind.
      * apply raises_only_lift. intros e H.
        apply json_loads_raises in H. destruct H as [m ->]. reflexivity.
      * intros _. apply raises_only_bind; auto with raises.
  - intros e He. rewrite He. apply raises_only_bind; auto with raises.
Qed.

Lemma prepare_insert_data_never_raises name_key data acc :
  never_raises (prepare_insert_data name_key data acc).
Proof.
  revert acc. induction data as [ | record data IH]; intros acc; simpl.
  - apply raises_only_ret.
  - destruct (dict_truthy record); [ | apply IH].
    apply raises_only_bind; [apply stage_record_never_raises | ].
    intros [row | ]; apply IH.
Qed.

Lemma save_to_snowflake_raises_only tb data :
  raises_only is_SnowflakeError (save_to_snowflake_on tb data).
Proof.
  unfold save_to_snowflake_on.
  destruct (negb (list_truthy data)).
  - apply raises_only_bind; auto with raises.
  - apply raises_only_bind; auto with raises. intros _.
    apply raises_only_bind; auto with raises. intros _.
    apply raises_only_try_finally.
    + apply raises_only_try_except with (Q := is_SnowflakeError).
      * unfold save_body, get_snowflake_connection, conn_cursor, cursor_execute,
          cursor_executemany, conn_commit.
        repeat (first [ apply raises_only_bind; [ | intro ] | solve [auto with raises] ]).
        -- eapply raises_only_weaken; [ | apply prepare_insert_data_never_raises].
           intros e [].
        -- destruct (negb (list_truthy _));
             repeat (first [ apply raises_only_bind; [ | intro ] | solve [auto with raises] ]).
      * intros e He. unfold save_handler.
        repeat (first [ apply raises_only_bind; [ | intro ] | solve [auto with raises] ]).
        -- match goal with c : option Connection |- _ => destruct c end;
             unfold conn_rollback; auto with raises.
        -- apply raises_only_raise; exact He.
    + unfold save_finally.
      repeat (first [ apply raises_only_bind; [ | intro ] | solve [auto with raises] ]).
      * match goal with c : option Cursor |- _ => destruct c end;
          unfold cursor_close; auto with raises.
      * match goal with c : option Connection |- _ => destruct c end;
          unfold conn_close; auto with raises.
Qed.

Lemma extract_loop_never_raises fetch entities acc :
  (forall entity, never_raises (fetch entity)) ->
  never_raises (extract_loop fetch entities acc).
Proof.
  intros Hf. revert acc. induction entities as [ | entity entities IH]; intros acc; simpl.
  - apply raises_only_ret.
  - apply raises_only_bind; [apply raises_only_logger | intros _].
    apply raises_only_bind; [apply Hf | intros r].
    apply raises_only_bind; [apply raises_only_sleep | intros _].
    apply IH.
Qed.

Lemma extract_all_never_raises start_fmt done_fmt fetch entities :
  (forall entity, never_raises (fetch entity)) ->
  never_raises (extract_all start_fmt done_fmt fetch entities).
Proof.
  intros Hf. unfold extract_all.
  apply raises_only_bind; [apply raises_only_logger | intros _].
  apply raises_only_bind; [apply extract_loop_never_raises; exact Hf | intros d].
  apply raises_only_bind; [apply raises_only_logger | intros _].
  apply raises_only_ret.
Qed.

Lemma get_repo_data_never_raises self repo :
  never_raises (GitHub.get_repo_data self repo).
Proof.
  intros w e w' H. unfold GitHub.get_repo_data, try_except in H.
  destruct (GitHub.get_repo_data_body self repo w) as [[r | e1] w1]; [discriminate | ].
  destruct (is_RequestException e1); discriminate.
Qed.

Lemma get_package_info_never_raises self package :
  never_raises (PyPI.get_package_info self package).
Proof.
  intros w e w' H. unfold PyPI.get_package_info, try_except in H.
  destruct (PyPI.get_package_info_body self package w) as [[r | e1] w1]; [discriminate | ].
  destruct (is_RequestException e1); discriminate.
Qed.

(** ** The empty batch (C4) *)

(** C4, as stated, fails: on the empty batch the loader returns [None]
    (a bare [return]), not the integer 0. *)
Lemma empty_batch_returns_zero_counterexample :
  fst (GitHub.save_to_snowflake gh [] (scripted [] [] wh_ok)) = Ok PNone
  /\ fst (GitHub.save_to_snowflake gh [] (scripted [] [] wh_ok)) <> Ok (PInt 0).
Proof. split; [reflexivity | discriminate]. Qed.

(** C4, amended.  On the empty batch [save_to_snowflake] returns [None],
    and all it does is log one warning: the world it leaves differs from
    the one it found by that line only, so no connection is opened, no
    cursor made, no statement executed. *)
Theorem empty_batch_no_session :
  (forall self w,
      GitHub.save_to_snowflake self [] w
      = (Ok PNone, emit (EvLog WARNING "No data to save" []) w))
  /\ (forall self w,
      PyPI.save_to_snowflake self [] w
      = (Ok PNone, emit (EvLog WARNING "No data to save" []) w)).
Proof. split; intros self w; reflexivity. Qed.

(** ** The credential precondition of [run] (C8) *)

Lemma github_run_raises_only self :
  GitHub.token_missing self = false ->
  raises_only is_SnowflakeError (GitHub.run self).
Proof.
  intros Htok. unfold GitHub.run. rewrite Htok.
  apply raises_only_try_except with (Q := is_SnowflakeError).
  - apply raises_only_bind; auto with raises. intros _.
    apply raises_only_bind; auto with raises. intros _.
    apply raises_only_bind.
    + eapply raises_only_weaken;
        [ | apply extract_all_never_raises; intro; apply get_repo_data_never_raises].
      intros e [].
    + intros data. destruct (list_truthy data).
      * apply raises_only_bind; [apply save_to_snowflake_raises_only | intros _].
        apply raises_only_bind; auto with raises.
      * apply raises_only_bind; auto with raises.
  - intros e He. apply raises_only_bind; auto with raises.
    intros _. apply raises_only_raise. exact He.
Qed.

Lemma pypi_run_raises_only self :
  raises_only is_SnowflakeError (PyPI.run self).
Proof.
  unfold PyPI.run.
  apply raises_only_try_except with (Q := is_SnowflakeError).
  - apply raises_only_bind; auto with raises. intros _.
    apply raises_only_bind.
    + eapply raises_only_weaken;
        [ | apply extract_all_never_raises; intro; apply get_package_info_never_raises].
      intros e [].
    + intros data. destruct (list_truthy data).
      * apply raises_only_bind; [apply save_to_snowflake_raises_only | intros _].
        apply raises_only_bind; auto with raises.
      * apply raises_only_bind; auto with raises.
  - intros e He. apply raises_only_bind; auto with raises.
    intros _. apply raises_only_raise. exact He.
Qed.

Lemma token_missing_spec self :
  GitHub.token_missing self = true
  <-> GitHub.github_token self = None \/ GitHub.github_token self = Some "".
Proof.
  unfold GitHub.token_missing. destruct (GitHub.github_token self) as [t | ].
  - split.
    + intros H. right. apply String.eqb_eq in H. subst. reflexivity.
    + intros [H | H]; [discriminate | ]. inversion H. reflexivity.
  - split; auto.
Qed.

(** C8.  [GitHubExtractor.run] raises its configuration error -- the
    [ValueError] "GitHub token not provided..." -- exactly when the token is
    absent: unset, or set to the empty string (which is how
    [config/settings.py] writes an absent token).  When it is absent, [run]
    raises before anything else happens: the world is left as it was but
    for the one ERROR line of [run]'s own handler, so no request was sent,
    no sleep taken, no warehouse call made.  [PyPIExtractor] has no token,
    and its [run] raises nothing but what the warehouse raises. *)
Theorem run_token_precondition :
  (forall self w,
      fst (GitHub.run self w) = Raise GitHub.token_error
      <-> (GitHub.github_token self = None \/ GitHub.github_token self = Some ""))
  /\ (forall self w,
      (GitHub.github_token self = None \/ GitHub.github_token self = Some "") ->
      GitHub.run self w
      = (Raise GitHub.token_error,
         emit (EvLog ERROR "GitHub extraction failed: {}"
                     [PStr "GitHub token not provided. Set GITHUB_TOKEN environment variable."])
              w))
  /\ (forall self w e, fst (PyPI.run self w) = Raise e -> is_SnowflakeError e).
Proof.
  assert (Hmiss : forall self w,
             GitHub.token_missing self = true ->
             GitHub.run self w
             = (Raise GitHub.token_error,
                emit (EvLog ERROR "GitHub extraction failed: {}"
                            [PStr "GitHub token not provided. Set GITHUB_TOKEN environment variable."])
                     w)).
  { intros self w H. unfold GitHub.run, try_except, bind. rewrite H. reflexivity. }
  split; [ | split].
  - intros self w. rewrite <- token_missing_spec. split.
    + intros H. destruct (GitHub.token_missing self) eqn:Htok; [reflexivity | ].
      destruct (GitHub.run self w) as [r w'] eqn:E. simpl in H. subst r.
      destruct (github_run_raises_only self Htok _ _ _ E) as [msg Hmsg].
      discriminate Hmsg.
    + intros H. rewrite (Hmiss self w H). reflexivity.
  - intros self w H. apply Hmiss. apply token_missing_spec. exact H.
  - intros self w e H. destruct (PyPI.run self w) as [r w'] eqn:E. simpl in H. subst r.
    eapply pypi_run_raises_only. exact E.
Qed.

Lemma run_token_precondition_witness :
  GitHub.run (GitHub.init None) (scripted [] [] wh_ok)
  = (Raise GitHub.token_error,
     emit (EvLog ERROR "GitHub extraction failed: {}"
                 [PStr "GitHub token not provided. Set GITHUB_TOKEN environment variable."])
          (scripted [] [] wh_ok)).
Proof.
  apply (proj1 (proj2 run_token_precondition) (GitHub.init None) (scripted [] [] wh_ok)).
  left. reflexivity.
Defined.

(** ** The staging loop *)

Lemma world_eq w w' :
  w_http w = w_http w' -> w_reqs w = w_reqs w' -> w_clock w = w_clock w' ->
  w_ticks w = w_ticks w' -> w_wh w = w_wh w' -> w_conn w = w_conn w' ->
  w_cursor w = w_cursor w' -> w_trace w = w_trace w' -> w = w'.
Proof. destruct w, w'; simpl; intros; subst; reflexivity. Qed.

Lemma result_world_eq {A} (r : Result A) w w' :
  w_http w = w_http w' -> w_reqs w = w_reqs w' -> w_clock w = w_clock w' ->
  w_ticks w = w_ticks w' -> w_wh w = w_wh w' -> w_conn w = w_conn w' ->
  w_cursor w = w_cursor w' -> w_trace w = w_trace w' -> (r, w) = (r, w').
Proof. intros. f_equal. apply world_eq; assumption. Qed.

Lemma stage_record_spec name_key record w :
  stage_record name_key record w
  = match gate record with
    | Ok json_str =>
        (Ok (Some (w_clock w (w_ticks w), dict_get record name_key PNone, json_str)),
         tick_and_emit 1 [] w)
    | Raise e =>
        (Ok None,
         tick_and_emit 0 [EvLog ERROR "JSON serialization/validation failed for {}: {}"
                                [dict_get record name_key PNone; PStr (exn_str e)]] w)
    end.
Proof.
  unfold stage_record, gate, try_except, bind, lift.
  destruct (json_dumps (PDict record)) as [json_str | e] eqn:Ed.
  - destruct (json_loads json_str) as [v | e] eqn:El.
    + simpl. apply result_world_eq; simpl; auto.
      * lia.
      * rewrite app_nil_r. reflexivity.
    + destruct (json_loads_raises _ _ El) as [msg ->]. simpl. unfold logger, ret.
      apply result_world_eq; simpl; auto.
  - destruct (json_dumps_raises _ _ Ed) as [msg ->]. simpl. unfold logger, ret.
    apply result_world_eq; simpl; auto.
Qed.

Lemma prepare_insert_data_spec name_key data : forall acc w,
  prepare_insert_data name_key data acc w
  = (Ok (acc ++ staged name_key (w_clock w) (w_ticks w) data),
     tick_and_emit (List.length (staged name_key (w_clock w) (w_ticks w) data))
                   (drop_logs name_key data) w).
Proof.
  induction data as [ | record data IH]; intros acc w; simpl.
  - unfold ret. rewrite app_nil_r. apply result_world_eq; simpl; auto.
    rewrite app_nil_r. reflexivity.
  - destruct (dict_truthy record); [ | apply IH].
    unfold bind. rewrite stage_record_spec.
    destruct (gate record) as [json_str | e].
    + rewrite IH. simpl. rewrite <- app_assoc. simpl.
      replace (w_ticks w + 1)%nat with (S (w_ticks w)) by lia.
      apply result_world_eq; simpl; auto.
      * lia.
      * rewrite app_nil_r. reflexivity.
    + rewrite IH. simpl. rewrite Nat.add_0_r. apply result_world_eq; simpl; auto.
      rewrite <- app_assoc. reflexivity.
Qed.

(** ** The loader follows its table *)

Ltac wh_case c :=
  let m := fresh "m" in
  let E := fresh "E" in
  destruct c as [m | ] eqn:E.

(** After the body: the handler's rollback and the two closes, each of
    which can raise in turn. *)
Ltac cleanup_cases w :=
  cbn -[List.length];
  try (wh_case (w_wh w WhRollback); cbn -[List.length]);
  try (wh_case (w_wh w WhCursorClose); cbn -[List.length]);
  try (wh_case (w_wh w WhConnClose); cbn -[List.length]);
  apply result_world_eq; cbn -[List.length]; auto;
  rewrite <- ?app_assoc; reflexivity.

Lemma save_to_snowflake_run tb record data w :
  let rows := staged (name_key tb) (w_clock w) (w_ticks w) (record :: data) in
  let logs := drop_logs (name_key tb) (record :: data) in
  let o := body_outcome tb (w_wh w) rows in
  save_to_snowflake_on tb (record :: data) w
  = (load_result (w_wh w) o,
     mk_world (w_http w) (w_reqs w) (w_clock w)
              (if loop_ran o then w_ticks w + List.length rows else w_ticks w)%nat
              (w_wh w)
              (if has_conn o then Some SnowflakeConnection else None)
              (if has_cursor o then Some SnowflakeCursor else None)
              (w_trace w ++ load_events tb (w_wh w) rows logs o)).
Proof.
  intros rows logs o. subst o.
  remember rows as rs eqn:Hrs. remember logs as lg eqn:Hlg. subst rows logs.
  unfold save_to_snowflake_on. cbn [list_truthy negb].
  unfold body_outcome, load_result, load_events, try_finally, try_except, save_body,
    save_handler, save_finally, get_snowflake_connection, conn_cursor, cursor_execute,
    cursor_executemany, conn_commit, conn_rollback, cursor_close, conn_close,
    wh_call, bind, ret, raise, logger, set_conn, set_cursor, get_conn, get_cursor, emit.
  cbn -[prepare_insert_data staged drop_logs].
  wh_case (w_wh w WhConnect); [cleanup_cases w | ].
  cbn -[prepare_insert_data staged drop_logs].
  wh_case (w_wh w WhCursor); [cleanup_cases w | ].
  cbn -[prepare_insert_data staged drop_logs].
  wh_case (w_wh w (WhExecute use_schema_query)); [cleanup_cases w | ].
  cbn -[prepare_insert_data staged drop_logs].
  wh_case (w_wh w (WhExecute (temp_table_query tb))); [cleanup_cases w | ].
  cbn -[prepare_insert_data staged drop_logs].
  rewrite prepare_insert_data_spec.
  cbn -[prepare_insert_data staged drop_logs].
  rewrite <- Hrs, <- Hlg. clear Hrs Hlg.
  destruct rs as [ | row rs]; [cleanup_cases w | ].
  cbn -[prepare_insert_data staged drop_logs List.length].
  wh_case (w_wh w (WhExecuteMany (temp_insert_query tb) (row :: rs))); [cleanup_cases w | ].
  cbn -[prepare_insert_data staged drop_logs List.length].
  wh_case (w_wh w (WhExecute (final_insert_query tb))); [cleanup_cases w | ].
  cbn -[prepare_insert_data staged drop_logs List.length].
  wh_case (w_wh w WhCommit); cleanup_cases w.
Qed.

(** ** Failure of the load (C1) *)

Lemma drop_logs_no_commit name_key data :
  existsb is_commit (drop_logs name_key data) = false.
Proof.
  induction data as [ | record data IH]; simpl; [reflexivity | ].
  destruct (dict_truthy record); [ | exact IH].
  destruct (gate record); [exact IH | simpl; exact IH].
Qed.

Lemma body_outcome_fails tb wh rows st msg :
  stage_created tb wh -> rows <> [] -> load_fails_at tb wh rows st msg ->
  body_outcome tb wh rows = Failed st msg.
Proof.
  intros (Hc & Hcur & Hu & Ht) Hrows [Hcall Hbefore].
  unfold body_outcome. rewrite Hc, Hcur, Hu, Ht.
  destruct rows as [ | row rows]; [congruence | ].
  destruct st; simpl in Hcall, Hbefore; try contradiction.
  - rewrite Hcall. reflexivity.
  - rewrite Hbefore, Hcall. reflexivity.
  - destruct Hbefore as [Hm Hp]. rewrite Hm, Hp, Hcall. reflexivity.
Qed.

Lemma finally_events_no_commit wh o : existsb is_commit (finally_events wh o) = false.
Proof.
  unfold finally_events, cursor_close_raises.
  destruct (has_cursor o); destruct (has_conn o); simpl;
    try destruct (wh WhCursorClose); reflexivity.
Qed.

Lemma handler_events_no_commit o : existsb is_commit (handler_events o) = false.
Proof.
  destruct o as [st msg | | ]; simpl; try reflexivity.
  destruct st; reflexivity.
Qed.

Lemma body_outcome_committing tb wh rows :
  match body_outcome tb wh rows with
  | Failed AtCommit _ | Saved => wh (WhExecute (final_insert_query tb)) = None
  | _ => True
  end.
Proof.
  unfold body_outcome.
  repeat match goal with
         | |- context [match wh ?c with _ => _ end] => destruct (wh c) eqn:?
         | |- context [match rows with _ => _ end] => destruct rows
         end; auto.
Qed.

Lemma In_commit_existsb evs : In (EvWh WhCommit) evs <-> existsb is_commit evs = true.
Proof.
  rewrite existsb_exists. split.
  - intros H. exists (EvWh WhCommit). split; [exact H | reflexivity].
  - intros [e [Hin He]]. destruct e as [ | | | c]; try discriminate.
    destruct c; try discriminate. exact Hin.
Qed.

(** The commit is issued by no path of the table but the two on which the
    promotion has returned, where it directly follows the promotion. *)
Lemma load_events_commit tb wh rows name_key data o :
  o = body_outcome tb wh rows ->
  In (EvWh WhCommit) (load_events tb wh rows (drop_logs name_key data) o) ->
  wh (WhExecute (final_insert_query tb)) = None
  /\ exists t1 t2,
      load_events tb wh rows (drop_logs name_key data) o
      = t1 ++ [EvWh (WhExecute (final_insert_query tb)); EvWh WhCommit] ++ t2
      /\ ~ In (EvWh WhCommit) t1 /\ ~ In (EvWh WhCommit) t2.
Proof.
  intros Ho Hin.
  pose proof (body_outcome_committing tb wh rows) as Hprom. rewrite <- Ho in Hprom.
  rewrite In_commit_existsb in Hin. unfold load_events in *.
  rewrite !existsb_app, handler_events_no_commit, finally_events_no_commit in Hin.
  rewrite !orb_false_r in Hin.
  assert (Hsess : existsb is_commit (open_session tb) = false) by reflexivity.
  destruct o as [[ | | | | | | ] msg | | ]; cbn [body_events] in *;
    rewrite ?existsb_app, ?Hsess, ?drop_logs_no_commit in Hin;
    try (simpl in Hin; discriminate Hin).
  - split; [exact Hprom | ].
    exists (open_session tb ++ drop_logs name_key data
              ++ [EvWh (WhExecuteMany (temp_insert_query tb) rows)]),
      (handler_events (Failed AtCommit msg) ++ finally_events wh (Failed AtCommit msg)).
    split; [ | split].
    + rewrite <- !app_assoc. reflexivity.
    + rewrite In_commit_existsb, !existsb_app, Hsess, drop_logs_no_commit. simpl. discriminate.
    + rewrite In_commit_existsb, !existsb_app, handler_events_no_commit,
        finally_events_no_commit. simpl. discriminate.
  - split; [exact Hprom | ].
    exists (open_session tb ++ drop_logs name_key data
              ++ [EvWh (WhExecuteMany (temp_insert_query tb) rows)]),
      ([EvLog INFO (saved_fmt tb) [PInt (Z.of_nat (List.length rows))]]
         ++ handler_events Saved ++ finally_events wh Saved).
    split; [ | split].
    + rewrite <- !app_assoc. reflexivity.
    + rewrite In_commit_existsb, !existsb_app, Hsess, drop_logs_no_commit. simpl. discriminate.
    + rewrite In_commit_existsb, !existsb_app, handler_events_no_commit,
        finally_events_no_commit. simpl. discriminate.
Qed.

(** The cleanup calls are not guarded.  When the staging insert raises and
    [cursor.close()] then raises in the [finally], the loader has logged the
    insert's error and rolled back, but the connection is never closed and
    the caller gets the error of the close.  When the promotion raises and
    the rollback raises in the handler, the caller gets the error of the
    rollback. *)
Lemma load_failure_rolls_back_counterexample :
  (exists w',
     GitHub.save_to_snowflake gh [airflow_record]
       (scripted [] [noon 10 0] insert_and_close_fail)
     = (Raise (SnowflakeError "session expired"), w')
     /\ In (EvLog ERROR "Error saving to Snowflake: {}" [PStr "insert failed"]) (w_trace w')
     /\ In (EvWh WhRollback) (w_trace w')
     /\ In (EvWh WhCursorClose) (w_trace w')
     /\ ~ In (EvWh WhConnClose) (w_trace w'))
  /\ (exists w',
        GitHub.save_to_snowflake gh [airflow_record]
          (scripted [] [noon 10 0] promotion_and_rollback_fail)
        = (Raise (SnowflakeError "connection lost"), w')
        /\ In (EvLog ERROR "Error saving to Snowflake: {}" [PStr "SQL compilation error"])
              (w_trace w')
        /\ In (EvWh WhRollback) (w_trace w')).
Proof.
  split.
  - exists (snd (GitHub.save_to_snowflake gh [airflow_record]
                   (scripted [] [noon 10 0] insert_and_close_fail))).
    split; [vm_compute; reflexivity | ].
    split; [vm_compute; do 5 right; left; reflexivity | ].
    split; [vm_compute; do 6 right; left; reflexivity | ].
    split; [vm_compute; do 7 right; left; reflexivity | ].
    vm_compute. intros H.
    repeat (destruct H as [H | H]; [discriminate H | ]). exact H.
  - exists (snd (GitHub.save_to_snowflake gh [airflow_record]
                   (scripted [] [noon 10 0] promotion_and_rollback_fail))).
    split; [vm_compute; reflexivity | ].
    split; [vm_compute; do 6 right; left; reflexivity | ].
    vm_compute. do 7 right. left. reflexivity.
Qed.

(** C1.  [save_to_snowflake] on a non-empty batch, in a world where the
    session opens and the temporary table is created, and where the
    staging insert, the promotion or the commit is the first call to raise
    (stage [st], message [msg]).  Then the loader raises; what it adds to
    the trace is the calls up to the failing one, the ERROR line with
    [msg], the rollback, then the close of the cursor; and when the
    rollback and the two closes themselves return, the connection is
    closed after the cursor and the exception that reaches the caller is
    the one the failing call raised.  Moreover, in every world and for every
    batch, a commit appears in what the loader adds to the trace only
    directly after the promotion statement, which has then returned
    normally, and at most once.  [GitHub.save_to_snowflake] and
    [PyPI.save_to_snowflake] are [save_to_snowflake_on] at their tables. *)
Theorem load_failure_rolls_back :
  (forall tb record data w st msg,
      let rows := staged (name_key tb) (w_clock w) (w_ticks w) (record :: data) in
      stage_created tb (w_wh w) -> rows <> [] ->
      load_fails_at tb (w_wh w) rows st msg ->
      exists res w' post,
        save_to_snowflake_on tb (record :: data) w = (res, w')
        /\ (exists e, res = Raise e)
        /\ w_trace w'
           = w_trace w
             ++ (open_session tb ++ drop_logs (name_key tb) (record :: data)
                 ++ calls_before tb rows st)
             ++ [EvWh (stage_call tb rows st);
                 EvLog ERROR "Error saving to Snowflake: {}" [PStr msg];
                 EvWh WhRollback;
                 EvWh WhCursorClose]
             ++ post
        /\ (w_wh w WhCursorClose = None -> post = [EvWh WhConnClose])
        /\ (w_wh w WhRollback = None -> w_wh w WhCursorClose = None ->
            w_wh w WhConnClose = None -> res = Raise (SnowflakeError msg)))
  /\
  (forall tb data w evs,
      w_trace (snd (save_to_snowflake_on tb data w)) = w_trace w ++ evs ->
      In (EvWh WhCommit) evs ->
      w_wh w (WhExecute (final_insert_query tb)) = None
      /\ exists t1 t2,
          evs = t1 ++ [EvWh (WhExecute (final_insert_query tb)); EvWh WhCommit] ++ t2
          /\ ~ In (EvWh WhCommit) t1 /\ ~ In (EvWh WhCommit) t2).
Proof.
  split.
  - intros tb record data w st msg rows Hsess Hrows Hfail.
    pose proof (save_to_snowflake_run tb record data w) as Hrun. cbv zeta in Hrun.
    fold rows in Hrun.
    rewrite (body_outcome_fails _ _ _ _ _ Hsess Hrows Hfail) in Hrun.
    assert (Hst : has_conn (Failed st msg) = true /\ has_cursor (Failed st msg) = true).
    { destruct Hfail as [_ Hb]. destruct st; simpl in Hb; try contradiction; auto. }
    destruct Hst as [Hconn Hcur].
    eexists; eexists.
    exists (match w_wh w WhCursorClose with Some _ => [] | None => [EvWh WhConnClose] end).
    split; [exact Hrun | ].
    split; [ | split; [ | split]].
    + unfold load_result, cursor_close_raises, handler_result. rewrite Hconn, Hcur.
      destruct (w_wh w WhCursorClose); [eauto | ].
      destruct (w_wh w WhConnClose); [eauto | ].
      destruct (w_wh w WhRollback); eauto.
    + cbn [w_trace]. f_equal.
      unfold load_events, finally_events, handler_events, cursor_close_raises.
      rewrite Hconn, Hcur.
      destruct Hfail as [_ Hb].
      destruct st; simpl in Hb; try contradiction; simpl;
        rewrite <- ?app_assoc; simpl; reflexivity.
    + intros ->. reflexivity.
    + intros Hr Hcc Hc. unfold load_result, cursor_close_raises, handler_result.
      rewrite Hconn, Hcur, Hcc, Hc, Hr. reflexivity.
  - intros tb data w evs Htr Hin.
    destruct data as [ | record data].
    + simpl in Htr. apply app_inv_head in Htr. subst evs.
      simpl in Hin. destruct Hin as [H | []]. discriminate H.
    + pose proof (save_to_snowflake_run tb record data w) as Hrun. cbv zeta in Hrun.
      rewrite Hrun in Htr. cbn [snd w_trace] in Htr.
      apply app_inv_head in Htr. subst evs.
      eapply load_events_commit; [reflexivity | exact Hin].
Qed.

Lemma load_failure_rolls_back_witness :
  exists w',
    GitHub.save_to_snowflake gh [airflow_record]
      (scripted [] [noon 10 0] (wh_fails (is_promotion GitHub.tables) "SQL compilation error"))
    = (Raise (SnowflakeError "SQL compilation error"), w').
Proof.
  destruct (proj1 load_failure_rolls_back GitHub.tables airflow_record []
              (scripted [] [noon 10 0]
                 (wh_fails (is_promotion GitHub.tables) "SQL compilation error"))
              AtPromote "SQL compilation error")
    as (res & w' & post & Hrun & _ & _ & _ & Hres).
  - repeat split; reflexivity.
  - vm_compute. discriminate.
  - split; reflexivity.
  - exists w'. unfold GitHub.save_to_snowflake. rewrite Hrun.
    rewrite Hres; reflexivity.
Defined.

(** ** What the staging loop keeps and what it drops *)

Lemma staged_rows name_key clock data : forall tick,
  Forall2 (row_of_record name_key) (filter accepted data) (staged name_key clock tick data).
Proof.
  induction data as [ | record data IH]; intros tick; simpl; [constructor | ].
  unfold accepted, passes_gate. destruct (dict_truthy record); simpl; [ | apply IH].
  destruct (gate record) as [json_str | e] eqn:Eg; [ | apply IH].
  constructor; [ | apply IH].
  unfold row_of_record. cbn [fst snd]. split; [reflexivity | ].
  unfold gate in Eg.
  destruct (json_dumps (PDict record)) as [t | ]; [ | discriminate].
  destruct (json_loads t); [ | discriminate]. inversion Eg. reflexivity.
Qed.

Lemma staged_length name_key clock tick data :
  List.length (staged name_key clock tick data) = List.length (filter accepted data).
Proof.
  symmetry. eapply Forall2_length. apply staged_rows.
Qed.

Lemma staged_stamps name_key clock data : forall tick,
  map row_stamp (staged name_key clock tick data)
  = map clock (seq tick (List.length (staged name_key clock tick data))).
Proof.
  induction data as [ | record data IH]; intros tick; simpl; [reflexivity | ].
  destruct (dict_truthy record); [ | apply IH].
  destruct (gate record); [ | apply IH].
  simpl. f_equal. apply IH.
Qed.

Lemma drop_logs_length name_key data :
  List.length (drop_logs name_key data) = List.length (filter dropped data).
Proof.
  induction data as [ | record data IH]; simpl; [reflexivity | ].
  unfold dropped, passes_gate. destruct (dict_truthy record); simpl; [ | exact IH].
  destruct (gate record); simpl; [exact IH | f_equal; exact IH].
Qed.

Lemma body_outcome_saved tb wh rows :
  (forall c, wh c = None) -> rows <> [] -> body_outcome tb wh rows = Saved.
Proof.
  intros H Hrows. unfold body_outcome. rewrite !H. destruct rows; congruence.
Qed.

Lemma body_outcome_filtered tb wh :
  stage_created tb wh -> body_outcome tb wh [] = Filtered.
Proof.
  intros (Hc & Hcur & Hu & Ht). unfold body_outcome. rewrite Hc, Hcur, Hu, Ht. reflexivity.
Qed.

(** ** Dropping single records (C6) *)

(** C6, as stated, fails twice.  When every record is dropped the loader
    returns [None], not 0; and of three records of which exactly one fails
    validation only one is staged when another is the empty dict, which the
    loop skips without validating it. *)
Lemma drop_single_record_counterexample :
  (passes_gate unserializable_record = false
   /\ fst (GitHub.save_to_snowflake gh [unserializable_record] (scripted [] [] wh_ok))
      <> Ok (PInt 0))
  /\ (List.length (filter (fun r => negb (passes_gate r))
                          [[]; unserializable_record; airflow_record]) = 1%nat
      /\ exists row,
          In (EvWh (WhExecuteMany (temp_insert_query GitHub.tables) [row]))
             (w_trace (snd (GitHub.save_to_snowflake gh
                              [[]; unserializable_record; airflow_record]
                              (scripted [] [noon 10 0] wh_ok))))).
Proof.
  split; [split | split].
  - reflexivity.
  - vm_compute. discriminate.
  - reflexivity.
  - eexists. vm_compute. do 5 right. left. reflexivity.
Qed.

Lemma accepted_nonempty (record : PyDict) :
  record <> [] -> accepted record = passes_gate record.
Proof. intros H. unfold accepted. destruct record; [congruence | reflexivity]. Qed.

Lemma dropped_nonempty (record : PyDict) :
  record <> [] -> dropped record = negb (passes_gate record).
Proof. intros H. unfold dropped. destruct record; [congruence | reflexivity]. Qed.

(** C6, amended.  [save_to_snowflake] returns [None] on every path that
    returns.  In a world where the warehouse calls return, a batch with at
    least one non-empty record that passes the gate is staged and promoted
    without the others: the one [executemany] carries exactly one row per
    such record, in batch order, each with the record's name and its
    [json.dumps] text, the promotion and the commit follow, and each
    non-empty record that fails the gate has left one ERROR line.  So of
    three non-empty records of which exactly one fails, exactly two rows
    are staged and promoted and one drop is logged.  When no record is
    staged, the loader logs its warning and returns [None]; neither
    [executemany] nor the promotion nor the commit is called. *)
Theorem drop_single_record :
  (forall tb record data w,
      (forall c, w_wh w c = None) ->
      filter accepted (record :: data) <> [] ->
      exists rows w',
        save_to_snowflake_on tb (record :: data) w = (Ok PNone, w')
        /\ Forall2 (row_of_record (name_key tb)) (filter accepted (record :: data)) rows
        /\ List.length (drop_logs (name_key tb) (record :: data))
           = List.length (filter dropped (record :: data))
        /\ w_trace w'
           = w_trace w ++ open_session tb ++ drop_logs (name_key tb) (record :: data)
             ++ [EvWh (WhExecuteMany (temp_insert_query tb) rows);
                 EvWh (WhExecute (final_insert_query tb));
                 EvWh WhCommit;
                 EvLog INFO (saved_fmt tb) [PInt (Z.of_nat (List.length rows))];
                 EvWh WhCursorClose;
                 EvWh WhConnClose])
  /\
  (forall tb (r1 r2 r3 : PyDict) w,
      (forall c, w_wh w c = None) ->
      r1 <> [] -> r2 <> [] -> r3 <> [] ->
      List.length (filter (fun r => negb (passes_gate r)) [r1; r2; r3]) = 1%nat ->
      exists rows logs w',
        save_to_snowflake_on tb [r1; r2; r3] w = (Ok PNone, w')
        /\ List.length rows = 2%nat /\ List.length logs = 1%nat
        /\ w_trace w'
           = w_trace w ++ open_session tb ++ logs
             ++ [EvWh (WhExecuteMany (temp_insert_query tb) rows);
                 EvWh (WhExecute (final_insert_query tb));
                 EvWh WhCommit;
                 EvLog INFO (saved_fmt tb) [PInt 2];
                 EvWh WhCursorClose;
                 EvWh WhConnClose])
  /\
  (forall tb record data w,
      stage_created tb (w_wh w) ->
      w_wh w WhCursorClose = None -> w_wh w WhConnClose = None ->
      filter accepted (record :: data) = [] ->
      exists w',
        save_to_snowflake_on tb (record :: data) w = (Ok PNone, w')
        /\ w_trace w'
           = w_trace w ++ open_session tb ++ drop_logs (name_key tb) (record :: data)
             ++ [EvLog WARNING "No valid data to insert after filtering." [];
                 EvWh WhCursorClose;
                 EvWh WhConnClose]).
Proof.
  assert (Hgen : forall tb record data w,
      (forall c, w_wh w c = None) ->
      filter accepted (record :: data) <> [] ->
      exists rows w',
        save_to_snowflake_on tb (record :: data) w = (Ok PNone, w')
        /\ Forall2 (row_of_record (name_key tb)) (filter accepted (record :: data)) rows
        /\ List.length (drop_logs (name_key tb) (record :: data))
           = List.length (filter dropped (record :: data))
        /\ w_trace w'
           = w_trace w ++ open_session tb ++ drop_logs (name_key tb) (record :: data)
             ++ [EvWh (WhExecuteMany (temp_insert_query tb) rows);
                 EvWh (WhExecute (final_insert_query tb));
                 EvWh WhCommit;
                 EvLog INFO (saved_fmt tb) [PInt (Z.of_nat (List.length rows))];
                 EvWh WhCursorClose;
                 EvWh WhConnClose]).
  { intros tb record data w Hwh Hacc.
    pose proof (save_to_snowflake_run tb record data w) as Hrun. cbv zeta in Hrun.
    set (rows := staged (name_key tb) (w_clock w) (w_ticks w) (record :: data)) in *.
    assert (Hrows : rows <> []).
    { intros H. apply Hacc. apply length_zero_iff_nil.
      rewrite <- (staged_length (name_key tb) (w_clock w) (w_ticks w)).
      fold rows. rewrite H. reflexivity. }
    rewrite (body_outcome_saved _ _ _ Hwh Hrows) in Hrun.
    exists rows. eexists. split; [ | split; [ | split]].
    - rewrite Hrun. unfold load_result, cursor_close_raises. simpl. rewrite !Hwh. reflexivity.
    - apply staged_rows.
    - apply drop_logs_length.
    - cbn [w_trace]. f_equal.
      unfold load_events, finally_events, cursor_close_raises. simpl. rewrite Hwh.
      rewrite <- !app_assoc. reflexivity. }
  split; [exact Hgen | split].
  - intros tb r1 r2 r3 w Hwh H1 H2 H3 Hone.
    assert (Hacc : List.length (filter accepted [r1; r2; r3]) = 2%nat
                   /\ List.length (filter dropped [r1; r2; r3]) = 1%nat).
    { simpl in *.
      rewrite (accepted_nonempty _ H1), (accepted_nonempty _ H2), (accepted_nonempty _ H3).
      rewrite (dropped_nonempty _ H1), (dropped_nonempty _ H2), (dropped_nonempty _ H3).
      destruct (passes_gate r1), (passes_gate r2), (passes_gate r3);
        simpl in *; try discriminate; auto. }
    destruct Hacc as [Hacc Hdrop].
    destruct (Hgen tb r1 [r2; r3] w Hwh) as (rows & w' & Hrun & Hrows & Hlogs & Htr).
    { intros H. rewrite H in Hacc. discriminate. }
    exists rows, (drop_logs (name_key tb) [r1; r2; r3]), w'.
    assert (Hlen : List.length rows = 2%nat).
    { rewrite <- (Forall2_length Hrows). exact Hacc. }
    split; [exact Hrun | split; [exact Hlen | split]].
    + rewrite Hlogs. exact Hdrop.
    + rewrite Htr, Hlen. reflexivity.
  - intros tb record data w Hsess Hcc Hc Hnone.
    pose proof (save_to_snowflake_run tb record data w) as Hrun. cbv zeta in Hrun.
    assert (Hrows : staged (name_key tb) (w_clock w) (w_ticks w) (record :: data) = []).
    { apply length_zero_iff_nil. rewrite staged_length, Hnone. reflexivity. }
    rewrite Hrows in Hrun. rewrite (body_outcome_filtered _ _ Hsess) in Hrun.
    eexists. split.
    + rewrite Hrun. unfold load_result, cursor_close_raises. simpl. rewrite Hcc, Hc. reflexivity.
    + cbn [w_trace]. f_equal.
      unfold load_events, finally_events, cursor_close_raises. simpl. rewrite Hcc.
      rewrite <- !app_assoc. reflexivity.
Qed.

Lemma drop_single_record_witness :
  exists rows logs w',
    GitHub.save_to_snowflake gh [airflow_record; unserializable_record; spark_record]
                             (scripted [] [noon 10 0; noon 10 250] wh_ok)
    = (Ok PNone, w')
    /\ List.length rows = 2%nat /\ List.length logs = 1%nat
    /\ w_trace w'
       = [] ++ open_session GitHub.tables ++ logs
         ++ [EvWh (WhExecuteMany (temp_insert_query GitHub.tables) rows);
             EvWh (WhExecute (final_insert_query GitHub.tables));
             EvWh WhCommit;
             EvLog INFO (saved_fmt GitHub.tables) [PInt 2];
             EvWh WhCursorClose;
             EvWh WhConnClose].
Proof.
  apply (proj1 (proj2 drop_single_record) GitHub.tables
               airflow_record unserializable_record spark_record
               (scripted [] [noon 10 0; noon 10 250] wh_ok)).
  - intros c. reflexivity.
  - discriminate.
  - discriminate.
  - discriminate.
  - vm_compute. reflexivity.
Defined.

(** ** The rows handed to [executemany] *)

Lemma drop_logs_are_logs name_key data e :
  In e (drop_logs name_key data) -> exists fmt args, e = EvLog ERROR fmt args.
Proof.
  induction data as [ | record data IH]; simpl; [intros [] | ].
  destruct (dict_truthy record); [ | exact IH].
  destruct (gate record); [exact IH | ].
  intros [H | H]; [subst; eauto | apply IH; exact H].
Qed.

(** The only [executemany] of the table carries the rows of the loop. *)
Lemma load_events_executemany tb wh rows name_key data o sql rows' :
  In (EvWh (WhExecuteMany sql rows')) (load_events tb wh rows (drop_logs name_key data) o) ->
  sql = temp_insert_query tb /\ rows' = rows.
Proof.
  unfold load_events. rewrite !in_app_iff. intros [H | [H | H]].
  - assert (Hs : ~ In (EvWh (WhExecuteMany sql rows')) (open_session tb)).
    { unfold open_session. simpl. intros [E | [E | [E | [E | []]]]]; discriminate E. }
    assert (Hl : ~ In (EvWh (WhExecuteMany sql rows')) (drop_logs name_key data)).
    { intros E. apply drop_logs_are_logs in E. destruct E as (f & a & E). discriminate E. }
    destruct o as [[ | | | | | | ] msg | | ]; cbn [body_events] in H;
      rewrite ?in_app_iff in H;
      try (destruct H as [H | [H | H]]; [contradiction | contradiction | ]);
      simpl in H;
      repeat match goal with
             | H : _ \/ _ |- _ => destruct H as [H | H]
             | H : False |- _ => destruct H
             | H : EvWh _ = EvWh _ |- _ => inversion H; clear H
             | H : EvLog _ _ _ = EvWh _ |- _ => discriminate H
             end; auto.
  - destruct o as [st msg | | ]; simpl in H; try contradiction.
    destruct H as [H | H]; [discriminate H | ].
    destruct st; simpl in H;
      repeat match goal with
             | H : _ \/ _ |- _ => destruct H as [H | H]
             | H : False |- _ => destruct H
             | H : EvWh _ = EvWh _ |- _ => discriminate H
             end.
  - unfold finally_events, cursor_close_raises in H.
    destruct (has_cursor o), (has_conn o), (wh WhCursorClose); simpl in H;
      repeat match goal with
             | H : _ \/ _ |- _ => destruct H as [H | H]
             | H : False |- _ => destruct H
             | H : EvWh _ = EvWh _ |- _ => discriminate H
             end.
Qed.

Lemma loader_executemany tb data w evs sql rows :
  w_trace (snd (save_to_snowflake_on tb data w)) = w_trace w ++ evs ->
  In (EvWh (WhExecuteMany sql rows)) evs ->
  sql = temp_insert_query tb
  /\ rows = staged (name_key tb) (w_clock w) (w_ticks w) data.
Proof.
  intros Htr Hin. destruct data as [ | record data].
  - simpl in Htr. apply app_inv_head in Htr. subst evs.
    destruct Hin as [H | []]. discriminate H.
  - pose proof (save_to_snowflake_run tb record data w) as Hrun. cbv zeta in Hrun.
    rewrite Hrun in Htr. cbn [snd w_trace] in Htr.
    apply app_inv_head in Htr. subst evs.
    eapply load_events_executemany. exact Hin.
Qed.

(** ** The shape of a fetched record (C2) *)

Ltac bind_inv H :=
  let a := fresh "a" in
  let w := fresh "w" in
  let Ha := fresh "Ha" in
  apply bind_Ok_inv in H; destruct H as (a & w & Ha & H).

Lemma requests_get_Ok url hs w r w1 :
  requests_get url hs w = (Ok r, w1) ->
  w_http w (w_reqs w) url = HttpResp r
  /\ w1 = mk_world (w_http w) (S (w_reqs w)) (w_clock w) (w_ticks w) (w_wh w)
                   (w_conn w) (w_cursor w) (w_trace w ++ [EvGet url hs]).
Proof.
  unfold requests_get. destruct (w_http w (w_reqs w) url); intros H; inversion H.
  split; reflexivity.
Qed.

Lemma raise_for_status_Ok url r w u w1 :
  raise_for_status url r w = (Ok u, w1) ->
  ((400 <=? status_code r) && (status_code r <? 600))%bool = false /\ w1 = w.
Proof.
  unfold raise_for_status.
  destruct ((400 <=? status_code r) && (status_code r <? 600))%bool;
    intros H; inversion H. split; reflexivity.
Qed.

Lemma response_json_Ok r w v w1 :
  response_json r w = (Ok v, w1) -> json_body r = Some v /\ w1 = w.
Proof.
  unfold response_json. destruct (json_body r); intros H; inversion H.
  split; reflexivity.
Qed.

Lemma github_body_fields self repo w d w1 :
  GitHub.get_repo_data_body self repo w = (Ok (Some d), w1) ->
  map fst d = github_fields.
Proof.
  intros H. unfold GitHub.get_repo_data_body in H.
  repeat bind_inv H.
  unfold ret in H. inversion H. reflexivity.
Qed.

Lemma pypi_body_fields self package w d w1 :
  PyPI.get_package_info_body self package w = (Ok (Some d), w1) ->
  map fst d = pypi_fields
              ++ (if stats_answered_200 self package w then download_fields else [])
              ++ ["extracted_at"%string].
Proof.
  intros H. unfold PyPI.get_package_info_body in H.
  bind_inv H. bind_inv H. bind_inv H. bind_inv H. bind_inv H.
  apply requests_get_Ok in Ha. destruct Ha as [Hresp ->].
  apply raise_for_status_Ok in Ha0. destruct Ha0 as [_ ->].
  apply response_json_Ok in Ha1. destruct Ha1 as [_ ->].
  apply requests_get_Ok in Ha2. destruct Ha2 as [Hstats ->].
  cbn [w_http w_reqs] in Hstats.
  unfold stats_answered_200. rewrite Hstats.
  repeat bind_inv H. unfold ret in H. inversion H. clear H.
  destruct (status_code a2 =? 200).
  - repeat bind_inv Ha3. unfold ret in Ha3. inversion Ha3. reflexivity.
  - unfold ret in Ha3. inversion Ha3. reflexivity.
Qed.

Lemma github_record_defaults self repo w rc rr :
  w_http w (w_reqs w) (GitHub.base_url self ++ "/repos/" ++ repo)%string
    = resp 200 (Some (PDict [])) ->
  w_http w (S (w_reqs w)) (GitHub.base_url self ++ "/repos/" ++ repo ++ "/contributors")%string
    = HttpResp rc ->
  w_http w (S (S (w_reqs w))) (GitHub.base_url self ++ "/repos/" ++ repo ++ "/releases")%string
    = HttpResp rr ->
  status_code rc <> 200 -> status_code rr <> 200 ->
  fst (GitHub.get_repo_data self repo w)
  = Ok (Some (github_defaults repo (w_clock w (w_ticks w)))).
Proof.
  intros H1 H2 H3 Hc Hr.
  apply Z.eqb_neq in Hc, Hr.
  unfold GitHub.get_repo_data, try_except, GitHub.get_repo_data_body.
  unfold bind at 1. unfold requests_get at 1. rewrite H1. cbn -[String.append].
  unfold bind at 1. unfold requests_get at 1. cbn -[String.append]. rewrite H2, Hc.
  cbn -[String.append].
  unfold bind at 1. unfold requests_get at 1. cbn -[String.append]. rewrite H3, Hr.
  cbn -[String.append]. reflexivity.
Qed.

Lemma pypi_record_defaults self package w :
  w_http w (w_reqs w) (PyPI.base_url self ++ "/" ++ package ++ "/json")%string
    = resp 200 (Some (PDict [])) ->
  w_http w (S (w_reqs w)) (PyPI.stats_url self ++ "/packages/" ++ package ++ "/recent")%string
    = resp 200 (Some (PDict [])) ->
  fst (PyPI.get_package_info self package w)
  = Ok (Some (pypi_defaults package (w_clock w (w_ticks w)))).
Proof.
  intros H1 H2.
  unfold PyPI.get_package_info, try_except, PyPI.get_package_info_body.
  unfold bind at 1. unfold requests_get at 1. rewrite H1. cbn -[String.append].
  unfold bind at 1. unfold requests_get at 1. cbn -[String.append]. rewrite H2.
  cbn -[String.append]. reflexivity.
Qed.

(** C2, as stated, fails for PyPI: [download_stats] is spliced into the
    record with [**], and it is the empty dict unless the statistics call
    answers 200.  Here the same package is fetched twice; the record has
    the key [downloads_last_day] when the statistics service answers, and
    lacks it when the service answers 500. *)
Lemma record_fields_counterexample :
  (exists d,
      fst (PyPI.get_package_info pypi "pandas"
             (scripted [resp 200 (Some (PDict [])); resp 200 (Some (PDict []))] [noon 1 0] wh_ok))
      = Ok (Some d)
      /\ dict_lookup "downloads_last_day" d = Some (PInt 0))
  /\ (exists d,
      fst (PyPI.get_package_info pypi "pandas"
             (scripted [resp 200 (Some (PDict [])); resp 500 None] [noon 1 0] wh_ok))
      = Ok (Some d)
      /\ dict_lookup "downloads_last_day" d = None).
Proof.
  split; eexists; (split; [vm_compute; reflexivity | reflexivity]).
Qed.

(** C2, amended.  A record returned by [get_repo_data] has exactly the 19
    keys of its dict display, in that order, whatever the answers were.  A
    record returned by [get_package_info] has the 16 keys its display
    writes out and [extracted_at]; the three [downloads_*] keys stand
    between them exactly when the statistics call answered 200, and are
    absent otherwise.  Where the upstream objects are empty, the values are
    the defaults of the [.get] calls: [None], 0, the empty list, the empty
    dict. *)
Theorem record_fields :
  (forall self repo w d,
      fst (GitHub.get_repo_data self repo w) = Ok (Some d) ->
      map fst d = github_fields)
  /\
  (forall self package w d,
      fst (PyPI.get_package_info self package w) = Ok (Some d) ->
      map fst d = pypi_fields
                  ++ (if stats_answered_200 self package w then download_fields else [])
                  ++ ["extracted_at"%string])
  /\
  (forall self repo w rc rr,
      w_http w (w_reqs w) (GitHub.base_url self ++ "/repos/" ++ repo)%string
        = resp 200 (Some (PDict [])) ->
      w_http w (S (w_reqs w))
             (GitHub.base_url self ++ "/repos/" ++ repo ++ "/contributors")%string
        = HttpResp rc ->
      w_http w (S (S (w_reqs w)))
             (GitHub.base_url self ++ "/repos/" ++ repo ++ "/releases")%string
        = HttpResp rr ->
      status_code rc <> 200 -> status_code rr <> 200 ->
      fst (GitHub.get_repo_data self repo w)
      = Ok (Some (github_defaults repo (w_clock w (w_ticks w)))))
  /\
  (forall self package w,
      w_http w (w_reqs w) (PyPI.base_url self ++ "/" ++ package ++ "/json")%string
        = resp 200 (Some (PDict [])) ->
      w_http w (S (w_reqs w))
             (PyPI.stats_url self ++ "/packages/" ++ package ++ "/recent")%string
        = resp 200 (Some (PDict [])) ->
      fst (PyPI.get_package_info self package w)
      = Ok (Some (pypi_defaults package (w_clock w (w_ticks w))))).
Proof.
  split; [ | split; [ | split]].
  - intros self repo w d H.
    unfold GitHub.get_repo_data, try_except in H.
    destruct (GitHub.get_repo_data_body self repo w) as [[r | e] w1] eqn:E.
    + simpl in H. inversion H; subst. eapply github_body_fields; exact E.
    + destruct (is_RequestException e); discriminate H.
  - intros self package w d H.
    unfold PyPI.get_package_info, try_except in H.
    destruct (PyPI.get_package_info_body self package w) as [[r | e] w1] eqn:E.
    + simpl in H. inversion H; subst. eapply pypi_body_fields; exact E.
    + destruct (is_RequestException e); discriminate H.
  - exact github_record_defaults.
  - exact pypi_record_defaults.
Qed.

Lemma record_fields_witness :
  map fst (pypi_defaults "pandas" (noon 1 0))
  = pypi_fields
    ++ (if stats_answered_200 pypi "pandas"
             (scripted [resp 200 (Some (PDict [])); resp 200 (Some (PDict []))] [noon 1 0] wh_ok)
        then download_fields else [])
    ++ ["extracted_at"%string].
Proof.
  apply (proj1 (proj2 record_fields) pypi "pandas"
               (scripted [resp 200 (Some (PDict [])); resp 200 (Some (PDict []))] [noon 1 0] wh_ok)).
  apply (proj2 (proj2 (proj2 record_fields)) pypi "pandas"
               (scripted [resp 200 (Some (PDict [])); resp 200 (Some (PDict []))] [noon 1 0] wh_ok));
    reflexivity.
Defined.

(** ** Which events a computation can add to the trace *)

Lemma emits_only_silent {A} P (m : M A) :
  (forall w, w_trace (snd (m w)) = w_trace w) -> emits_only P m.
Proof.
  intros H w r w' E. exists []. split; [ | constructor].
  specialize (H w). rewrite E in H. simpl in H. rewrite H, app_nil_r. reflexivity.
Qed.

Lemma emits_only_ret {A} P (a : A) : emits_only P (ret a).
Proof. apply emits_only_silent. reflexivity. Qed.

Lemma emits_only_raise {A} P e : emits_only P (@raise A e).
Proof. apply emits_only_silent. reflexivity. Qed.

Lemma emits_only_lift {A} P (r : Result A) : emits_only P (lift r).
Proof. apply emits_only_silent. reflexivity. Qed.

Lemma emits_only_now P : emits_only P datetime_now.
Proof. apply emits_only_silent. reflexivity. Qed.

Lemma emits_only_raise_for_status P url r : emits_only P (raise_for_status url r).
Proof.
  apply emits_only_silent. intros w. unfold raise_for_status.
  destruct ((400 <=? status_code r) && (status_code r <? 600))%bool; reflexivity.
Qed.

Lemma emits_only_response_json P r : emits_only P (response_json r).
Proof.
  apply emits_only_silent. intros w. unfold response_json.
  destruct (json_body r); reflexivity.
Qed.

Lemma emits_only_one {A} (P : Event -> Prop) (m : M A) e :
  P e -> (forall w, w_trace (snd (m w)) = w_trace w ++ [e]) -> emits_only P m.
Proof.
  intros HP H w r w' E. exists [e]. split; [ | constructor; [exact HP | constructor]].
  specialize (H w). rewrite E in H. exact H.
Qed.

Lemma emits_only_logger (P : Event -> Prop) lvl fmt args :
  P (EvLog lvl fmt args) -> emits_only P (logger lvl fmt args).
Proof. intros HP. eapply emits_only_one; [exact HP | reflexivity]. Qed.

Lemma emits_only_sleep (P : Event -> Prop) n :
  P (EvSleep n) -> emits_only P (time_sleep n).
Proof. intros HP. eapply emits_only_one; [exact HP | reflexivity]. Qed.

Lemma emits_only_requests_get (P : Event -> Prop) url hs :
  P (EvGet url hs) -> emits_only P (requests_get url hs).
Proof.
  intros HP. eapply emits_only_one; [exact HP | ].
  intros w. unfold requests_get. destruct (w_http w (w_reqs w) url); reflexivity.
Qed.

Lemma emits_only_bind {A B} P (m : M A) (f : A -> M B) :
  emits_only P m -> (forall a, emits_only P (f a)) -> emits_only P (bind m f).
Proof.
  intros Hm Hf w r w' E. unfold bind in E.
  destruct (m w) as [[a | e] w1] eqn:Em.
  - destruct (Hm _ _ _ Em) as (evs1 & Ht1 & HP1).
    destruct (Hf a _ _ _ E) as (evs2 & Ht2 & HP2).
    exists (evs1 ++ evs2). split.
    + rewrite Ht2, Ht1, app_assoc. reflexivity.
    + apply Forall_app. split; assumption.
  - inversion E; subst. eapply Hm; exact Em.
Qed.

Lemma emits_only_try_except {A} P (m : M A) (h : Exn -> M A) :
  emits_only P m -> (forall e, emits_only P (h e)) -> emits_only P (try_except m h).
Proof.
  intros Hm Hh w r w' E. unfold try_except in E.
  destruct (m w) as [[a | e] w1] eqn:Em.
  - inversion E; subst. eapply Hm; exact Em.
  - destruct (Hm _ _ _ Em) as (evs1 & Ht1 & HP1).
    destruct (Hh e _ _ _ E) as (evs2 & Ht2 & HP2).
    exists (evs1 ++ evs2). split.
    + rewrite Ht2, Ht1, app_assoc. reflexivity.
    + apply Forall_app. split; assumption.
Qed.

Lemma emits_only_if {A} P (b : bool) (m1 m2 : M A) :
  emits_only P m1 -> emits_only P m2 -> emits_only P (if b then m1 else m2).
Proof. destruct b; auto. Qed.

(** Solves [emits_only P m] for straight-line code, leaving the facts
    [P e] of the events [m] can emit. *)
Ltac emits :=
  repeat first
    [ apply emits_only_ret | apply emits_only_raise | apply emits_only_lift
    | apply emits_only_now | apply emits_only_raise_for_status
    | apply emits_only_response_json
    | apply emits_only_logger | apply emits_only_sleep | apply emits_only_requests_get
    | apply emits_only_bind; [ | intro ]
    | apply emits_only_try_except; [ | intro ]
    | apply emits_only_if ].

(** *** Strings *)

Lemma append_length (s t : string) :
  String.length (s ++ t)%string = (String.length s + String.length t)%nat.
Proof. induction s as [ | c s IH]; simpl; [reflexivity | rewrite IH; reflexivity]. Qed.

Lemma append_nonempty_neq (s t : string) :
  t <> ""%string -> (s ++ t)%string <> s.
Proof.
  intros Ht H. apply (f_equal String.length) in H. rewrite append_length in H.
  destruct t; [congruence | simpl in H; lia].
Qed.

Lemma append_inj_l (s x y : string) : (s ++ x)%string = (s ++ y)%string -> x = y.
Proof. induction s as [ | c s IH]; simpl; intros H; [exact H | inversion H; auto]. Qed.

Lemma append_assoc (a b c : string) : ((a ++ b) ++ c)%string = (a ++ (b ++ c))%string.
Proof. induction a as [ | x a IH]; simpl; [reflexivity | rewrite IH; reflexivity]. Qed.

(** ** The rate-limit retry (C3) *)

Lemma try_except_bind {A B} (m : M A) (f : A -> M B) h w :
  try_except (bind m f) h w
  = match m w with
    | (Ok a, w1) => try_except (f a) h w1
    | (Raise e, w1) => h e w1
    end.
Proof. unfold try_except, bind. destruct (m w) as [[a | e] w1]; reflexivity. Qed.

Lemma contributors_url_neq base repo :
  String.eqb (base ++ "/repos/" ++ repo ++ "/contributors")%string
             (base ++ "/repos/" ++ repo)%string = false.
Proof.
  apply String.eqb_neq. intros H. apply append_inj_l in H.
  apply (append_inj_l "/repos/") in H.
  revert H. apply append_nonempty_neq. discriminate.
Qed.

Lemma releases_url_neq base repo :
  String.eqb (base ++ "/repos/" ++ repo ++ "/releases")%string
             (base ++ "/repos/" ++ repo)%string = false.
Proof.
  apply String.eqb_neq. intros H. apply append_inj_l in H.
  apply (append_inj_l "/repos/") in H.
  revert H. apply append_nonempty_neq. discriminate.
Qed.

Lemma github_retry_once self repo w r1 :
      w_http w (w_reqs w) (repo_url self repo) = HttpResp r1 ->
      status_code r1 = 403 ->
      exists res w' rest,
        GitHub.get_repo_data self repo w = (res, w')
        /\ w_trace w'
           = w_trace w
             ++ [EvGet (repo_url self repo) (GitHub.headers self);
                 EvLog WARNING "Rate limit hit for {}, waiting..." [PStr repo];
                 EvSleep 60;
                 EvGet (repo_url self repo) (GitHub.headers self)]
             ++ rest
        /\ Forall (fun e => is_retry_of (repo_url self repo) e = false) rest
        /\ (http_refused (w_http w (S (w_reqs w)) (repo_url self repo)) = true ->
            res = Ok None
            /\ exists msg, rest = [EvLog ERROR "Error fetching data for {}: {}" [PStr repo; PStr msg]]).
Proof.
  intros H1 Hst. unfold repo_url in *.
  unfold GitHub.get_repo_data, GitHub.get_repo_data_body.
  rewrite try_except_bind. unfold requests_get at 1. rewrite H1.
  rewrite try_except_bind. rewrite Hst. cbn [Z.eqb Pos.eqb].
  unfold bind at 1. unfold logger at 1. unfold bind at 1. unfold time_sleep at 1.
  unfold requests_get at 1. cbn [w_http w_reqs emit].
  destruct (w_http w (S (w_reqs w)) (GitHub.base_url self ++ "/repos/" ++ repo)%string)
    as [m | r2] eqn:H2.
  - cbn -[String.append]. eexists; eexists; eexists. split; [reflexivity | ].
    cbn -[String.append]. split; [ | split].
    + rewrite <- !app_assoc. cbn -[String.append]. reflexivity.
    + repeat constructor.
    + intros _. split; [reflexivity | eauto].
  - match goal with
    | |- context [try_except ?m ?h ?W] =>
        assert (Hem : emits_only (fun e => is_retry_of (GitHub.base_url self ++ "/repos/" ++ repo)%string e = false)
                                 (try_except m h));
        [ | destruct (try_except m h W) as [res w'] eqn:E;
            destruct (Hem _ _ _ E) as (rest & Htr & HP) ]
    end.
    { emits; try reflexivity; cbn [is_retry_of].
      - apply contributors_url_neq.
      - apply releases_url_neq. }
    exists res, w', rest. split; [reflexivity | ].
    split; [ | split; [exact HP | ]].
    + rewrite Htr. cbn [w_trace emit]. rewrite <- !app_assoc. reflexivity.
    + cbn [http_refused]. intros Href.
      rewrite try_except_bind in E. unfold raise_for_status in E. rewrite Href in E.
      cbn -[String.append] in E. inversion E; subst. split; [reflexivity | ].
      cbn [w_trace emit] in Htr. apply app_inv_head in Htr. subst rest. eauto.
Qed.

Lemma pypi_no_retry self package w :
  http_refused (w_http w (w_reqs w) (package_url self package)) = true ->
  exists msg w',
    PyPI.get_package_info self package w = (Ok None, w')
    /\ w_reqs w' = S (w_reqs w)
    /\ w_trace w'
       = w_trace w
         ++ [EvGet (package_url self package) [];
             EvLog ERROR "Error fetching data for {}: {}" [PStr package; PStr msg]].
Proof.
  unfold package_url. intros H.
  unfold PyPI.get_package_info, PyPI.get_package_info_body.
  rewrite try_except_bind. unfold requests_get at 1.
  destruct (w_http w (w_reqs w) (PyPI.base_url self ++ "/" ++ package ++ "/json")%string)
    as [m | r] eqn:E.
  - cbn -[String.append]. eexists; eexists. split; [reflexivity | ].
    cbn -[String.append]. split; [reflexivity | ].
    rewrite <- app_assoc. reflexivity.
  - cbn [http_refused] in H. rewrite try_except_bind. unfold raise_for_status.
    rewrite H. cbn -[String.append]. eexists; eexists. split; [reflexivity | ].
    cbn -[String.append]. split; [reflexivity | ].
    rewrite <- app_assoc. reflexivity.
Qed.

(** C3, as stated, fails twice.  [get_package_info] has no rate-limit branch:
    on a 403 it sends nothing more and does not sleep.  And the retry of
    [get_repo_data] is judged by [raise_for_status], which raises for 4xx
    and 5xx only: a retried call answered 304 with a JSON object yields a
    record. *)
Lemma rate_limit_retry_counterexample :
  PyPI.get_package_info pypi "pandas"
    (scripted [resp 403 None; resp 200 (Some (PDict [])); resp 200 (Some (PDict []))]
              [noon 1 0] wh_ok)
  = (Ok None,
     mk_world (w_http (scripted [resp 403 None; resp 200 (Some (PDict []));
                                 resp 200 (Some (PDict []))] [noon 1 0] wh_ok))
              1 (w_clock (scripted [] [noon 1 0] wh_ok)) 0 wh_ok None None
              [EvGet "https://pypi.org/pypi/pandas/json" [];
               EvLog ERROR "Error fetching data for {}: {}"
                     [PStr "pandas";
                      PStr "403 Error for url: https://pypi.org/pypi/pandas/json"]])
  /\ fst (GitHub.get_repo_data gh "apache/airflow"
            (scripted [resp 403 None; resp 304 (Some (PDict []));
                       resp 404 None; resp 404 None] [noon 1 0] wh_ok))
     = Ok (Some (github_defaults "apache/airflow" (noon 1 0))).
Proof. split; vm_compute; reflexivity. Qed.

(** C3, amended.  [get_repo_data]: when the primary call is answered 403,
    the fetcher logs, sleeps 60 seconds and sends the primary request once
    more; nothing it does afterwards is a sleep or a request for the
    primary URL; and when that second call fails on the wire or is answered
    with a 4xx or 5xx status (a second 403 among them), the fetcher returns
    [None] having done nothing more than log the error.
    [get_package_info] has no such branch: a primary call that fails or is
    answered 4xx or 5xx -- 403 included -- ends the fetch at once, with one
    request sent, no sleep, and [None] returned. *)
Theorem rate_limit_retry :
  (forall self repo w r1,
      w_http w (w_reqs w) (repo_url self repo) = HttpResp r1 ->
      status_code r1 = 403 ->
      exists res w' rest,
        GitHub.get_repo_data self repo w = (res, w')
        /\ w_trace w'
           = w_trace w
             ++ [EvGet (repo_url self repo) (GitHub.headers self);
                 EvLog WARNING "Rate limit hit for {}, waiting..." [PStr repo];
                 EvSleep 60;
                 EvGet (repo_url self repo) (GitHub.headers self)]
             ++ rest
        /\ Forall (fun e => is_retry_of (repo_url self repo) e = false) rest
        /\ (http_refused (w_http w (S (w_reqs w)) (repo_url self repo)) = true ->
            res = Ok None
            /\ exists msg,
                rest = [EvLog ERROR "Error fetching data for {}: {}" [PStr repo; PStr msg]]))
  /\
  (forall self package w,
      http_refused (w_http w (w_reqs w) (package_url self package)) = true ->
      exists msg w',
        PyPI.get_package_info self package w = (Ok None, w')
        /\ w_reqs w' = S (w_reqs w)
        /\ w_trace w'
           = w_trace w
             ++ [EvGet (package_url self package) [];
                 EvLog ERROR "Error fetching data for {}: {}" [PStr package; PStr msg]]).
Proof. split; [exact github_retry_once | exact pypi_no_retry]. Qed.

Lemma rate_limit_retry_witness :
  exists res w' rest,
    GitHub.get_repo_data gh "apache/airflow"
      (scripted [resp 403 None; resp 403 None] [noon 1 0] wh_ok) = (res, w')
    /\ w_trace w'
       = [] ++ [EvGet (repo_url gh "apache/airflow") (GitHub.headers gh);
                EvLog WARNING "Rate limit hit for {}, waiting..." [PStr "apache/airflow"];
                EvSleep 60;
                EvGet (repo_url gh "apache/airflow") (GitHub.headers gh)]
         ++ rest
    /\ Forall (fun e => is_retry_of (repo_url gh "apache/airflow") e = false) rest
    /\ (true = true ->
        res = Ok None
        /\ exists msg,
            rest = [EvLog ERROR "Error fetching data for {}: {}"
                          [PStr "apache/airflow"; PStr msg]]).
Proof.
  exact (proj1 rate_limit_retry gh "apache/airflow"
               (scripted [resp 403 None; resp 403 None] [noon 1 0] wh_ok)
               (mk_response 403 None) eq_refl eq_refl).
Defined.

(** ** The extraction driver (C5) *)

Lemma extract_loop_pass fetch :
  (forall entity, never_raises (fetch entity)) ->
  (forall entity w d w', fetch entity w = (Ok (Some d), w') -> dict_truthy d = true) ->
  forall entities acc w,
  exists rs w',
    Pass fetch entities w rs w'
    /\ extract_loop fetch entities acc w = (Ok (acc ++ successes rs), w').
Proof.
  intros Hnr Hne. induction entities as [ | entity entities IH]; intros acc w.
  - exists [], w. split; [constructor | ]. simpl. rewrite app_nil_r. reflexivity.
  - simpl. unfold bind at 1. unfold logger at 1.
    destruct (never_raises_returns _ (Hnr entity)
                (emit (EvLog INFO "Extracting data for {}" [PStr entity]) w))
      as (r & w1 & Hf).
    unfold bind at 1. rewrite Hf. unfold bind at 1. unfold time_sleep at 1.
    destruct r as [d | ].
    + rewrite (Hne _ _ _ _ Hf).
      destruct (IH (acc ++ [d]) (emit (EvSleep 1) w1)) as (rs & w' & HP & Hl).
      exists (Some d :: rs), w'. split; [econstructor; eassumption | ].
      rewrite Hl. simpl. rewrite <- app_assoc. reflexivity.
    + destruct (IH acc (emit (EvSleep 1) w1)) as (rs & w' & HP & Hl).
      exists (None :: rs), w'. split; [econstructor; eassumption | ].
      rewrite Hl. reflexivity.
Qed.

(** The driver: the start line, one pass, the end line. *)
Lemma extract_all_pass start_fmt done_fmt fetch entities w :
  (forall entity, never_raises (fetch entity)) ->
  (forall entity w d w', fetch entity w = (Ok (Some d), w') -> dict_truthy d = true) ->
  exists rs w1,
    Pass fetch entities
         (emit (EvLog INFO start_fmt [PInt (Z.of_nat (List.length entities))]) w) rs w1
    /\ extract_all start_fmt done_fmt fetch entities w
       = (Ok (successes rs),
          emit (EvLog INFO done_fmt [PInt (Z.of_nat (List.length (successes rs)))]) w1).
Proof.
  intros Hnr Hne.
  destruct (extract_loop_pass fetch Hnr Hne entities []
              (emit (EvLog INFO start_fmt [PInt (Z.of_nat (List.length entities))]) w))
    as (rs & w1 & HP & Hl).
  exists rs, w1. split; [exact HP | ].
  unfold extract_all. unfold bind at 1. unfold logger at 1. unfold bind at 1.
  rewrite Hl. reflexivity.
Qed.

Lemma Pass_length fetch entities w rs w' :
  Pass fetch entities w rs w' -> List.length rs = List.length entities.
Proof. induction 1; simpl; congruence. Qed.

(** The names of the records of a pass are the entities that succeeded,
    when each record carries the name of the entity it was fetched for. *)
Lemma Pass_names fetch name_key entities w rs w' :
  (forall entity w d w', fetch entity w = (Ok (Some d), w') ->
                         dict_lookup name_key d = Some (PStr entity)) ->
  Pass fetch entities w rs w' ->
  map (dict_lookup name_key) (successes rs)
  = map (fun entity => Some (PStr entity)) (succeeded entities rs).
Proof.
  intros Hname. induction 1 as [ | entity entities w r w1 rs w2 Hf HP IH]; [reflexivity | ].
  destruct r as [d | ]; simpl; [ | exact IH].
  rewrite IH, (Hname _ _ _ _ Hf). reflexivity.
Qed.

Lemma github_record_name self repo w d w1 :
  GitHub.get_repo_data self repo w = (Ok (Some d), w1) ->
  dict_lookup "repo_name" d = Some (PStr repo) /\ dict_truthy d = true.
Proof.
  intros H. unfold GitHub.get_repo_data, try_except in H.
  destruct (GitHub.get_repo_data_body self repo w) as [[r | e] w2] eqn:E.
  - inversion H; subst. clear H. unfold GitHub.get_repo_data_body in E.
    repeat bind_inv E. unfold ret in E. inversion E. split; reflexivity.
  - destruct (is_RequestException e); discriminate H.
Qed.

Lemma pypi_record_name self package w d w1 :
  PyPI.get_package_info self package w = (Ok (Some d), w1) ->
  dict_lookup "package_name" d = Some (PStr package) /\ dict_truthy d = true.
Proof.
  intros H. unfold PyPI.get_package_info, try_except in H.
  destruct (PyPI.get_package_info_body self package w) as [[r | e] w2] eqn:E.
  - inversion H; subst. clear H. unfold PyPI.get_package_info_body in E.
    do 5 bind_inv E. repeat bind_inv E. unfold ret in E. inversion E. clear E.
    match goal with
    | Hs : (if ?c then _ else _) _ = (Ok ?ds, _) |- _ =>
        destruct c;
        [ repeat bind_inv Hs; unfold ret in Hs; inversion Hs; split; reflexivity
        | unfold ret in Hs; inversion Hs; split; reflexivity ]
    end.
  - destruct (is_RequestException e); discriminate H.
Qed.

(** C5.  [extract_all_repositories] and [extract_all_packages] make one
    pass over the catalog: every entity is fetched once, in catalog order,
    each fetch either returning a record or [None]; the driver never
    raises; the batch it returns is the records among the results of the
    pass, in that order, so that the names of the batch are the entities
    whose fetch succeeded, in catalog order. *)
Theorem driver_single_pass :
  (forall self w,
      exists rs w1,
        Pass (GitHub.get_repo_data self) (GitHub.repositories self)
             (emit (EvLog INFO "Starting extraction for {} repositories"
                          [PInt (Z.of_nat (List.length (GitHub.repositories self)))]) w)
             rs w1
        /\ List.length rs = List.length (GitHub.repositories self)
        /\ GitHub.extract_all_repositories self w
           = (Ok (successes rs),
              emit (EvLog INFO "Extraction completed. {} repositories processed successfully"
                          [PInt (Z.of_nat (List.length (successes rs)))]) w1)
        /\ map (dict_lookup "repo_name") (successes rs)
           = map (fun repo => Some (PStr repo)) (succeeded (GitHub.repositories self) rs))
  /\
  (forall self w,
      exists rs w1,
        Pass (PyPI.get_package_info self) (PyPI.packages self)
             (emit (EvLog INFO "Starting extraction for {} packages"
                          [PInt (Z.of_nat (List.length (PyPI.packages self)))]) w)
             rs w1
        /\ List.length rs = List.length (PyPI.packages self)
        /\ PyPI.extract_all_packages self w
           = (Ok (successes rs),
              emit (EvLog INFO "Extraction completed. {} packages processed successfully"
                          [PInt (Z.of_nat (List.length (successes rs)))]) w1)
        /\ map (dict_lookup "package_name") (successes rs)
           = map (fun package => Some (PStr package)) (succeeded (PyPI.packages self) rs)).
Proof.
  split; intros self w.
  - destruct (extract_all_pass "Starting extraction for {} repositories"
                "Extraction completed. {} repositories processed successfully"
                (GitHub.get_repo_data self) (GitHub.repositories self) w
                (get_repo_data_never_raises self)
                (fun e w d w' H => proj2 (github_record_name self e w d w' H)))
      as (rs & w1 & HP & Hl).
    exists rs, w1. split; [exact HP | split; [ | split]].
    + eapply Pass_length; exact HP.
    + exact Hl.
    + eapply Pass_names; [ | exact HP].
      intros e w0 d w' H. exact (proj1 (github_record_name self e w0 d w' H)).
  - destruct (extract_all_pass "Starting extraction for {} packages"
                "Extraction completed. {} packages processed successfully"
                (PyPI.get_package_info self) (PyPI.packages self) w
                (get_package_info_never_raises self)
                (fun e w d w' H => proj2 (pypi_record_name self e w d w' H)))
      as (rs & w1 & HP & Hl).
    exists rs, w1. split; [exact HP | split; [ | split]].
    + eapply Pass_length; exact HP.
    + exact Hl.
    + eapply Pass_names; [ | exact HP].
      intros e w0 d w' H. exact (proj1 (pypi_record_name self e w0 d w' H)).
Qed.

(** The scenario of the specification, run: the first repository is
    answered 403 once and then succeeds, the second is answered 404.  The
    batch holds the first repository only, and the run has slept 60 seconds
    once and one second twice. *)
Example driver_two_repos :
  map (dict_lookup "repo_name") 
      (match fst (GitHub.extract_all_repositories two_repos two_repos_world) with
       | Ok batch => batch
       | Raise _ => []
       end)
  = [Some (PStr "orgA/repoX")]
  /\ List.length (filter (is_sleep 60)
                         (w_trace (snd (GitHub.extract_all_repositories
                                          two_repos two_repos_world)))) = 1%nat
  /\ List.length (filter (is_sleep 1)
                         (w_trace (snd (GitHub.extract_all_repositories
                                          two_repos two_repos_world)))) = 2%nat.
Proof. vm_compute. repeat split. Qed.

(** ** The JSON round trip *)

Lemma delimited_no_digit rest :
  delimited rest -> span_digits rest = (EmptyString, rest) /\ starts_fraction rest = false.
Proof.
  destruct rest as [ | c rest]; simpl; [auto | ].
  intros [-> | [-> | ->]]; split; reflexivity.
Qed.

Lemma to_uint_head p d : Pos.to_uint p <> D0 d.
Proof.
  intros H.
  assert (Hn : unorm (Pos.to_uint p) = Pos.to_uint p).
  { rewrite <- (DecimalPos.Unsigned.to_of (Pos.to_uint p)).
    rewrite DecimalPos.Unsigned.of_to. reflexivity. }
  rewrite H, DecimalFacts.unorm_D0 in Hn.
  destruct d as [ | d | d | d | d | d | d | d | d | d | d ];
    try (apply (f_equal nb_digits) in Hn;
         match type of Hn with
         | nb_digits (unorm ?u) = _ =>
             pose proof (DecimalFacts.nb_digits_unorm u ltac:(discriminate)) as Hle
         end;
         rewrite Hn in Hle; simpl in Hle; lia).
  apply (DecimalPos.Unsigned.to_uint_nonzero p). exact H.
Qed.

Lemma span_digits_uint d rest :
  span_digits rest = (EmptyString, rest) ->
  span_digits (NilEmpty.string_of_uint d ++ rest)%string = (NilEmpty.string_of_uint d, rest).
Proof.
  intros Hrest. induction d; simpl; try rewrite IHd; try reflexivity. exact Hrest.
Qed.

Lemma parse_uint_printed p rest :
  delimited rest ->
  match NilEmpty.string_of_uint (Pos.to_uint p) ++ rest with
  | String c s2 =>
      Ascii.eqb c "-" = false /\ Ascii.eqb c "0" = false /\ is_digit c = true
  | EmptyString => False
  end%string.
Proof.
  intros _. pose proof (to_uint_head p) as Hh.
  pose proof (DecimalPos.Unsigned.to_uint_nonnil p) as Hn.
  destruct (Pos.to_uint p); simpl; try (repeat split; reflexivity).
  - congruence.
  - exfalso. eapply Hh. reflexivity.
Qed.

Lemma parse_nat_printed p rest :
  delimited rest ->
  parse_int (NilEmpty.string_of_uint (Pos.to_uint p) ++ rest)%string = Some (Z.pos p, rest)
  /\ parse_int (String "-" (NilEmpty.string_of_uint (Pos.to_uint p) ++ rest))%string
     = Some (Z.neg p, rest).
Proof.
  intros Hd. destruct (delimited_no_digit _ Hd) as [Hsp Hfr].
  pose proof (parse_uint_printed p rest Hd) as Hc.
  pose proof (span_digits_uint (Pos.to_uint p) rest Hsp) as Hs.
  assert (Hu : NilZero.uint_of_string (NilEmpty.string_of_uint (Pos.to_uint p))
               = Some (Pos.to_uint p)).
  { pose proof (NilZero.usu (Pos.to_uint p) (DecimalPos.Unsigned.to_uint_nonnil p)) as H.
    unfold NilZero.string_of_uint in H.
    destruct (Pos.to_uint p) eqn:E; try exact H.
    exfalso. eapply DecimalPos.Unsigned.to_uint_nonnil. exact E. }
  assert (Hz : Z.of_uint (Pos.to_uint p) = Z.pos p).
  { unfold Z.of_uint. rewrite DecimalPos.Unsigned.of_to. reflexivity. }
  unfold parse_int.
  destruct (NilEmpty.string_of_uint (Pos.to_uint p) ++ rest)%string as [ | c s2] eqn:E;
    [contradiction | ].
  destruct Hc as (Hm & H0 & Hdig).
  split.
  - rewrite Hm, H0, Hdig, Hs, Hfr, Hu, Hz. reflexivity.
  - cbn [Ascii.eqb Bool.eqb]. rewrite H0, Hdig, Hs, Hfr, Hu, Hz. reflexivity.
Qed.

Lemma parse_int_printed z rest :
  delimited rest -> parse_int (str_of_Z z ++ rest)%string = Some (z, rest).
Proof.
  intros Hd. destruct (delimited_no_digit _ Hd) as [Hsp Hfr].
  unfold str_of_Z. destruct z as [ | p | p]; cbn [Z.to_int NilZero.string_of_int].
  - cbn. rewrite Hfr. reflexivity.
  - unfold NilZero.string_of_uint.
    destruct (Pos.to_uint p) eqn:E;
      try (rewrite <- E; apply parse_nat_printed; exact Hd).
    exfalso. eapply DecimalPos.Unsigned.to_uint_nonnil. exact E.
  - unfold NilZero.string_of_uint.
    destruct (Pos.to_uint p) eqn:E;
      try (rewrite <- E; apply parse_nat_printed; exact Hd).
    exfalso. eapply DecimalPos.Unsigned.to_uint_nonnil. exact E.
Qed.

Lemma parse_escape_char c tail r rest :
  parse_string_body tail = Some (r, rest) ->
  parse_string_body (json_escape_char c ++ tail)%string = Some (String c r, rest).
Proof.
  intros H.
  destruct c as [[] [] [] [] [] [] [] []]; cbn -[parse_string_body].
  all: cbn. all: rewrite H; reflexivity.
Qed.

Lemma parse_escaped s : forall rest,
  parse_string_body (json_escape s ++ String dquote rest)%string = Some (s, rest).
Proof.
  induction s as [ | c s IH]; intros rest.
  - reflexivity.
  - cbn [json_escape]. rewrite append_assoc. apply parse_escape_char. apply IH.
Qed.

Lemma str_of_Z_head z :
  exists c s, str_of_Z z = String c s
    /\ (c = "-"%char \/ is_digit c = true).
Proof.
  unfold str_of_Z. destruct z as [ | p | p]; cbn [Z.to_int NilZero.string_of_int].
  - eexists; eexists; split; [reflexivity | right; reflexivity].
  - unfold NilZero.string_of_uint. pose proof (DecimalPos.Unsigned.to_uint_nonnil p) as Hn.
    destruct (Pos.to_uint p); try congruence;
      eexists; eexists; (split; [reflexivity | right; reflexivity]).
  - eexists; eexists; split; [reflexivity | left; reflexivity].
Qed.

Lemma number_head c :
  c = "-"%char \/ is_digit c = true ->
  value_head c
  /\ Ascii.eqb c dquote = false /\ Ascii.eqb c "[" = false /\ Ascii.eqb c "{" = false
  /\ Ascii.eqb c "n" = false /\ Ascii.eqb c "t" = false /\ Ascii.eqb c "f" = false.
Proof.
  intros [-> | H].
  - unfold value_head. repeat split; try reflexivity; discriminate.
  - destruct c as [[] [] [] [] [] [] [] []]; try discriminate H;
      unfold value_head; repeat split; try reflexivity; discriminate.
Qed.

Lemma json_dumps_head v s :
  json_dumps v = Ok s -> exists c s', s = String c s' /\ value_head c.
Proof.
  destruct v as [ | b | z | str | l | l | d | t]; simpl; intros H.
  - inversion H. eexists; eexists; split; [reflexivity | ].
    unfold value_head; repeat split; try reflexivity; discriminate.
  - inversion H. destruct b; eexists; eexists; (split; [reflexivity | ]);
      unfold value_head; repeat split; try reflexivity; discriminate.
  - inversion H. destruct (str_of_Z_head z) as (c & s' & -> & Hc).
    eexists; eexists; split; [reflexivity | ]. apply number_head. exact Hc.
  - inversion H. eexists; eexists; split; [reflexivity | ].
    unfold value_head; repeat split; try reflexivity; discriminate.
  - destruct (all_ok _); inversion H. eexists; eexists; split; [reflexivity | ].
    unfold value_head; repeat split; try reflexivity; discriminate.
  - destruct (all_ok _); inversion H. eexists; eexists; split; [reflexivity | ].
    unfold value_head; repeat split; try reflexivity; discriminate.
  - destruct (all_ok _); inversion H. eexists; eexists; split; [reflexivity | ].
    unfold value_head; repeat split; try reflexivity; discriminate.
  - discriminate H.
Qed.

Lemma skip_ws_head c s : is_ws c = false -> skip_ws (String c s) = String c s.
Proof. intros H. simpl. rewrite H. reflexivity. Qed.

Lemma skip_ws_value v s rest :
  json_dumps v = Ok s -> skip_ws (s ++ rest)%string = (s ++ rest)%string.
Proof.
  intros H. destruct (json_dumps_head _ _ H) as (c & s' & -> & Hc & _).
  simpl. rewrite Hc. reflexivity.
Qed.

Lemma all_ok_cons {A} (r : Result A) rs l :
  all_ok (r :: rs) = Ok l ->
  exists a l', r = Ok a /\ all_ok rs = Ok l' /\ l = a :: l'.
Proof.
  simpl. destruct r as [a | e]; [ | discriminate].
  destruct (all_ok rs) as [l' | e]; [ | discriminate].
  intros H; inversion H. eauto.
Qed.

Lemma concat_cons2 sep (x y : string) l :
  String.concat sep (x :: y :: l) = (x ++ sep ++ String.concat sep (y :: l))%string.
Proof. reflexivity. Qed.

Lemma parse_elements_printed l :
  Forall parses l ->
  forall items, all_ok (map json_dumps l) = Ok items ->
  forallb well_formed l = true -> l <> [] ->
  forall fuel rest acc, delimited rest ->
  (fold_right (fun x n => S (parse_fuel x + n)) 0 l <= fuel)%nat ->
  parse_elements fuel (String.concat ", " items ++ String "]" rest)%string acc
  = Some (PList (List.rev acc ++ map json_norm l), rest).
Proof.
  induction 1 as [ | x l Hx Hl IH]; intros items Hitems Hwf Hne fuel rest acc Hd Hfuel;
    [congruence | ].
  cbn [map] in Hitems. apply all_ok_cons in Hitems.
  destruct Hitems as (sx & items' & Hsx & Hitems' & ->).
  cbn [forallb] in Hwf. apply andb_true_iff in Hwf. destruct Hwf as [Hwx Hwl].
  cbn [fold_right] in Hfuel.
  destruct fuel as [ | fuel]; [lia | ].
  cbn [parse_elements].
  destruct l as [ | y l'].
  - cbn [map all_ok] in Hitems'. inversion Hitems'; subst items'.
    cbn [String.concat].
    rewrite (Hx sx Hsx Hwx fuel (String "]" rest)); [ | simpl; auto | simpl in Hfuel; lia].
    cbn. reflexivity.
  - assert (Hitems'' := Hitems'). cbn [map] in Hitems''. apply all_ok_cons in Hitems''.
    destruct Hitems'' as (sy & items'' & Hsy & _ & ->).
    rewrite concat_cons2, !append_assoc. cbn [String.append].
    rewrite (Hx sx Hsx Hwx fuel); [ | simpl; auto | lia].
    cbn [skip_ws is_ws N_of_ascii]. cbn -[String.concat parse_elements String.append skip_ws].
    assert (Hskip : skip_ws (String.concat ", " (sy :: items'') ++ String "]" rest)%string
                    = (String.concat ", " (sy :: items'') ++ String "]" rest)%string).
    { destruct (json_dumps_head _ _ Hsy) as (c & s' & -> & Hc & _).
      destruct items''; cbn [String.concat String.append]; apply skip_ws_head; exact Hc. }
    cbn [skip_ws is_ws N_of_ascii]. cbn -[String.concat parse_elements String.append skip_ws].
    rewrite Hskip.
    rewrite (IH (sy :: items'') Hitems' Hwl ltac:(discriminate) fuel rest (json_norm x :: acc) Hd);
      [ | lia].
    cbn [List.rev map]. rewrite <- app_assoc. reflexivity.
Qed.

Lemma parse_members_printed d :
  Forall (fun kv => parses (snd kv)) d ->
  forall members, all_ok (map dumps_member d) = Ok members ->
  forallb (fun kv => well_formed (snd kv)) d = true -> d <> [] ->
  forall fuel rest acc, delimited rest ->
  (fold_right (fun kv n => S (parse_fuel (snd kv) + n)) 0 d <= fuel)%nat ->
  parse_members fuel (String.concat ", " members ++ String "}" rest)%string acc
  = Some (PDict (dict_literal (List.rev acc ++ map norm_member d)), rest).
Proof.
  induction 1 as [ | [k x] d Hx Hl IH]; intros members Hm Hwf Hne fuel rest acc Hd Hfuel;
    [congruence | ].
  cbn [map] in Hm. apply all_ok_cons in Hm.
  destruct Hm as (sm & members' & Hsm & Hm' & ->).
  cbn [dumps_member] in Hsm. destruct (json_dumps x) as [sx | ] eqn:Hsx; [ | discriminate].
  inversion Hsm; subst sm; clear Hsm.
  cbn [forallb snd] in Hwf. apply andb_true_iff in Hwf. destruct Hwf as [Hwx Hwl].
  cbn [fold_right snd] in Hfuel. cbn [snd] in Hx.
  destruct fuel as [ | fuel]; [lia | ].
  assert (Hval : forall tail, delimited tail ->
             parse_value fuel (skip_ws (String " " (sx ++ tail)))%string
             = Some (json_norm x, tail)).
  { intros tail Ht. cbn [skip_ws is_ws N_of_ascii].
    cbn -[String.append skip_ws parse_value].
    rewrite (skip_ws_value _ _ tail Hsx). apply (Hx sx Hsx Hwx); [exact Ht | lia]. }
  destruct d as [ | [k' y] d'].
  - cbn [map all_ok] in Hm'. inversion Hm'; subst members'.
    cbn [String.concat]. unfold json_quote.
    cbn [String.append]. rewrite !append_assoc. cbn [String.append].
    cbn [parse_members]. rewrite Ascii.eqb_refl, parse_escaped.
    cbn [skip_ws is_ws N_of_ascii]. cbn -[String.append skip_ws parse_value].
    rewrite (Hval (String "}" rest)); [ | simpl; auto].
    cbn. reflexivity.
  - assert (Hm'' := Hm'). cbn [map] in Hm''. apply all_ok_cons in Hm''.
    destruct Hm'' as (sy & members'' & Hsy & _ & ->).
    rewrite concat_cons2. unfold json_quote.
    cbn [String.append]. rewrite !append_assoc. cbn [String.append].
    cbn [parse_members]. rewrite Ascii.eqb_refl, parse_escaped.
    cbn [skip_ws is_ws N_of_ascii]. cbn -[String.append skip_ws parse_value String.concat parse_members].
    rewrite Hval; [ | simpl; auto].
    cbn [skip_ws is_ws N_of_ascii].
    cbn -[String.append skip_ws parse_value String.concat parse_members].
    assert (Hskip : skip_ws (String.concat ", " (sy :: members'') ++ String "}" rest)%string
                    = (String.concat ", " (sy :: members'') ++ String "}" rest)%string).
    { cbn [dumps_member] in Hsy. destruct (json_dumps y); [ | discriminate].
      inversion Hsy. unfold json_quote.
      destruct members''; cbn [String.concat String.append]; apply skip_ws_head; reflexivity. }
    cbn [skip_ws is_ws N_of_ascii].
    cbn -[String.append skip_ws parse_value String.concat parse_members].
    rewrite Hskip.
    change ((k, json_norm x) :: acc) with (norm_member (k, x) :: acc).
    rewrite (IH (sy :: members'') Hm' Hwl ltac:(discriminate) fuel rest
                (norm_member (k, x) :: acc) Hd); [ | lia].
    cbn [List.rev map]. rewrite <- app_assoc. reflexivity.
Qed.

Lemma dict_set_fresh k v (d : PyDict) :
  existsb (String.eqb k) (map fst d) = false -> dict_set k v d = d ++ [(k, v)].
Proof.
  induction d as [ | [k' v'] d IH]; simpl; [reflexivity | ].
  destruct (String.eqb k k'); simpl; [discriminate | ].
  intros H. rewrite (IH H). reflexivity.
Qed.

Lemma dict_literal_distinct_acc (d : list (string * PyVal)) : forall acc : PyDict,
  keys_distinct (map fst d) = true ->
  (forall k, In k (map fst d) -> existsb (String.eqb k) (map fst acc) = false) ->
  fold_left (fun a kv => dict_set (fst kv) (snd kv) a) d acc = acc ++ d.
Proof.
  induction d as [ | [k v] d IH]; intros acc Hd Hacc; simpl.
  - rewrite app_nil_r. reflexivity.
  - simpl in Hd. apply andb_true_iff in Hd. destruct Hd as [Hk Hd].
    apply negb_true_iff in Hk.
    rewrite dict_set_fresh by (apply Hacc; left; reflexivity).
    rewrite IH; [rewrite <- app_assoc; reflexivity | exact Hd | ].
    intros k' Hin. rewrite map_app, existsb_app. simpl.
    rewrite (Hacc k') by (right; exact Hin). simpl. rewrite orb_false_r.
    destruct (String.eqb k' k) eqn:E; [ | reflexivity].
    apply String.eqb_eq in E. subst k'.
    assert (Hex : existsb (String.eqb k) (map fst d) = true).
    { apply existsb_exists. exists k. split; [exact Hin | apply String.eqb_refl]. }
    congruence.
Qed.

Lemma dict_literal_distinct (d : list (string * PyVal)) :
  keys_distinct (map fst d) = true -> dict_literal d = d.
Proof.
  intros H. unfold dict_literal. rewrite dict_literal_distinct_acc; auto.
Qed.

Lemma map_dumps_member d :
  map (fun kv : string * PyVal =>
         let (k, x) := kv in
         match json_dumps x with
         | Ok sx => Ok (json_quote k ++ ": " ++ sx)%string
         | Raise e => Raise e
         end) d
  = map dumps_member d.
Proof. reflexivity. Qed.

(** The decoder reads back what the encoder wrote. *)
Lemma parse_printed v : parses v.
Proof.
  induction v as [ | b | z | str | l IH | l IH | d IH | t ] using PyVal_nested_ind;
    intros s Hs Hwf fuel rest Hd Hfuel; simpl in Hs, Hfuel.
  - inversion Hs; subst. destruct fuel; [lia | ]. reflexivity.
  - inversion Hs; subst. destruct fuel; [lia | ]. destruct b; reflexivity.
  - inversion Hs; subst. destruct fuel; [lia | ].
    pose proof (parse_int_printed z rest Hd) as Hp.
    destruct (str_of_Z_head z) as (c & s' & Hz & Hc).
    rewrite Hz in *. destruct (number_head c Hc) as (_ & H1 & H2 & H3 & H4 & H5 & H6).
    cbn [parse_value String.append]. rewrite H1, H2, H3, H4, H5, H6.
    cbn [String.append] in Hp. rewrite Hp. reflexivity.
  - inversion Hs; subst. destruct fuel; [lia | ].
    unfold json_quote. cbn [String.append]. rewrite append_assoc. cbn [String.append].
    cbn [parse_value]. rewrite Ascii.eqb_refl, parse_escaped. reflexivity.
  - destruct (all_ok (map json_dumps l)) as [items | ] eqn:Hitems; [ | discriminate].
    inversion Hs; subst. clear Hs. destruct fuel; [lia | ].
    cbn [String.append]. rewrite append_assoc. cbn [String.append parse_value].
    destruct l as [ | x l].
    + inversion Hitems. reflexivity.
    + assert (H := Hitems). cbn [map] in H. apply all_ok_cons in H.
      destruct H as (sx & items' & Hsx & _ & ->).
      assert (Hskip : skip_ws (String.concat ", " (sx :: items') ++ String "]" rest)%string
                      = (String.concat ", " (sx :: items') ++ String "]" rest)%string).
      { destruct (json_dumps_head _ _ Hsx) as (c & s' & -> & Hc & _).
        destruct items'; cbn [String.concat String.append]; apply skip_ws_head; exact Hc. }
      cbn -[String.concat String.append skip_ws parse_elements]. rewrite Hskip.
      destruct (json_dumps_head _ _ Hsx) as (c & s' & -> & Hws & Hb & _).
      assert (Hc : Ascii.eqb c "]" = false) by (apply Ascii.eqb_neq; exact Hb).
      destruct (String.concat ", " (String c s' :: items') ++ String "]" rest)%string
        as [ | c0 t0] eqn:Etext.
      { destruct items'; discriminate Etext. }
      assert (c0 = c) by (destruct items'; inversion Etext; reflexivity). subst c0.
      rewrite Hc, <- Etext.
      rewrite (parse_elements_printed (x :: l) IH _ Hitems Hwf ltac:(discriminate)
                 fuel rest [] Hd); [reflexivity | lia].
  - destruct (all_ok (map json_dumps l)) as [items | ] eqn:Hitems; [ | discriminate].
    inversion Hs; subst. clear Hs. destruct fuel; [lia | ].
    cbn [String.append]. rewrite append_assoc. cbn [String.append parse_value].
    destruct l as [ | x l].
    + inversion Hitems. reflexivity.
    + assert (H := Hitems). cbn [map] in H. apply all_ok_cons in H.
      destruct H as (sx & items' & Hsx & _ & ->).
      assert (Hskip : skip_ws (String.concat ", " (sx :: items') ++ String "]" rest)%string
                      = (String.concat ", " (sx :: items') ++ String "]" rest)%string).
      { destruct (json_dumps_head _ _ Hsx) as (c & s' & -> & Hc & _).
        destruct items'; cbn [String.concat String.append]; apply skip_ws_head; exact Hc. }
      cbn -[String.concat String.append skip_ws parse_elements]. rewrite Hskip.
      destruct (json_dumps_head _ _ Hsx) as (c & s' & -> & Hws & Hb & _).
      assert (Hc : Ascii.eqb c "]" = false) by (apply Ascii.eqb_neq; exact Hb).
      destruct (String.concat ", " (String c s' :: items') ++ String "]" rest)%string
        as [ | c0 t0] eqn:Etext.
      { destruct items'; discriminate Etext. }
      assert (c0 = c) by (destruct items'; inversion Etext; reflexivity). subst c0.
      rewrite Hc, <- Etext.
      rewrite (parse_elements_printed (x :: l) IH _ Hitems Hwf ltac:(discriminate)
                 fuel rest [] Hd); [reflexivity | lia].
  - rewrite map_dumps_member in Hs.
    destruct (all_ok (map dumps_member d)) as [members | ] eqn:Hm; [ | discriminate].
    inversion Hs; subst. clear Hs. destruct fuel; [lia | ].
    cbn [well_formed] in Hwf. apply andb_true_iff in Hwf. destruct Hwf as [Hkeys Hwf].
    cbn [String.append]. rewrite append_assoc. cbn [String.append parse_value].
    destruct d as [ | [k x] d].
    + inversion Hm. reflexivity.
    + assert (H := Hm). cbn [map] in H. apply all_ok_cons in H.
      destruct H as (sm & members' & Hsm & _ & ->).
      assert (Etext : exists t0,
                 (String.concat ", " (sm :: members') ++ String "}" rest)%string
                 = String dquote t0).
      { cbn [dumps_member] in Hsm. destruct (json_dumps x) as [sx | ]; [ | discriminate].
        inversion Hsm. unfold json_quote.
        destruct members'; cbn [String.concat String.append]; eauto. }
      clear Hsm. destruct Etext as (t0 & Etext).
      cbn -[String.concat String.append skip_ws parse_members].
      rewrite Etext. cbn [skip_ws is_ws N_of_ascii].
      cbn -[String.concat String.append skip_ws parse_members]. rewrite <- Etext.
      rewrite (parse_members_printed ((k, x) :: d) IH _ Hm Hwf ltac:(discriminate)
                 fuel rest [] Hd); [ | lia].
      cbn [List.rev app json_norm]. fold norm_member.
      change (dict_literal (norm_member (k, x) :: map norm_member d))
        with (dict_literal (map norm_member ((k, x) :: d))).
      rewrite dict_literal_distinct; [reflexivity | ].
      rewrite <- Hkeys. f_equal. simpl. f_equal. rewrite map_map. reflexivity.
  - discriminate Hs.
Qed.

Lemma concat_length_items l :
  Forall (fun x => forall s, json_dumps x = Ok s -> (parse_fuel x <= String.length s)%nat) l ->
  forall items, all_ok (map json_dumps l) = Ok items ->
  (fold_right (fun x n => S (parse_fuel x + n)) 0 l
   <= String.length (String.concat ", " items) + 1)%nat.
Proof.
  induction 1 as [ | x l Hx Hl IH]; intros items Hitems.
  - simpl. lia.
  - cbn [map] in Hitems. apply all_ok_cons in Hitems.
    destruct Hitems as (sx & items' & Hsx & Hitems' & ->).
    specialize (Hx _ Hsx). specialize (IH _ Hitems').
    cbn [fold_right]. destruct items' as [ | sy items''].
    + destruct l as [ | y l0]; [simpl; lia | exfalso].
      cbn [map] in Hitems'. apply all_ok_cons in Hitems'.
      destruct Hitems' as (? & ? & _ & _ & E). discriminate E.
    + rewrite concat_cons2, !append_length. change (String.length ", ") with 2%nat. lia.
Qed.

Lemma concat_length_members d :
  Forall (fun kv => forall s, json_dumps (snd kv) = Ok s ->
                              (parse_fuel (snd kv) <= String.length s)%nat) d ->
  forall members, all_ok (map dumps_member d) = Ok members ->
  (fold_right (fun kv n => S (parse_fuel (snd kv) + n)) 0 d
   <= String.length (String.concat ", " members) + 1)%nat.
Proof.
  induction 1 as [ | [k x] d Hx Hl IH]; intros members Hm.
  - simpl. lia.
  - cbn [map] in Hm. apply all_ok_cons in Hm.
    destruct Hm as (sm & members' & Hsm & Hm' & ->).
    cbn [dumps_member] in Hsm. destruct (json_dumps x) as [sx | ] eqn:Hsx; [ | discriminate].
    assert (Hlen : (String.length sx <= String.length sm)%nat).
    { injection Hsm as <-. cbn [String.length]. rewrite !append_length.
      cbn [String.length]. lia. }
    cbn [snd] in Hx. specialize (Hx _ Hsx). specialize (IH _ Hm').
    cbn [fold_right snd]. destruct members' as [ | sy members''].
    + destruct d as [ | kv d0]; [simpl; lia | exfalso].
      cbn [map] in Hm'. apply all_ok_cons in Hm'.
      destruct Hm' as (? & ? & _ & _ & E). discriminate E.
    + rewrite concat_cons2, !append_length. change (String.length ", ") with 2%nat. lia.
Qed.

Lemma parse_fuel_le_length v : forall s,
  json_dumps v = Ok s -> (parse_fuel v <= String.length s)%nat.
Proof.
  induction v as [ | b | z | str | l IH | l IH | d IH | t ] using PyVal_nested_ind;
    intros s Hs; simpl in Hs.
  - inversion Hs. simpl. lia.
  - inversion Hs. destruct b; simpl; lia.
  - inversion Hs. destruct (str_of_Z_head z) as (c & s' & -> & _). simpl. lia.
  - inversion Hs. simpl. lia.
  - destruct (all_ok (map json_dumps l)) as [items | ] eqn:Hitems; [ | discriminate].
    inversion Hs. pose proof (concat_length_items l IH items Hitems).
    cbn [parse_fuel]. simpl String.length. rewrite append_length. simpl String.length. lia.
  - destruct (all_ok (map json_dumps l)) as [items | ] eqn:Hitems; [ | discriminate].
    inversion Hs. pose proof (concat_length_items l IH items Hitems).
    cbn [parse_fuel]. simpl String.length. rewrite append_length. simpl String.length. lia.
  - rewrite map_dumps_member in Hs.
    destruct (all_ok (map dumps_member d)) as [members | ] eqn:Hm; [ | discriminate].
    inversion Hs. pose proof (concat_length_members d IH members Hm).
    cbn [parse_fuel]. simpl String.length. rewrite append_length. simpl String.length. lia.
  - discriminate Hs.
Qed.

Lemma append_empty_r (s : string) : (s ++ "")%string = s.
Proof. induction s as [ | c s IH]; simpl; [reflexivity | rewrite IH; reflexivity]. Qed.

(** [json.loads(json.dumps(v))] returns, and returns [v] with its tuples
    turned into lists. *)
Lemma json_loads_dumps v s :
  well_formed v = true -> json_dumps v = Ok s -> json_loads s = Ok (json_norm v).
Proof.
  intros Hwf Hs. unfold json_loads.
  pose proof (skip_ws_value v s "" Hs) as Hskip. rewrite append_empty_r in Hskip.
  rewrite Hskip. rewrite <- (append_empty_r s) at 2.
  rewrite (parse_printed v s Hs Hwf); [reflexivity | exact I | ].
  pose proof (parse_fuel_le_length v s Hs). lia.
Qed.

Lemma json_native_norm v : json_native v = true -> json_norm v = v /\ well_formed v = true.
Proof.
  induction v as [ | b | z | str | l IH | l IH | d IH | t ] using PyVal_nested_ind;
    simpl; intros H; try (split; reflexivity); try discriminate.
  - assert (Hl : map json_norm l = l /\ forallb well_formed l = true).
    { induction IH as [ | x l Hx Hl IHl]; [split; reflexivity | ].
      simpl in H. apply andb_true_iff in H. destruct H as [H1 H2].
      destruct (Hx H1) as [E1 E2]. destruct (IHl H2) as [E E'].
      simpl. rewrite E, E1, E2, E'. split; reflexivity. }
    destruct Hl as [-> ->]. split; reflexivity.
  - apply andb_true_iff in H. destruct H as [Hk H]. rewrite Hk.
    assert (Hl : map (fun kv => (fst kv, json_norm (snd kv))) d = d
                 /\ forallb (fun kv => well_formed (snd kv)) d = true).
    { clear Hk. induction IH as [ | [k x] d Hx Hl IHl]; [split; reflexivity | ].
      simpl in H. apply andb_true_iff in H. destruct H as [H1 H2].
      simpl in Hx. destruct (Hx H1) as [E1 E2]. destruct (IHl H2) as [E E'].
      simpl. rewrite E, E1, E2, E'. split; reflexivity. }
    destruct Hl as [-> ->]. split; reflexivity.
Qed.

(** The round trip, on JSON's own values. *)
Lemma json_round_trip v s :
  json_native v = true -> json_dumps v = Ok s -> json_loads s = Ok v.
Proof.
  intros Hn Hs. destruct (json_native_norm v Hn) as [E Hwf].
  pose proof (json_loads_dumps v s Hwf Hs) as H. rewrite E in H. exact H.
Qed.

(** ** The round-trip law at the gate (C9) *)

(** C9, as stated, fails: the gate calls [json.loads] on the text and drops
    what it returns; it checks that the text parses, not that it parses
    back to the record.  This record passes the gate and is staged, and
    its text parses to a different value -- the tuple has become a list,
    and in Python a list never equals a tuple. *)
Lemma round_trip_at_gate_counterexample :
  exists json_str reparsed,
    json_dumps (PDict tuple_record) = Ok json_str
    /\ In (EvWh (WhExecuteMany (temp_insert_query GitHub.tables)
                               [(noon 10 0, PStr "apache/kafka", json_str)]))
          (w_trace (snd (GitHub.save_to_snowflake gh [tuple_record]
                           (scripted [] [noon 10 0] wh_ok))))
    /\ json_loads json_str = Ok reparsed
    /\ py_eq reparsed (PDict tuple_record) = false
    /\ reparsed <> PDict tuple_record.
Proof.
  eexists. eexists. split; [vm_compute; reflexivity | ].
  split; [vm_compute; do 4 right; left; reflexivity | ].
  split; [vm_compute; reflexivity | ].
  split; [vm_compute; reflexivity | discriminate].
Qed.

Lemma gate_passed record json_str :
  gate record = Ok json_str ->
  json_dumps (PDict record) = Ok json_str
  /\ exists v, json_loads json_str = Ok v
               /\ (json_native (PDict record) = true -> v = PDict record).
Proof.
  unfold gate. destruct (json_dumps (PDict record)) as [t | ] eqn:Ed; [ | discriminate].
  destruct (json_loads t) as [v | ] eqn:El; [ | discriminate].
  intros H. inversion H; subst. split; [reflexivity | ].
  exists v. split; [exact El | ].
  intros Hn. pose proof (json_round_trip _ _ Hn Ed) as Hr. congruence.
Qed.

Lemma staged_gate name_key clock data : forall tick,
  Forall2 (fun record row =>
             json_dumps (PDict record) = Ok (snd row)
             /\ exists v, json_loads (snd row) = Ok v
                          /\ (json_native (PDict record) = true -> v = PDict record))
          (filter accepted data) (staged name_key clock tick data).
Proof.
  induction data as [ | record data IH]; intros tick; simpl; [constructor | ].
  unfold accepted, passes_gate. destruct (dict_truthy record); simpl; [ | apply IH].
  destruct (gate record) as [json_str | e] eqn:Eg; [ | apply IH].
  constructor; [ | apply IH]. cbn [snd]. apply gate_passed. exact Eg.
Qed.

(** C9, amended.  For every record the loader accepts into the staging
    list, [json.dumps] and then [json.loads] of its text have both returned
    before the staging insert is attempted, and the staged text is that
    serialization; the value [json.loads] returned is dropped, not
    compared.  It equals the record, field for field, when the record is
    made of JSON's own values: [None], booleans, integers, strings, lists
    and dicts of such.  (For these values [json.loads(json.dumps(v)) == v]
    holds in general.) *)
Theorem round_trip_at_gate :
  (forall tb data w evs sql rows,
      w_trace (snd (save_to_snowflake_on tb data w)) = w_trace w ++ evs ->
      In (EvWh (WhExecuteMany sql rows)) evs ->
      Forall2 (fun record row =>
                 json_dumps (PDict record) = Ok (snd row)
                 /\ exists v, json_loads (snd row) = Ok v
                              /\ (json_native (PDict record) = true -> v = PDict record))
              (filter accepted data) rows)
  /\
  (forall v s, json_native v = true -> json_dumps v = Ok s -> json_loads s = Ok v).
Proof.
  split.
  - intros tb data w evs sql rows Htr Hin.
    destruct (loader_executemany _ _ _ _ _ _ Htr Hin) as [_ ->].
    apply staged_gate.
  - exact json_round_trip.
Qed.

Lemma round_trip_at_gate_witness :
  Forall2 (fun record row =>
             json_dumps (PDict record) = Ok (snd row)
             /\ exists v, json_loads (snd row) = Ok v
                          /\ (json_native (PDict record) = true -> v = PDict record))
          (filter accepted [airflow_record])
          [(ticking_clock 1, PStr "apache/airflow", airflow_json)].
Proof.
  apply (proj1 round_trip_at_gate GitHub.tables [airflow_record] after_fetch_world
           (w_trace (snd (save_to_snowflake_on GitHub.tables [airflow_record]
                                               after_fetch_world)))
           (temp_insert_query GitHub.tables)).
  - reflexivity.
  - vm_compute. do 4 right. left. reflexivity.
Defined.

(** ** The clock along a run *)

Lemma clock_mono_still {A} (m : M A) :
  (forall w, w_clock (snd (m w)) = w_clock w /\ w_ticks (snd (m w)) = w_ticks w) ->
  clock_mono m.
Proof.
  intros H w r w' E. specialize (H w). rewrite E in H. simpl in H.
  destruct H as [-> ->]. split; [reflexivity | lia].
Qed.

Lemma clock_mono_ret {A} (a : A) : clock_mono (ret a).
Proof. apply clock_mono_still. intros w; split; reflexivity. Qed.

Lemma clock_mono_raise {A} e : clock_mono (@raise A e).
Proof. apply clock_mono_still. intros w; split; reflexivity. Qed.

Lemma clock_mono_lift {A} (r : Result A) : clock_mono (lift r).
Proof. apply clock_mono_still. intros w; split; reflexivity. Qed.

Lemma clock_mono_logger lvl fmt args : clock_mono (logger lvl fmt args).
Proof. apply clock_mono_still. intros w; split; reflexivity. Qed.

Lemma clock_mono_sleep n : clock_mono (time_sleep n).
Proof. apply clock_mono_still. intros w; split; reflexivity. Qed.

Lemma clock_mono_requests_get url hs : clock_mono (requests_get url hs).
Proof.
  apply clock_mono_still. intros w. unfold requests_get.
  destruct (w_http w (w_reqs w) url); split; reflexivity.
Qed.

Lemma clock_mono_raise_for_status url r : clock_mono (raise_for_status url r).
Proof.
  apply clock_mono_still. intros w. unfold raise_for_status.
  destruct ((400 <=? status_code r) && (status_code r <? 600))%bool; split; reflexivity.
Qed.

Lemma clock_mono_response_json r : clock_mono (response_json r).
Proof.
  apply clock_mono_still. intros w. unfold response_json.
  destruct (json_body r); split; reflexivity.
Qed.

Lemma clock_mono_now : clock_mono datetime_now.
Proof. intros w r w' E. inversion E; subst. simpl. split; [reflexivity | lia]. Qed.

Lemma clock_mono_bind {A B} (m : M A) (f : A -> M B) :
  clock_mono m -> (forall a, clock_mono (f a)) -> clock_mono (bind m f).
Proof.
  intros Hm Hf w r w' E. unfold bind in E.
  destruct (m w) as [[a | e] w1] eqn:Em.
  - destruct (Hm _ _ _ Em) as [Hc Ht]. destruct (Hf a _ _ _ E) as [Hc' Ht'].
    split; [congruence | lia].
  - inversion E; subst. eapply Hm; exact Em.
Qed.

Lemma clock_mono_try_except {A} (m : M A) (h : Exn -> M A) :
  clock_mono m -> (forall e, clock_mono (h e)) -> clock_mono (try_except m h).
Proof.
  intros Hm Hh w r w' E. unfold try_except in E.
  destruct (m w) as [[a | e] w1] eqn:Em.
  - inversion E; subst. eapply Hm; exact Em.
  - destruct (Hm _ _ _ Em) as [Hc Ht]. destruct (Hh e _ _ _ E) as [Hc' Ht'].
    split; [congruence | lia].
Qed.

Lemma clock_mono_if {A} (b : bool) (m1 m2 : M A) :
  clock_mono m1 -> clock_mono m2 -> clock_mono (if b then m1 else m2).
Proof. destruct b; auto. Qed.

Ltac mono :=
  repeat first
    [ apply clock_mono_ret | apply clock_mono_raise | apply clock_mono_lift
    | apply clock_mono_now | apply clock_mono_raise_for_status
    | apply clock_mono_response_json
    | apply clock_mono_logger | apply clock_mono_sleep | apply clock_mono_requests_get
    | apply clock_mono_bind; [ | intro ]
    | apply clock_mono_try_except; [ | intro ]
    | apply clock_mono_if ].

Lemma get_repo_data_clock_mono self repo : clock_mono (GitHub.get_repo_data self repo).
Proof. unfold GitHub.get_repo_data, GitHub.get_repo_data_body. mono. Qed.

Lemma get_package_info_clock_mono self package :
  clock_mono (PyPI.get_package_info self package).
Proof.
  unfold PyPI.get_package_info, PyPI.get_package_info_body, PyPI.recent, PyPI.first_file.
  mono.
Qed.

Lemma datetime_now_Ok w t w' :
  datetime_now w = (Ok t, w') ->
  t = w_clock w (w_ticks w) /\ w_clock w' = w_clock w /\ w_ticks w' = S (w_ticks w).
Proof. intros H. inversion H; subst. simpl. auto. Qed.

Ltac mono_facts :=
  repeat match goal with
         | H : ?m ?wi = (Ok _, ?wj) |- _ =>
             let F := fresh "F" in
             assert (F : clock_mono m) by mono;
             apply F in H
         end.

Lemma github_record_stamp self repo w d w1 :
  GitHub.get_repo_data self repo w = (Ok (Some d), w1) ->
  stamped_in (w_clock w) (w_ticks w) (w_ticks w1) d.
Proof.
  intros H. unfold GitHub.get_repo_data, try_except in H.
  destruct (GitHub.get_repo_data_body self repo w) as [[r | e] w2] eqn:E.
  - inversion H; subst. clear H. unfold GitHub.get_repo_data_body in E.
    repeat bind_inv E. unfold ret in E. inversion E; subst. clear E.
    match goal with
    | Hn : datetime_now ?wk = (Ok ?t, _) |- _ =>
        apply datetime_now_Ok in Hn; destruct Hn as (Ht & Hc & Hk);
        exists (w_ticks wk)
    end.
    mono_facts.
    repeat match goal with H : _ /\ _ |- _ => destruct H end.
    split; [lia | ].
    cbn -[isoformat]. subst. do 3 f_equal. congruence.
  - destruct (is_RequestException e); discriminate H.
Qed.

Lemma pypi_record_stamp self package w d w1 :
  PyPI.get_package_info self package w = (Ok (Some d), w1) ->
  stamped_in (w_clock w) (w_ticks w) (w_ticks w1) d.
Proof.
  intros H. unfold PyPI.get_package_info, try_except in H.
  destruct (PyPI.get_package_info_body self package w) as [[r | e] w2] eqn:E.
  - inversion H; subst. clear H. unfold PyPI.get_package_info_body in E.
    do 5 bind_inv E. repeat bind_inv E. unfold ret in E. inversion E; subst. clear E.
    match goal with
    | Hn : datetime_now ?wk = (Ok ?t, _) |- _ =>
        apply datetime_now_Ok in Hn; destruct Hn as (Ht & Hc & Hk);
        exists (w_ticks wk)
    end.
    match goal with
    | Hs : (if status_code ?r =? 200 then _ else _) _ = (Ok ?ds, _) |- _ =>
        assert (Hds : ds = [] \/ exists x y z,
                     ds = dict_literal [("downloads_last_day", x);
                                        ("downloads_last_week", y);
                                        ("downloads_last_month", z)]);
        [ pose proof Hs as Hs'; destruct (status_code r =? 200);
          [ right; repeat bind_inv Hs'; unfold ret in Hs'; inversion Hs'; eauto
          | left; unfold ret in Hs'; inversion Hs'; reflexivity ]
        | ]
    end.
    mono_facts.
    repeat match goal with H : _ /\ _ |- _ => destruct H end.
    split; [lia | ].
    destruct Hds as [-> | (x & y & z & ->)];
      cbn -[isoformat]; subst; do 3 f_equal; congruence.
  - destruct (is_RequestException e); discriminate H.
Qed.

Lemma stamped_in_weaken clock lo hi lo' hi' record :
  (lo' <= lo)%nat -> (hi <= hi')%nat ->
  stamped_in clock lo hi record -> stamped_in clock lo' hi' record.
Proof. intros Hlo Hhi (i & Hi & Hl). exists i. split; [lia | exact Hl]. Qed.

Lemma Pass_stamps fetch entities w rs w' :
  (forall entity, clock_mono (fetch entity)) ->
  (forall entity w d w1, fetch entity w = (Ok (Some d), w1) ->
                         stamped_in (w_clock w) (w_ticks w) (w_ticks w1) d) ->
  Pass fetch entities w rs w' ->
  w_clock w' = w_clock w /\ (w_ticks w <= w_ticks w')%nat
  /\ Forall (stamped_in (w_clock w) (w_ticks w) (w_ticks w')) (successes rs).
Proof.
  intros Hmono Hstamp.
  induction 1 as [ | entity entities w r w1 rs w2 Hf HP IH].
  - split; [reflexivity | split; [lia | constructor]].
  - destruct IH as (Hc & Ht & Hs). cbn [emit w_clock w_ticks] in Hc, Ht, Hs.
    destruct (Hmono _ _ _ _ Hf) as [Hc1 Ht1]. cbn [emit w_clock w_ticks] in Hc1, Ht1.
    split; [congruence | split; [lia | ]].
    assert (Hrest : Forall (stamped_in (w_clock w) (w_ticks w) (w_ticks w2)) (successes rs)).
    { rewrite Hc1 in Hs. eapply Forall_impl; [ | exact Hs].
      intros d. apply stamped_in_weaken; lia. }
    destruct r as [d | ]; simpl; [ | exact Hrest].
    constructor; [ | exact Hrest].
    apply Hstamp in Hf. cbn [emit w_clock w_ticks] in Hf.
    eapply stamped_in_weaken; [ | | exact Hf]; lia.
Qed.

Lemma extract_loop_emits fetch entities : forall acc,
  (forall entity, emits_only not_warehouse (fetch entity)) ->
  emits_only not_warehouse (extract_loop fetch entities acc).
Proof.
  induction entities as [ | entity entities IH]; intros acc Hf; simpl.
  - apply emits_only_ret.
  - apply emits_only_bind; [apply emits_only_logger; exact I | intros _].
    apply emits_only_bind; [apply Hf | intros r].
    apply emits_only_bind; [apply emits_only_sleep; exact I | intros _].
    apply IH. exact Hf.
Qed.

Lemma get_repo_data_emits self repo :
  emits_only not_warehouse (GitHub.get_repo_data self repo).
Proof. unfold GitHub.get_repo_data, GitHub.get_repo_data_body. emits; exact I. Qed.

Lemma get_package_info_emits self package :
  emits_only not_warehouse (PyPI.get_package_info self package).
Proof.
  unfold PyPI.get_package_info, PyPI.get_package_info_body, PyPI.recent, PyPI.first_file.
  emits; exact I.
Qed.

Lemma extract_all_emits start_fmt done_fmt fetch entities :
  (forall entity, emits_only not_warehouse (fetch entity)) ->
  emits_only not_warehouse (extract_all start_fmt done_fmt fetch entities).
Proof.
  intros Hf. unfold extract_all.
  apply emits_only_bind; [apply emits_only_logger; exact I | intros _].
  apply emits_only_bind; [apply extract_loop_emits; exact Hf | intros d].
  apply emits_only_bind; [apply emits_only_logger; exact I | intros _].
  apply emits_only_ret.
Qed.

Lemma save_trace_extends tb data w :
  exists evs, w_trace (snd (save_to_snowflake_on tb data w)) = w_trace w ++ evs.
Proof.
  destruct data as [ | record data].
  - eexists. reflexivity.
  - pose proof (save_to_snowflake_run tb record data w) as Hrun. cbv zeta in Hrun.
    rewrite Hrun. eexists. reflexivity.
Qed.

Lemma not_warehouse_In evs c : Forall not_warehouse evs -> ~ In (EvWh c) evs.
Proof.
  intros H Hin. rewrite Forall_forall in H. exact (H _ Hin).
Qed.

Lemma staged_row_stamp name_key clock tick data row :
  In row (staged name_key clock tick data) ->
  exists j, (tick <= j)%nat /\ row_stamp row = clock j.
Proof.
  intros Hin. apply (in_map row_stamp) in Hin. rewrite staged_stamps in Hin.
  apply in_map_iff in Hin. destruct Hin as (j & Hj & Hjin).
  apply in_seq in Hjin. exists j. split; [lia | symmetry; exact Hj].
Qed.

(** The body both [run]s share once the token is there: extract, then load
    what was extracted. *)
Lemma extract_then_load start_fmt done_fmt fetch entities tb l1 l2 l3 l4 w :
  (forall entity, never_raises (fetch entity)) ->
  (forall entity w d w', fetch entity w = (Ok (Some d), w') -> dict_truthy d = true) ->
  (forall entity, clock_mono (fetch entity)) ->
  (forall entity w d w1, fetch entity w = (Ok (Some d), w1) ->
                         stamped_in (w_clock w) (w_ticks w) (w_ticks w1) d) ->
  (forall entity, emits_only not_warehouse (fetch entity)) ->
  forall evs sql rows,
  w_trace (snd (try_except
                  (logger INFO l1 [] ;;
                   data <- extract_all start_fmt done_fmt fetch entities ;;
                   if list_truthy data then
                     save_to_snowflake_on tb data ;;
                     logger INFO l2 [] ;;
                     ret PNone
                   else
                     logger WARNING l3 [] ;;
                     ret PNone)
                  (fun e => logger ERROR l4 [PStr (exn_str e)] ;; raise e) w))
  = w_trace w ++ evs ->
  In (EvWh (WhExecuteMany sql rows)) evs ->
  clock_increasing (w_clock w) ->
  exists batch,
    Forall2 (row_of_record (name_key tb)) (filter accepted batch) rows
    /\ forall record row, In record batch -> In row rows ->
       exists t, dict_lookup "extracted_at" record = Some (PStr (isoformat t))
                 /\ datetime_ltb t (row_stamp row) = true.
Proof.
  intros Hnr Hne Hmono Hstamp Hemit evs sql rows Htr Hin Hclock.
  rewrite try_except_bind in Htr. unfold logger at 1 in Htr.
  rewrite try_except_bind in Htr.
  destruct (extract_all_pass start_fmt done_fmt fetch entities
              (emit (EvLog INFO l1 []) w) Hnr Hne) as (rs & w1 & HP & Hrun).
  destruct (extract_all_emits start_fmt done_fmt fetch entities Hemit _ _ _ Hrun)
    as (evs1 & Htr1 & Hnw1).
  rewrite Hrun in Htr.
  destruct (Pass_stamps _ _ _ _ _ Hmono Hstamp HP) as (Hc1 & Ht1 & Hst).
  cbn [emit w_clock w_ticks] in Hc1, Ht1, Hst.
  set (wb := emit (EvLog INFO done_fmt [PInt (Z.of_nat (List.length (successes rs)))]) w1) in *.
  assert (Hwb : w_clock wb = w_clock w /\ w_ticks wb = w_ticks w1).
  { split; [exact Hc1 | reflexivity]. }
  destruct Hwb as [Hcb Htb].
  cbn [w_trace emit] in Htr1.
  exists (successes rs).
  destruct (list_truthy (successes rs)) eqn:Hbatch.
  - rewrite try_except_bind in Htr.
    destruct (save_trace_extends tb (successes rs) wb) as (evs2 & Htr2).
    destruct (save_to_snowflake_on tb (successes rs) wb) as [[v | e] wc] eqn:Esave;
      cbn [snd] in Htr2.
    + cbn in Htr. rewrite Htr2, Htr1, <- !app_assoc in Htr.
      apply app_inv_head in Htr. subst evs.
      rewrite !in_app_iff in Hin. destruct Hin as [Hin | [Hin | [Hin | Hin]]].
      * destruct Hin as [Hin | []]. discriminate Hin.
      * exfalso. eapply not_warehouse_In; eassumption.
      * assert (Htr2' : w_trace (snd (save_to_snowflake_on tb (successes rs) wb))
                        = w_trace wb ++ evs2) by (rewrite Esave; exact Htr2).
        destruct (loader_executemany _ _ _ _ _ _ Htr2' Hin) as [_ ->].
        split; [apply staged_rows | ].
        intros record row Hrec Hrow.
        rewrite Forall_forall in Hst. destruct (Hst _ Hrec) as (i & Hi & Hl).
        destruct (staged_row_stamp _ _ _ _ _ Hrow) as (j & Hj & Hs).
        exists (w_clock w i). split; [exact Hl | ].
        rewrite Hs, Hcb. apply Hclock. lia.
      * destruct Hin as [Hin | []]. discriminate Hin.
    + cbn in Htr. rewrite Htr2, Htr1, <- !app_assoc in Htr.
      apply app_inv_head in Htr. subst evs.
      rewrite !in_app_iff in Hin. destruct Hin as [Hin | [Hin | [Hin | Hin]]].
      * destruct Hin as [Hin | []]. discriminate Hin.
      * exfalso. eapply not_warehouse_In; eassumption.
      * assert (Htr2' : w_trace (snd (save_to_snowflake_on tb (successes rs) wb))
                        = w_trace wb ++ evs2) by (rewrite Esave; exact Htr2).
        destruct (loader_executemany _ _ _ _ _ _ Htr2' Hin) as [_ ->].
        split; [apply staged_rows | ].
        intros record row Hrec Hrow.
        rewrite Forall_forall in Hst. destruct (Hst _ Hrec) as (i & Hi & Hl).
        destruct (staged_row_stamp _ _ _ _ _ Hrow) as (j & Hj & Hs).
        exists (w_clock w i). split; [exact Hl | ].
        rewrite Hs, Hcb. apply Hclock. lia.
      * destruct Hin as [Hin | []]. discriminate Hin.
  - exfalso. cbn in Htr.
    change (w_trace w1 ++ [EvLog INFO done_fmt [PInt (Z.of_nat (List.length (successes rs)))]])
      with (w_trace wb) in Htr.
    rewrite Htr1, <- !app_assoc in Htr.
    apply app_inv_head in Htr. subst evs.
    rewrite !in_app_iff in Hin. destruct Hin as [Hin | [Hin | Hin]].
    + destruct Hin as [Hin | []]. discriminate Hin.
    + eapply not_warehouse_In; eassumption.
    + destruct Hin as [Hin | []]. discriminate Hin.
Qed.

Lemma github_run_stamps self : stamps_later "repo_name" (GitHub.run self).
Proof.
  intros w evs sql rows Hclock Htr Hin.
  unfold GitHub.run in Htr. destruct (GitHub.token_missing self) eqn:Htok.
  - exfalso. cbn in Htr. apply app_inv_head in Htr. subst evs.
    destruct Hin as [Hin | []]. discriminate Hin.
  - eapply (extract_then_load _ _ (GitHub.get_repo_data self) (GitHub.repositories self)
              GitHub.tables _ _ _ _ w
              (get_repo_data_never_raises self)
              (fun e w d w' H => proj2 (github_record_name self e w d w' H))
              (get_repo_data_clock_mono self)
              (github_record_stamp self)
              (get_repo_data_emits self) evs sql rows); [exact Htr | exact Hin | exact Hclock].
Qed.

Lemma pypi_run_stamps self : stamps_later "package_name" (PyPI.run self).
Proof.
  intros w evs sql rows Hclock Htr Hin.
  eapply (extract_then_load _ _ (PyPI.get_package_info self) (PyPI.packages self)
            PyPI.tables _ _ _ _ w
            (get_package_info_never_raises self)
            (fun e w d w' H => proj2 (pypi_record_name self e w d w' H))
            (get_package_info_clock_mono self)
            (pypi_record_stamp self)
            (get_package_info_emits self) evs sql rows); [exact Htr | exact Hin | exact Hclock].
Qed.

(** ** The timestamp of a staged row (C10) *)

(** C10, as stated, fails: the loader stamps a row with the wall clock as it
    reads at staging time and compares it with nothing.  In this run the
    clock was set back between the fetch and the load: the payload says
    12:00:30, the row staged for it says 12:00:29. *)
Lemma staged_stamp_later_counterexample :
  exists record json_str,
    fst (GitHub.extract_all_repositories gh clock_set_back_world) = Ok [record]
    /\ dict_lookup "extracted_at" record = Some (PStr (isoformat (noon 30 0)))
    /\ json_dumps (PDict record) = Ok json_str
    /\ In (EvWh (WhExecuteMany (temp_insert_query GitHub.tables)
                               [(noon 29 0, PStr "apache/airflow", json_str)]))
          (w_trace (snd (GitHub.run gh clock_set_back_world)))
    /\ datetime_ltb (noon 30 0) (noon 29 0) = false.
Proof.
  eexists. eexists. split; [vm_compute; reflexivity | ].
  split; [reflexivity | ]. split; [vm_compute; reflexivity | ].
  split; [ | reflexivity].
  vm_compute. repeat (first [left; reflexivity | right]).
Qed.

(** C10, amended.  Whatever the batch and the world, the rows handed to
    [executemany] carry, in order, the successive readings the loader takes
    of the clock while it stages them -- readings number [w_ticks w],
    [w_ticks w + 1], ... of the run, one per row -- and nothing of the
    records' own [extracted_at] fields.  So a staged stamp is later than any
    reading taken before the loader was called whenever the readings of the
    clock increase; the code does not compare the two.  In a whole [run] of
    either extractor the [extracted_at] of each record of the batch is such
    an earlier reading: on a clock whose readings increase, every staged
    row's stamp is later than the [extracted_at] of every record of the
    batch, its own payload's among them. *)
Theorem staged_stamp_is_fresh :
  (forall tb data w evs sql rows,
      w_trace (snd (save_to_snowflake_on tb data w)) = w_trace w ++ evs ->
      In (EvWh (WhExecuteMany sql rows)) evs ->
      map row_stamp rows = map (w_clock w) (seq (w_ticks w) (List.length rows)))
  /\
  (forall tb data w evs sql rows row i,
      w_trace (snd (save_to_snowflake_on tb data w)) = w_trace w ++ evs ->
      In (EvWh (WhExecuteMany sql rows)) evs ->
      clock_increasing (w_clock w) ->
      (i < w_ticks w)%nat -> In row rows ->
      datetime_ltb (w_clock w i) (row_stamp row) = true)
  /\
  (forall self, stamps_later "repo_name" (GitHub.run self))
  /\
  (forall self, stamps_later "package_name" (PyPI.run self)).
Proof.
  assert (Hst : forall tb data w evs sql rows,
      w_trace (snd (save_to_snowflake_on tb data w)) = w_trace w ++ evs ->
      In (EvWh (WhExecuteMany sql rows)) evs ->
      map row_stamp rows = map (w_clock w) (seq (w_ticks w) (List.length rows))).
  { intros tb data w evs sql rows Htr Hin.
    destruct (loader_executemany _ _ _ _ _ _ Htr Hin) as [_ ->].
    apply staged_stamps. }
  split; [exact Hst | ].
  split; [ | split; [exact github_run_stamps | exact pypi_run_stamps]].
  intros tb data w evs sql rows row i Htr Hin Hclock Hi Hrow.
  specialize (Hst _ _ _ _ _ _ Htr Hin).
  assert (Hs : In (row_stamp row) (map row_stamp rows)) by (apply in_map; exact Hrow).
  rewrite Hst in Hs. apply in_map_iff in Hs. destruct Hs as (j & Hj & Hjin).
  apply in_seq in Hjin. rewrite <- Hj. apply Hclock. lia.
Qed.

Lemma ticking_clock_increasing : clock_increasing ticking_clock.
Proof.
  intros i j Hij. unfold datetime_ltb, ticking_clock. simpl.
  apply orb_true_iff. left. apply Z.ltb_lt. lia.
Qed.

Lemma staged_stamp_is_fresh_witness :
  datetime_ltb (ticking_clock 0)
               (row_stamp (ticking_clock 1, PStr "apache/airflow", airflow_json)) = true
  /\ exists batch,
       Forall2 (row_of_record "repo_name") (filter accepted batch) ticking_run_rows
       /\ forall record row, In record batch -> In row ticking_run_rows ->
            exists t, dict_lookup "extracted_at" record = Some (PStr (isoformat t))
                      /\ datetime_ltb t (row_stamp row) = true.
Proof.
  split.
  - apply (proj1 (proj2 staged_stamp_is_fresh) GitHub.tables [airflow_record]
             after_fetch_world
             (w_trace (snd (save_to_snowflake_on GitHub.tables [airflow_record]
                                                 after_fetch_world)))
             (temp_insert_query GitHub.tables)
             [(ticking_clock 1, PStr "apache/airflow", airflow_json)]
             (ticking_clock 1, PStr "apache/airflow", airflow_json) 0%nat).
    + reflexivity.
    + vm_compute. do 4 right. left. reflexivity.
    + exact ticking_clock_increasing.
    + simpl. lia.
    + left. reflexivity.
  - apply (proj1 (proj2 (proj2 staged_stamp_is_fresh)) gh ticking_run_world
             ticking_run_trace (temp_insert_query GitHub.tables) ticking_run_rows).
    + exact ticking_clock_increasing.
    + vm_compute. reflexivity.
    + unfold ticking_run_trace. repeat (first [left; reflexivity | right]).
Defined.

(** ** The phases of a run *)

Lemma body_events_wh_or_log tb rows logs o :
  Forall wh_or_log logs -> Forall wh_or_log (body_events tb rows logs o).
Proof.
  intros Hl. destruct o as [[ | | | | | | ] msg | | ]; cbn [body_events]; unfold open_session;
    repeat first [ apply Forall_app; split | exact Hl | constructor; [exact I | ] | constructor ].
Qed.

Lemma drop_logs_wh_or_log name_key data : Forall wh_or_log (drop_logs name_key data).
Proof.
  apply Forall_forall. intros e He. apply drop_logs_are_logs in He.
  destruct He as (fmt & args & ->). exact I.
Qed.

Lemma load_events_wh_or_log tb wh rows name_key data o :
  Forall wh_or_log (load_events tb wh rows (drop_logs name_key data) o).
Proof.
  unfold load_events. apply Forall_app. split; [ | apply Forall_app; split].
  - apply body_events_wh_or_log, drop_logs_wh_or_log.
  - unfold handler_events. destruct o as [st msg | | ]; [ | constructor | constructor].
    destruct (has_conn (Failed st msg)); repeat constructor.
  - unfold finally_events.
    destruct (has_cursor o), (cursor_close_raises wh o), (has_conn o); repeat constructor.
Qed.

(** The loader sends no request and does not sleep. *)
Lemma save_emits tb data : emits_only wh_or_log (save_to_snowflake_on tb data).
Proof.
  intros w r w' E. destruct data as [ | record data].
  - inversion E; subst. exists [EvLog WARNING "No data to save" []].
    split; [reflexivity | repeat constructor].
  - pose proof (save_to_snowflake_run tb record data w) as Hrun. cbv zeta in Hrun.
    assert (Hw : w' = snd (save_to_snowflake_on tb (record :: data) w))
      by (rewrite E; reflexivity).
    rewrite Hrun in Hw. subst w'. cbn [snd w_trace].
    eexists. split; [reflexivity | ]. apply load_events_wh_or_log.
Qed.

Lemma run_body_run start_fmt done_fmt fetch entities tb l1 l2 l3 l4 w batch w1 :
  extract_all start_fmt done_fmt fetch entities (emit (EvLog INFO l1 []) w) = (Ok batch, w1) ->
  try_except (run_body start_fmt done_fmt fetch entities tb l1 l2 l3)
             (fun e => logger ERROR l4 [PStr (exn_str e)] ;; raise e) w
  = match batch with
    | [] => (Ok PNone, emit (EvLog WARNING l3 []) w1)
    | _ :: _ =>
        match save_to_snowflake_on tb batch w1 with
        | (Ok _, w2) => (Ok PNone, emit (EvLog INFO l2 []) w2)
        | (Raise e, w2) => (Raise e, emit (EvLog ERROR l4 [PStr (exn_str e)]) w2)
        end
    end.
Proof.
  intros Hrun. unfold run_body.
  rewrite try_except_bind. unfold logger at 1. rewrite try_except_bind, Hrun.
  destruct batch as [ | d batch]; cbn [list_truthy]; [reflexivity | ].
  rewrite try_except_bind.
  destruct (save_to_snowflake_on tb (d :: batch) w1) as [[v | e] w2]; reflexivity.
Qed.

Lemma run_body_phases start_fmt done_fmt fetch entities tb l1 l2 l3 l4 w :
  (forall entity, never_raises (fetch entity)) ->
  (forall entity w d w', fetch entity w = (Ok (Some d), w') -> dict_truthy d = true) ->
  (forall entity, emits_only not_warehouse (fetch entity)) ->
  run_phases
    (try_except (run_body start_fmt done_fmt fetch entities tb l1 l2 l3)
                (fun e => logger ERROR l4 [PStr (exn_str e)] ;; raise e))
    (extract_all start_fmt done_fmt fetch entities) tb l1 l2 l3 l4 w.
Proof.
  intros Hnr Hne Hemit. unfold run_phases.
  destruct (extract_all_pass start_fmt done_fmt fetch entities
              (emit (EvLog INFO l1 []) w) Hnr Hne) as (rs & w1 & HP & Hrun).
  destruct (extract_all_emits start_fmt done_fmt fetch entities Hemit _ _ _ Hrun)
    as (pre & Htr1 & Hpre).
  set (wb := emit (EvLog INFO done_fmt [PInt (Z.of_nat (List.length (successes rs)))]) w1) in *.
  cbn [w_trace emit] in Htr1. rewrite <- app_assoc in Htr1. cbn [List.app] in Htr1.
  rewrite (run_body_run _ _ _ _ _ _ _ _ _ _ _ _ Hrun).
  destruct (successes rs) as [ | d batch] eqn:Hbatch.
  - exists [], wb, pre, [], (EvLog WARNING l3 []).
    split; [exact Hrun | ]. split; [exact Htr1 | ]. split; [exact Hpre | ].
    split; [reflexivity | ]. split; [constructor | ].
    split; [intros _; repeat split; reflexivity | congruence].
  - destruct (save_to_snowflake_on tb (d :: batch) wb) as [r w2] eqn:Esave.
    destruct (save_emits tb (d :: batch) _ _ _ Esave) as (load & Htr2 & Hload).
    exists (d :: batch), wb, pre, load.
    exists (match r with
            | Ok _ => EvLog INFO l2 []
            | Raise e => EvLog ERROR l4 [PStr (exn_str e)]
            end).
    split; [exact Hrun | ]. split; [exact Htr1 | ]. split; [exact Hpre | ].
    split; [ | split; [exact Hload | split; [congruence | ]]].
    + destruct r as [v | e]; cbn; rewrite Htr2, <- app_assoc; reflexivity.
    + intros _. rewrite Esave. cbn [fst snd]. split; [exact Htr2 | ].
      destruct r as [v | e]; cbn; split; reflexivity.
Qed.

Lemma github_run_phases self w :
  GitHub.token_missing self = false ->
  run_phases (GitHub.run self) (GitHub.extract_all_repositories self) GitHub.tables
             "Starting GitHub data extraction" "GitHub extraction completed successfully"
             "No data extracted" "GitHub extraction failed: {}" w.
Proof.
  intros Htok.
  pose proof (run_body_phases "Starting extraction for {} repositories"
                "Extraction completed. {} repositories processed successfully"
                (GitHub.get_repo_data self) (GitHub.repositories self) GitHub.tables
                "Starting GitHub data extraction" "GitHub extraction completed successfully"
                "No data extracted" "GitHub extraction failed: {}" w
                (get_repo_data_never_raises self)
                (fun e w d w' H => proj2 (github_record_name self e w d w' H))
                (get_repo_data_emits self)) as H.
  unfold GitHub.run. rewrite Htok. exact H.
Qed.

Lemma pypi_run_phases self w :
  run_phases (PyPI.run self) (PyPI.extract_all_packages self) PyPI.tables
             "Starting PyPI data extraction" "PyPI extraction completed successfully"
             "No data extracted" "PyPI extraction failed: {}" w.
Proof.
  exact (run_body_phases "Starting extraction for {} packages"
           "Extraction completed. {} packages processed successfully"
           (PyPI.get_package_info self) (PyPI.packages self) PyPI.tables
           "Starting PyPI data extraction" "PyPI extraction completed successfully"
           "No data extracted" "PyPI extraction failed: {}" w
           (get_package_info_never_raises self)
           (fun e w d w' H => proj2 (pypi_record_name self e w d w' H))
           (get_package_info_emits self)).
Qed.

Lemma github_run_token_missing self w :
  GitHub.token_missing self = true ->
  GitHub.run self w
  = (Raise GitHub.token_error,
     emit (EvLog ERROR "GitHub extraction failed: {}"
                 [PStr "GitHub token not provided. Set GITHUB_TOKEN environment variable."])
          w).
Proof. intros H. unfold GitHub.run, try_except, bind. rewrite H. reflexivity. Qed.

Lemma run_phases_extends m extract tb l1 l2 l3 l4 w :
  run_phases m extract tb l1 l2 l3 l4 w ->
  exists evs, w_trace (snd (m w)) = w_trace w ++ evs.
Proof.
  intros (batch & w1 & pre & load & tail & _ & Htr1 & _ & Htr & _).
  rewrite Htr, Htr1, <- app_assoc. eexists. reflexivity.
Qed.

Lemma github_run_extends self w :
  exists evs, w_trace (snd (GitHub.run self w)) = w_trace w ++ evs.
Proof.
  destruct (GitHub.token_missing self) eqn:Htok.
  - rewrite (github_run_token_missing self w Htok). eexists. reflexivity.
  - eapply run_phases_extends. apply github_run_phases. exact Htok.
Qed.

Lemma pypi_run_extends self w :
  exists evs, w_trace (snd (PyPI.run self w)) = w_trace w ++ evs.
Proof. eapply run_phases_extends. apply pypi_run_phases. Qed.

(** With no batch, a run does not touch the warehouse. *)
Lemma run_phases_no_data m extract tb l1 l2 l3 l4 w w1 :
  run_phases m extract tb l1 l2 l3 l4 w ->
  extract (emit (EvLog INFO l1 []) w) = (Ok [], w1) ->
  fst (m w) = Ok PNone
  /\ exists evs, w_trace (snd (m w)) = w_trace w ++ evs ++ [EvLog WARNING l3 []]
                 /\ Forall not_warehouse evs.
Proof.
  intros (batch & w1' & pre & load & tail & Hex & Htr1 & Hpre & Htr & _ & Hnone & _) Hrun.
  rewrite Hrun in Hex. inversion Hex; subst batch w1'. clear Hex.
  destruct (Hnone eq_refl) as (-> & -> & Hres).
  split; [exact Hres | ].
  exists (EvLog INFO l1 [] :: pre). split.
  - rewrite Htr, Htr1, <- app_assoc. reflexivity.
  - constructor; [exact I | exact Hpre].
Qed.

(** Off line, a fetch is one request, one ERROR line, and [None]. *)
Lemma github_fetch_offline self repo w msg :
  w_http w (w_reqs w) (repo_url self repo) = HttpFail msg ->
  GitHub.get_repo_data self repo w
  = (Ok None,
     mk_world (w_http w) (S (w_reqs w)) (w_clock w) (w_ticks w) (w_wh w) (w_conn w) (w_cursor w)
              (w_trace w ++ [EvGet (repo_url self repo) (GitHub.headers self);
                             EvLog ERROR "Error fetching data for {}: {}"
                                   [PStr repo; PStr msg]])).
Proof.
  unfold repo_url. intros H.
  unfold GitHub.get_repo_data, GitHub.get_repo_data_body.
  rewrite try_except_bind. unfold requests_get at 1. rewrite H.
  cbn -[String.append]. unfold ret, emit. cbn -[String.append].
  rewrite <- app_assoc. reflexivity.
Qed.

Lemma pypi_fetch_offline self package w msg :
  w_http w (w_reqs w) (package_url self package) = HttpFail msg ->
  PyPI.get_package_info self package w
  = (Ok None,
     mk_world (w_http w) (S (w_reqs w)) (w_clock w) (w_ticks w) (w_wh w) (w_conn w) (w_cursor w)
              (w_trace w ++ [EvGet (package_url self package) [];
                             EvLog ERROR "Error fetching data for {}: {}"
                                   [PStr package; PStr msg]])).
Proof.
  unfold package_url. intros H.
  unfold PyPI.get_package_info, PyPI.get_package_info_body.
  rewrite try_except_bind. unfold requests_get at 1. rewrite H.
  cbn -[String.append]. unfold ret, emit. cbn -[String.append].
  rewrite <- app_assoc. reflexivity.
Qed.

Lemma extract_loop_offline fetch :
  (forall entity w, offline w ->
     exists w1, fetch entity w = (Ok None, w1)
                /\ w_http w1 = w_http w /\ w_reqs w1 = S (w_reqs w)) ->
  forall entities acc w, offline w ->
  exists w', extract_loop fetch entities acc w = (Ok acc, w')
             /\ w_http w' = w_http w
             /\ w_reqs w' = (w_reqs w + List.length entities)%nat.
Proof.
  intros Hf. induction entities as [ | entity entities IH]; intros acc w Hoff.
  - exists w. cbn. split; [reflexivity | split; [reflexivity | lia]].
  - cbn [extract_loop]. unfold bind at 1. unfold logger at 1.
    destruct (Hf entity (emit (EvLog INFO "Extracting data for {}" [PStr entity]) w))
      as (w1 & Hfetch & Hh & Hr); [exact Hoff | ].
    unfold bind at 1. rewrite Hfetch. unfold bind at 1. unfold time_sleep at 1.
    destruct (IH acc (emit (EvSleep 1) w1)) as (w' & Hloop & Hh' & Hr').
    { intros n url. cbn [emit w_http]. rewrite Hh. apply Hoff. }
    exists w'. split; [exact Hloop | ]. cbn [emit w_http w_reqs] in *.
    split; [congruence | ]. rewrite Hr', Hr. cbn [List.length]. lia.
Qed.

Lemma extract_all_offline start_fmt done_fmt fetch entities w :
  (forall entity w, offline w ->
     exists w1, fetch entity w = (Ok None, w1)
                /\ w_http w1 = w_http w /\ w_reqs w1 = S (w_reqs w)) ->
  offline w ->
  exists w', extract_all start_fmt done_fmt fetch entities w = (Ok [], w')
             /\ w_reqs w' = (w_reqs w + List.length entities)%nat.
Proof.
  intros Hf Hoff. unfold extract_all. unfold bind at 1. unfold logger at 1.
  destruct (extract_loop_offline fetch Hf entities []
              (emit (EvLog INFO start_fmt [PInt (Z.of_nat (List.length entities))]) w))
    as (w' & Hloop & _ & Hr); [exact Hoff | ].
  unfold bind at 1. rewrite Hloop. eexists. split; [reflexivity | exact Hr].
Qed.

Lemma github_extract_offline self w :
  offline w ->
  exists w', GitHub.extract_all_repositories self w = (Ok [], w')
             /\ w_reqs w' = (w_reqs w + List.length (GitHub.repositories self))%nat.
Proof.
  intros Hoff. apply extract_all_offline; [ | exact Hoff].
  intros repo w0 H0. destruct (H0 (w_reqs w0) (repo_url self repo)) as [msg Hm].
  rewrite (github_fetch_offline _ _ _ _ Hm). eexists. repeat split; reflexivity.
Qed.

Lemma pypi_extract_offline self w :
  offline w ->
  exists w', PyPI.extract_all_packages self w = (Ok [], w')
             /\ w_reqs w' = (w_reqs w + List.length (PyPI.packages self))%nat.
Proof.
  intros Hoff. apply extract_all_offline; [ | exact Hoff].
  intros package w0 H0. destruct (H0 (w_reqs w0) (package_url self package)) as [msg Hm].
  rewrite (pypi_fetch_offline _ _ _ _ Hm). eexists. repeat split; reflexivity.
Qed.

Lemma github_run_no_data self w w1 :
  GitHub.token_missing self = false ->
  GitHub.extract_all_repositories self (emit (EvLog INFO "Starting GitHub data extraction" []) w)
  = (Ok [], w1) ->
  GitHub.run self w = (Ok PNone, emit (EvLog WARNING "No data extracted" []) w1).
Proof.
  intros Htok Hex.
  pose proof (run_body_run "Starting extraction for {} repositories"
                "Extraction completed. {} repositories processed successfully"
                (GitHub.get_repo_data self) (GitHub.repositories self) GitHub.tables
                "Starting GitHub data extraction" "GitHub extraction completed successfully"
                "No data extracted" "GitHub extraction failed: {}" w [] w1 Hex) as H.
  unfold GitHub.run. rewrite Htok. exact H.
Qed.

Lemma pypi_run_no_data self w w1 :
  PyPI.extract_all_packages self (emit (EvLog INFO "Starting PyPI data extraction" []) w)
  = (Ok [], w1) ->
  PyPI.run self w = (Ok PNone, emit (EvLog WARNING "No data extracted" []) w1).
Proof.
  intros Hex.
  exact (run_body_run "Starting extraction for {} packages"
           "Extraction completed. {} packages processed successfully"
           (PyPI.get_package_info self) (PyPI.packages self) PyPI.tables
           "Starting PyPI data extraction" "PyPI extraction completed successfully"
           "No data extracted" "PyPI extraction failed: {}" w [] w1 Hex).
Qed.

Lemma offline_emit e w : offline w -> offline (emit e w).
Proof. intros H n url. exact (H n url). Qed.

Lemma github_run_offline self w :
  GitHub.token_missing self = false -> offline w ->
  exists w' evs,
    GitHub.run self w = (Ok PNone, w')
    /\ w_trace w' = w_trace w ++ evs
    /\ Forall not_warehouse evs
    /\ w_reqs w' = (w_reqs w + List.length (GitHub.repositories self))%nat.
Proof.
  intros Htok Hoff.
  destruct (github_extract_offline self
              (emit (EvLog INFO "Starting GitHub data extraction" []) w))
    as (w1 & Hex & Hr); [apply offline_emit; exact Hoff | ].
  destruct (extract_all_emits _ _ _ _ (get_repo_data_emits self) _ _ _ Hex)
    as (pre & Htr & Hpre).
  rewrite (github_run_no_data self w w1 Htok Hex).
  eexists. exists (EvLog INFO "Starting GitHub data extraction" [] :: pre
                   ++ [EvLog WARNING "No data extracted" []]).
  split; [reflexivity | ]. cbn [emit w_trace w_reqs] in *.
  split; [rewrite Htr, <- !app_assoc; reflexivity | ].
  split; [ | exact Hr].
  constructor; [exact I | ]. apply Forall_app. split; [exact Hpre | repeat constructor].
Qed.

Lemma pypi_run_offline self w :
  offline w ->
  exists w' evs,
    PyPI.run self w = (Ok PNone, w')
    /\ w_trace w' = w_trace w ++ evs
    /\ Forall not_warehouse evs
    /\ w_reqs w' = (w_reqs w + List.length (PyPI.packages self))%nat.
Proof.
  intros Hoff.
  destruct (pypi_extract_offline self
              (emit (EvLog INFO "Starting PyPI data extraction" []) w))
    as (w1 & Hex & Hr); [apply offline_emit; exact Hoff | ].
  destruct (extract_all_emits _ _ _ _ (get_package_info_emits self) _ _ _ Hex)
    as (pre & Htr & Hpre).
  rewrite (pypi_run_no_data self w w1 Hex).
  eexists. exists (EvLog INFO "Starting PyPI data extraction" [] :: pre
                   ++ [EvLog WARNING "No data extracted" []]).
  split; [reflexivity | ]. cbn [emit w_trace w_reqs] in *.
  split; [rewrite Htr, <- !app_assoc; reflexivity | ].
  split; [ | exact Hr].
  constructor; [exact I | ]. apply Forall_app. split; [exact Hpre | repeat constructor].
Qed.

(** ** The edges of the warehouse session *)

Lemma drop_logs_within_session name_key data :
  Forall within_session (drop_logs name_key data).
Proof.
  apply Forall_forall. intros e He. apply drop_logs_are_logs in He.
  destruct He as (fmt & args & ->). split; discriminate.
Qed.

(** When [connect] raises there is no connection to roll back or close:
    the loader logs and re-raises. *)
Lemma loader_connect_failure tb record data w msg :
  w_wh w WhConnect = Some msg ->
  exists w',
    save_to_snowflake_on tb (record :: data) w = (Raise (SnowflakeError msg), w')
    /\ w_trace w'
       = w_trace w ++ [EvWh WhConnect;
                       EvLog ERROR "Error saving to Snowflake: {}" [PStr msg]].
Proof.
  intros Hc.
  pose proof (save_to_snowflake_run tb record data w) as Hrun. cbv zeta in Hrun.
  unfold body_outcome in Hrun. rewrite Hc in Hrun.
  eexists. split; [exact Hrun | reflexivity].
Qed.

(** When [conn.cursor()] raises, the connection is rolled back and closed;
    no cursor is closed. *)
Lemma loader_cursor_failure tb record data w msg :
  w_wh w WhConnect = None ->
  w_wh w WhCursor = Some msg ->
  exists r w',
    save_to_snowflake_on tb (record :: data) w = (Raise (SnowflakeError r), w')
    /\ w_trace w'
       = w_trace w ++ [EvWh WhConnect; EvWh WhCursor;
                       EvLog ERROR "Error saving to Snowflake: {}" [PStr msg];
                       EvWh WhRollback; EvWh WhConnClose]
    /\ (w_wh w WhRollback = None -> w_wh w WhConnClose = None -> r = msg).
Proof.
  intros Hc Hcur.
  pose proof (save_to_snowflake_run tb record data w) as Hrun. cbv zeta in Hrun.
  unfold body_outcome in Hrun. rewrite Hc, Hcur in Hrun.
  cbn [load_result cursor_close_raises has_cursor has_conn handler_result] in Hrun.
  destruct (w_wh w WhConnClose) as [m | ] eqn:Hcc.
  - eexists; eexists. split; [exact Hrun | ]. split; [reflexivity | ].
    intros _ H. discriminate H.
  - destruct (w_wh w WhRollback) as [m | ] eqn:Hrb.
    + eexists; eexists. split; [exact Hrun | ]. split.
      * cbn. unfold finally_events, cursor_close_raises. cbn. reflexivity.
      * intros H. discriminate H.
    + eexists; eexists. split; [exact Hrun | ]. split.
      * cbn. unfold finally_events, cursor_close_raises. cbn. reflexivity.
      * reflexivity.
Qed.

Lemma body_events_head tb rows logs o :
  Forall within_session logs ->
  exists rest, body_events tb rows logs o = EvWh WhConnect :: rest
               /\ Forall within_session rest.
Proof.
  intros Hl.
  assert (Hs : forall evs, Forall within_session evs ->
                           Forall within_session (logs ++ evs))
    by (intros evs H; apply Forall_app; split; assumption).
  destruct o as [[ | | | | | | ] msg | | ]; cbn [body_events open_session List.app];
    (eexists; split; [reflexivity | ]);
    repeat first [ apply Hs | constructor; [split; discriminate | ] | constructor ].
Qed.

Lemma handler_events_within_session o : Forall within_session (handler_events o).
Proof.
  destruct o as [st msg | | ]; cbn [handler_events]; [ | constructor | constructor].
  constructor; [split; discriminate | ].
  destruct (has_conn (Failed st msg)); repeat constructor; discriminate.
Qed.

Lemma body_outcome_has_conn tb wh rows :
  wh WhConnect = None -> has_conn (body_outcome tb wh rows) = true.
Proof.
  intros H. unfold body_outcome. rewrite H.
  repeat match goal with
         | |- context [match wh ?c with _ => _ end] => destruct (wh c)
         | |- context [match rows with _ => _ end] => destruct rows
         end; reflexivity.
Qed.

Lemma body_outcome_has_cursor tb wh rows :
  wh WhConnect = None ->
  has_cursor (body_outcome tb wh rows) = match wh WhCursor with None => true | Some _ => false end.
Proof.
  intros H. unfold body_outcome. rewrite H.
  destruct (wh WhCursor); [reflexivity | ].
  repeat match goal with
         | |- context [match wh ?c with _ => _ end] => destruct (wh c)
         | |- context [match rows with _ => _ end] => destruct rows
         end; reflexivity.
Qed.

(** Every session that opens is closed, once, and last -- on every path,
    the failures of the load among them -- provided closing the cursor does
    not itself raise. *)
Lemma loader_closes_connection tb record data w :
  w_wh w WhConnect = None ->
  (w_wh w WhCursor = None -> w_wh w WhCursorClose = None) ->
  exists mid,
    w_trace (snd (save_to_snowflake_on tb (record :: data) w))
    = w_trace w ++ EvWh WhConnect :: mid ++ [EvWh WhConnClose]
    /\ Forall within_session mid.
Proof.
  intros Hc Hcc.
  pose proof (save_to_snowflake_run tb record data w) as Hrun. cbv zeta in Hrun.
  rewrite Hrun. clear Hrun. cbn [snd w_trace].
  set (rows := staged (name_key tb) (w_clock w) (w_ticks w) (record :: data)).
  set (o := body_outcome tb (w_wh w) rows).
  destruct (body_events_head tb rows (drop_logs (name_key tb) (record :: data)) o
              (drop_logs_within_session _ _)) as (rest & Hb & Hrest).
  pose proof (body_outcome_has_conn tb (w_wh w) rows Hc) as Hconn.
  pose proof (body_outcome_has_cursor tb (w_wh w) rows Hc) as Hcur.
  fold o in Hconn, Hcur.
  exists (rest ++ handler_events o ++ (if has_cursor o then [EvWh WhCursorClose] else [])).
  split.
  - unfold load_events. rewrite Hb. unfold finally_events, cursor_close_raises.
    rewrite Hconn.
    assert (Hclose : (if has_cursor o then w_wh w WhCursorClose else None) = None).
    { rewrite Hcur. destruct (w_wh w WhCursor); [reflexivity | apply Hcc; reflexivity]. }
    rewrite Hclose. cbn [List.app]. rewrite <- !app_assoc. reflexivity.
  - apply Forall_app. split; [exact Hrest | ].
    apply Forall_app. split; [apply handler_events_within_session | ].
    destruct (has_cursor o); repeat constructor; discriminate.
Qed.

(** When closing the cursor raises, the connection is never closed, and the
    caller sees the error of the close -- whatever the body did. *)
Lemma loader_cursor_close_failure tb record data w msg :
  w_wh w WhConnect = None ->
  w_wh w WhCursor = None ->
  w_wh w WhCursorClose = Some msg ->
  exists w' evs,
    save_to_snowflake_on tb (record :: data) w = (Raise (SnowflakeError msg), w')
    /\ w_trace w' = w_trace w ++ EvWh WhConnect :: evs ++ [EvWh WhCursorClose]
    /\ Forall within_session evs.
Proof.
  intros Hc Hcur Hcc.
  pose proof (save_to_snowflake_run tb record data w) as Hrun. cbv zeta in Hrun.
  set (rows := staged (name_key tb) (w_clock w) (w_ticks w) (record :: data)) in *.
  set (o := body_outcome tb (w_wh w) rows) in *.
  destruct (body_events_head tb rows (drop_logs (name_key tb) (record :: data)) o
              (drop_logs_within_session _ _)) as (rest & Hb & Hrest).
  pose proof (body_outcome_has_cursor tb (w_wh w) rows Hc) as Hhc.
  fold o in Hhc. rewrite Hcur in Hhc.
  eexists. exists (rest ++ handler_events o).
  split; [ | split].
  - rewrite Hrun. unfold load_result, cursor_close_raises. rewrite Hhc, Hcc. reflexivity.
  - cbn [w_trace]. unfold load_events, finally_events, cursor_close_raises.
    rewrite Hb, Hhc, Hcc. cbn [List.app]. rewrite <- !app_assoc. reflexivity.
  - apply Forall_app. split; [exact Hrest | apply handler_events_within_session].
Qed.

(** So a load can commit and still raise: every call returns but the close
    of the cursor. *)
(** ** What a fetch asks and what it builds *)

(** *** Inversion of the steps of a fetch *)

Lemma lift_Ok {A} (r : Result A) w a w' : lift r w = (Ok a, w') -> r = Ok a /\ w' = w.
Proof. unfold lift. intros H. inversion H. split; reflexivity. Qed.

Lemma ret_Ok {A} (a b : A) w w' : ret a w = (Ok b, w') -> b = a /\ w' = w.
Proof. unfold ret. intros H. inversion H. split; reflexivity. Qed.

Lemma logger_Ok lvl fmt args w u w' :
  logger lvl fmt args w = (Ok u, w') -> w' = emit (EvLog lvl fmt args) w.
Proof. unfold logger. intros H. inversion H. reflexivity. Qed.

Lemma time_sleep_Ok n w u w' : time_sleep n w = (Ok u, w') -> w' = emit (EvSleep n) w.
Proof. unfold time_sleep. intros H. inversion H. reflexivity. Qed.

Lemma datetime_now_world w t w' :
  datetime_now w = (Ok t, w') ->
  t = w_clock w (w_ticks w)
  /\ w' = mk_world (w_http w) (w_reqs w) (w_clock w) (S (w_ticks w)) (w_wh w)
                   (w_conn w) (w_cursor w) (w_trace w).
Proof. unfold datetime_now. intros H. inversion H. split; reflexivity. Qed.

(** Reads the facts off the hypotheses that say a step returned. *)
Ltac step_facts :=
  repeat match goal with
         | H : lift _ _ = (Ok _, _) |- _ =>
             apply lift_Ok in H; destruct H as [H ->]
         | H : ret _ _ = (Ok _, _) |- _ =>
             apply ret_Ok in H; destruct H as [-> ->]
         | H : logger _ _ _ _ = (Ok _, _) |- _ =>
             apply logger_Ok in H; subst
         | H : time_sleep _ _ = (Ok _, _) |- _ =>
             apply time_sleep_Ok in H; subst
         | H : requests_get _ _ _ = (Ok _, _) |- _ =>
             apply requests_get_Ok in H; destruct H as [H ->]
         | H : raise_for_status _ _ _ = (Ok _, _) |- _ =>
             apply raise_for_status_Ok in H; destruct H as [H ->]
         | H : response_json _ _ = (Ok _, _) |- _ =>
             apply response_json_Ok in H; destruct H as [H ->]
         | H : datetime_now _ = (Ok _, _) |- _ =>
             apply datetime_now_world in H; destruct H as [-> ->]
         end.

Lemma get_repo_data_Some self repo w d w1 :
  GitHub.get_repo_data self repo w = (Ok (Some d), w1) ->
  GitHub.get_repo_data_body self repo w = (Ok (Some d), w1).
Proof.
  unfold GitHub.get_repo_data, try_except.
  destruct (GitHub.get_repo_data_body self repo w) as [[r | e] w2]; [auto | ].
  destruct (is_RequestException e); discriminate.
Qed.

Lemma get_package_info_Some self package w d w1 :
  PyPI.get_package_info self package w = (Ok (Some d), w1) ->
  PyPI.get_package_info_body self package w = (Ok (Some d), w1).
Proof.
  unfold PyPI.get_package_info, try_except.
  destruct (PyPI.get_package_info_body self package w) as [[r | e] w2]; [auto | ].
  destruct (is_RequestException e); discriminate.
Qed.

Lemma silent_ret {A} (a : A) : silent (ret a).
Proof. intros w r w' H. inversion H. reflexivity. Qed.

Lemma silent_raise {A} e : silent (@raise A e).
Proof. intros w r w' H. inversion H. reflexivity. Qed.

Lemma silent_lift {A} (x : Result A) : silent (lift x).
Proof. intros w r w' H. inversion H. reflexivity. Qed.

Lemma silent_response_json r : silent (response_json r).
Proof.
  intros w x w' H. unfold response_json in H.
  destruct (json_body r); inversion H; reflexivity.
Qed.

Lemma silent_bind {A B} (m : M A) (f : A -> M B) :
  silent m -> (forall a, silent (f a)) -> silent (bind m f).
Proof.
  intros Hm Hf w r w' H. unfold bind in H.
  destruct (m w) as [[a | e] w1] eqn:E.
  - rewrite <- (Hm _ _ _ E). exact (Hf a _ _ _ H).
  - inversion H; subst. exact (Hm _ _ _ E).
Qed.

Lemma silent_if {A} (b : bool) (m1 m2 : M A) :
  silent m1 -> silent m2 -> silent (if b then m1 else m2).
Proof. destruct b; auto. Qed.

Ltac quiet :=
  repeat first
    [ apply silent_ret | apply silent_raise | apply silent_lift
    | apply silent_response_json
    | apply silent_bind; [ | intro ]
    | apply silent_if
    | progress unfold PyPI.recent, PyPI.first_file ].

(** The steps that return in the world they were taken in. *)
Ltac silent_facts :=
  repeat match goal with
         | H : ?m ?wi = (Ok _, ?wj) |- _ =>
             is_var wj;
             let F := fresh "F" in
             assert (F : silent m) by quiet;
             apply F in H; subst wj; clear F
         end.

(** The same, keeping the hypothesis. *)
Ltac silent_world H :=
  match type of H with
  | ?m ?wi = (_, ?wj) =>
      let F := fresh "F" in
      let E := fresh "E" in
      assert (F : silent m) by quiet;
      pose proof (F _ _ _ H) as E; clear F
  end.

Lemma github_fetch_trace self repo w d w1 :
  GitHub.get_repo_data self repo w = (Ok (Some d), w1) ->
  exists r1,
    w_http w (w_reqs w) (repo_url self repo) = HttpResp r1
    /\ w_trace w1 = w_trace w ++ github_fetch_events self repo (status_code r1 =? 403)
    /\ w_reqs w1 = (w_reqs w + (if (status_code r1 =? 403)%Z then 4 else 3))%nat
    /\ w_ticks w1 = S (w_ticks w).
Proof.
  intros H. apply get_repo_data_Some in H.
  unfold GitHub.get_repo_data_body in H.
  do 4 bind_inv H. step_facts. exists a. split; [exact Ha | ].
  repeat bind_inv H. step_facts.
  unfold github_fetch_events, repo_url, contributors_url, releases_url.
  destruct (status_code a =? 403).
  - repeat bind_inv Ha0. step_facts. silent_facts.
    cbn -[String.append]. rewrite <- !app_assoc. cbn -[String.append].
    repeat split; try reflexivity; lia.
  - step_facts. silent_facts.
    cbn -[String.append]. rewrite <- !app_assoc. cbn -[String.append].
    repeat split; try reflexivity; lia.
Qed.

Lemma pypi_fetch_trace self package w d w1 :
  PyPI.get_package_info self package w = (Ok (Some d), w1) ->
  w_trace w1 = w_trace w ++ pypi_fetch_events self package
  /\ w_reqs w1 = (w_reqs w + 2)%nat
  /\ w_ticks w1 = S (w_ticks w).
Proof.
  intros H. apply get_package_info_Some in H.
  unfold PyPI.get_package_info_body in H.
  do 5 bind_inv H. repeat bind_inv H. step_facts.
  unfold pypi_fetch_events, package_url, recent_url.
  silent_facts.
  cbn -[String.append]. rewrite <- !app_assoc. cbn -[String.append].
  repeat split; try reflexivity; lia.
Qed.

Lemma py_get_Ok v k default a :
  py_get v k default = Ok a -> exists d, v = PDict d /\ a = dict_get d k default.
Proof.
  destruct v; cbn; intros H; try discriminate. inversion H. eauto.
Qed.

(** [repo_data.get("license", {}).get("name") if repo_data.get("license") else None] *)
Lemma license_name rd w a w' :
  (c <- lift (py_get (PDict rd) "license" PNone) ;;
   if truthy c then
     l <- lift (py_get (PDict rd) "license" (PDict [])) ;;
     lift (py_get l "name" PNone)
   else ret PNone) w = (Ok a, w') ->
  a = match dict_get rd "license" PNone with
      | PDict l => dict_get l "name" PNone
      | _ => PNone
      end.
Proof.
  intros H. bind_inv H. step_facts. cbn [py_get] in Ha. inversion Ha; subst a0. clear Ha.
  destruct (truthy (dict_get rd "license" PNone)) eqn:Ht.
  - bind_inv H. step_facts. cbn [py_get] in Ha. inversion Ha; subst a0. clear Ha.
    apply py_get_Ok in H. destruct H as (l & Hl & ->).
    unfold dict_get in *. destruct (dict_lookup "license" rd) as [x | ].
    + subst x. reflexivity.
    + discriminate Ht.
  - step_facts. destruct (dict_get rd "license" PNone) as [ | | | | | | l | ]; try reflexivity.
    destruct l; [reflexivity | discriminate Ht].
Qed.

Lemma github_record_content self repo w d w1 :
  GitHub.get_repo_data self repo w = (Ok (Some d), w1) ->
  exists r rd rc rr n m latest,
    primary_answer self repo w = Some r
    /\ json_body r = Some (PDict rd)
    /\ w_http w (w_reqs w + primary_requests self repo w)%nat (contributors_url self repo)
       = HttpResp rc
    /\ w_http w (w_reqs w + primary_requests self repo w + 1)%nat (releases_url self repo)
       = HttpResp rr
    /\ contributors_counted rc n
    /\ releases_listed rr m latest
    /\ d = github_record repo rd n m latest (w_clock w (w_ticks w)).
Proof.
  intros H. apply get_repo_data_Some in H.
  unfold GitHub.get_repo_data_body in H.
  do 4 bind_inv H. step_facts.
  assert (Hprim : primary_answer self repo w = Some a0
                  /\ w_http w2 = w_http w /\ w_clock w2 = w_clock w
                  /\ w_ticks w2 = w_ticks w
                  /\ w_reqs w2 = (w_reqs w + primary_requests self repo w)%nat).
  { unfold primary_answer, primary_requests, repo_url. rewrite Ha.
    destruct (status_code a =? 403).
    - repeat bind_inv Ha0. step_facts. cbn [w_http w_reqs emit] in Ha0. rewrite Ha0.
      cbn. repeat split; try reflexivity. lia.
    - step_facts. cbn. repeat split; try reflexivity. lia. }
  destruct Hprim as (Hprim & Hh & Hc & Ht & Hr). clear Ha Ha0.
  repeat bind_inv H. step_facts.
  apply py_get_Ok in Ha5. destruct Ha5 as (rd & -> & ->).
  cbn [py_get] in *.
  repeat match goal with
         | E : Ok (dict_get rd _ _) = Ok ?x |- _ => inversion E; subst x; clear E
         end.
  apply license_name in Ha20 as Hlic. subst a22.
  silent_world Ha0. silent_world Ha4. silent_world Ha18. silent_world Ha20.
  assert (Hcount : contributors_counted a3 a4).
  { unfold contributors_counted. destruct (status_code a3 =? 200).
    - bind_inv Ha0. step_facts. eauto.
    - step_facts. reflexivity. }
  assert (Hrel : releases_listed a5 a19 a20).
  { unfold releases_listed. exists a6. split; [ | split; [exact Ha17 | ]].
    - destruct (status_code a5 =? 200); step_facts; [exact Ha4 | reflexivity].
    - destruct (truthy a6); step_facts; [exact Ha18 | reflexivity]. }
  clear Ha0 Ha4 Ha18 Ha20.
  subst w21 w19 w5 w3. cbn [w_http w_reqs w_clock w_ticks] in *.
  apply ret_Ok in H. destruct H as [Hd _]. inversion Hd; subst d. clear Hd.
  rewrite Hh, Hr in Ha. rewrite Hh, Hr in Ha3.
  exists a0, rd, a3, a5, a4, a19, a20.
  split; [exact Hprim | ]. split; [exact Ha2 | ]. split; [exact Ha | ].
  split; [rewrite Nat.add_1_r; exact Ha3 | ].
  split; [exact Hcount | split; [exact Hrel | ]].
  rewrite Hc, Ht. reflexivity.
Qed.

Lemma recent_Ok stats_data k w a w' :
  PyPI.recent stats_data k w = (Ok a, w') ->
  exists s data, stats_data = PDict s /\ dict_get s "data" (PDict []) = PDict data
                 /\ a = dict_get data k (PInt 0).
Proof.
  unfold PyPI.recent. intros H. bind_inv H. step_facts.
  apply py_get_Ok in Ha. destruct Ha as (s & -> & ->).
  apply py_get_Ok in H. destruct H as (data & Hd & ->). eauto.
Qed.

Lemma first_file_Ok latest_files k w a w' :
  PyPI.first_file latest_files k w = (Ok a, w') ->
  exists file, py_getitem latest_files (PInt 0) = Ok (PDict file)
               /\ a = dict_get file k PNone.
Proof.
  unfold PyPI.first_file. intros H. bind_inv H. step_facts.
  apply py_get_Ok in H. destruct H as (file & -> & ->). eauto.
Qed.

Lemma pypi_record_content self package w d w1 :
  PyPI.get_package_info self package w = (Ok (Some d), w1) ->
  exists r pd info rs n lri ds,
    w_http w (w_reqs w) (package_url self package) = HttpResp r
    /\ json_body r = Some (PDict pd)
    /\ dict_get pd "info" (PDict []) = PDict info
    /\ py_len (dict_get pd "releases" (PDict [])) = Ok n
    /\ w_http w (S (w_reqs w)) (recent_url self package) = HttpResp rs
    /\ download_stats_of rs ds
    /\ latest_release_info_of (dict_get info "version" PNone)
                              (dict_get pd "releases" (PDict [])) lri
    /\ d = pypi_record package info n lri ds (w_clock w (w_ticks w)).
Proof.
  intros H. apply get_package_info_Some in H.
  unfold PyPI.get_package_info_body in H.
  do 4 bind_inv H. step_facts. cbn [w_http w_reqs] in Ha2.
  apply bind_Ok_inv in H. destruct H as (ds & v5 & Hds & H).
  apply bind_Ok_inv in H. destruct H as (info & v6 & Hinfo & H).
  apply bind_Ok_inv in H. destruct H as (rel & v7 & Hrel & H).
  apply bind_Ok_inv in H. destruct H as (ver & v8 & Hver & H).
  apply bind_Ok_inv in H. destruct H as (listed & v9 & Hhas & H).
  apply bind_Ok_inv in H. destruct H as (lri & v10 & Hlri & H).
  repeat bind_inv H. step_facts.
  apply py_get_Ok in Hinfo. destruct Hinfo as (pd & -> & ->).
  cbn [py_get] in Hrel. injection Hrel as <-.
  apply py_get_Ok in Hver. destruct Hver as (inf & Hinf & ->).
  rewrite Hinf in *. cbn [py_get] in *.
  repeat match goal with
         | E : Ok (dict_get inf _ _) = Ok ?x |- _ => inversion E; subst x; clear E
         end.
  silent_world Hds. silent_world Hhas. silent_world Hlri.
  assert (Hstats : download_stats_of a2 ds).
  { unfold download_stats_of. destruct (status_code a2 =? 200).
    - apply bind_Ok_inv in Hds. destruct Hds as (sd & x1 & Hsd & Hds).
      apply bind_Ok_inv in Hds. destruct Hds as (ld & x2 & Hld & Hds).
      apply bind_Ok_inv in Hds. destruct Hds as (lw & x3 & Hlw & Hds).
      apply bind_Ok_inv in Hds. destruct Hds as (lm & x4 & Hlm & Hds).
      apply recent_Ok in Hld, Hlw, Hlm. step_facts.
      destruct Hld as (s1 & d1 & -> & Hd1 & ->).
      destruct Hlw as (s2 & d2 & Hs2 & Hd2 & ->).
      destruct Hlm as (s3 & d3 & Hs3 & Hd3 & ->).
      inversion Hs2; subst s2. inversion Hs3; subst s3.
      rewrite Hd1 in Hd2, Hd3. inversion Hd2; subst d2. inversion Hd3; subst d3.
      exists s1, d1. repeat split; assumption.
    - step_facts. reflexivity. }
  assert (Hlatest : latest_release_info_of (dict_get inf "version" PNone)
                                           (dict_get pd "releases" (PDict [])) lri).
  { unfold latest_release_info_of. destruct (truthy (dict_get inf "version" PNone)).
    - step_facts. exists listed. split; [exact Hhas | ].
      destruct listed.
      + apply bind_Ok_inv in Hlri. destruct Hlri as (files & y1 & Hfiles & Hlri).
        step_facts. exists files. split; [exact Hfiles | ].
        destruct (truthy files).
        * apply bind_Ok_inv in Hlri. destruct Hlri as (ut & y2 & Hut & Hlri).
          apply bind_Ok_inv in Hlri. destruct Hlri as (pv & y3 & Hpv & Hlri).
          apply bind_Ok_inv in Hlri. destruct Hlri as (sz & y4 & Hsz & Hlri).
          apply bind_Ok_inv in Hlri. destruct Hlri as (fn & y5 & Hfn & Hlri).
          apply first_file_Ok in Hut, Hpv, Hsz, Hfn. step_facts.
          destruct Hut as (f1 & Hf1 & ->).
          destruct Hpv as (f2 & Hf2 & ->).
          destruct Hsz as (f3 & Hf3 & ->).
          destruct Hfn as (f4 & Hf4 & ->).
          rewrite Hf1 in Hf2, Hf3, Hf4.
          inversion Hf2; subst f2. inversion Hf3; subst f3. inversion Hf4; subst f4.
          exists f1. split; [exact Hf1 | reflexivity].
        * step_facts. reflexivity.
      + step_facts. reflexivity.
    - step_facts. step_facts. reflexivity. }
  clear Hds Hhas Hlri. subst. cbn [w_clock w_ticks] in H.
  apply ret_Ok in H. destruct H as [Hd _]. inversion Hd; subst d. clear Hd.
  exists a, pd, inf, a2. eexists. exists lri, ds.
  unfold package_url, recent_url.
  repeat (split; [eassumption | ]).
  unfold download_stats_of in Hstats. destruct (status_code a2 =? 200).
  - destruct Hstats as (s1 & d1 & _ & _ & ->). reflexivity.
  - subst ds. reflexivity.
Qed.

(** *** A secondary call that fails on the wire *)

Lemma github_contributors_offline self repo w r1 v msg :
  w_http w (w_reqs w) (repo_url self repo) = HttpResp r1 ->
  status_code r1 <> 403 ->
  http_refused (HttpResp r1) = false ->
  json_body r1 = Some v ->
  w_http w (S (w_reqs w)) (contributors_url self repo) = HttpFail msg ->
  exists w',
    GitHub.get_repo_data self repo w = (Ok None, w')
    /\ w_trace w'
       = w_trace w
         ++ [EvGet (repo_url self repo) (GitHub.headers self);
             EvGet (contributors_url self repo) (GitHub.headers self);
             EvLog ERROR "Error fetching data for {}: {}" [PStr repo; PStr msg]].
Proof.
  unfold repo_url, contributors_url, http_refused. intros H1 Hst Hok Hjson H2.
  apply Z.eqb_neq in Hst.
  unfold GitHub.get_repo_data, GitHub.get_repo_data_body.
  rewrite try_except_bind. unfold requests_get at 1. rewrite H1.
  rewrite try_except_bind. rewrite Hst. unfold ret at 1.
  rewrite try_except_bind. unfold raise_for_status. rewrite Hok. unfold ret at 1.
  rewrite try_except_bind. unfold response_json at 1. rewrite Hjson. unfold ret at 1.
  rewrite try_except_bind. unfold requests_get at 1. cbn [w_http w_reqs]. rewrite H2.
  cbn -[String.append]. unfold ret, emit. cbn -[String.append].
  eexists. split; [reflexivity | ]. cbn -[String.append].
  rewrite <- !app_assoc. reflexivity.
Qed.

Lemma pypi_stats_offline self package w r1 v msg :
  w_http w (w_reqs w) (package_url self package) = HttpResp r1 ->
  http_refused (HttpResp r1) = false ->
  json_body r1 = Some v ->
  w_http w (S (w_reqs w)) (recent_url self package) = HttpFail msg ->
  exists w',
    PyPI.get_package_info self package w = (Ok None, w')
    /\ w_trace w'
       = w_trace w
         ++ [EvGet (package_url self package) [];
             EvGet (recent_url self package) [];
             EvLog ERROR "Error fetching data for {}: {}" [PStr package; PStr msg]].
Proof.
  unfold package_url, recent_url, http_refused. intros H1 Hok Hjson H2.
  unfold PyPI.get_package_info, PyPI.get_package_info_body.
  rewrite try_except_bind. unfold requests_get at 1. rewrite H1.
  rewrite try_except_bind. unfold raise_for_status. rewrite Hok. unfold ret at 1.
  rewrite try_except_bind. unfold response_json at 1. rewrite Hjson. unfold ret at 1.
  rewrite try_except_bind. unfold requests_get at 1. cbn [w_http w_reqs]. rewrite H2.
  cbn -[String.append]. unfold ret, emit. cbn -[String.append].
  eexists. split; [reflexivity | ]. cbn -[String.append].
  rewrite <- !app_assoc. reflexivity.
Qed.

(** ** The gate and the text it lets through *)

(** *** What the gate lets through *)

Lemma all_ok_Forall2 {A} (rs : list (Result A)) l :
  all_ok rs = Ok l -> Forall2 (fun r a => r = Ok a) rs l.
Proof.
  revert l. induction rs as [ | [a | e] rs IH]; intros l H; cbn in H.
  - inversion H. constructor.
  - destruct (all_ok rs) as [l' | ]; [ | discriminate]. inversion H; subst.
    constructor; [reflexivity | apply IH; reflexivity].
  - discriminate.
Qed.

Lemma all_ok_returns {A} (rs : list (Result A)) :
  Forall (fun r => exists a, r = Ok a) rs -> exists l, all_ok rs = Ok l.
Proof.
  induction 1 as [ | r rs [a ->] _ [l IH]]; cbn; [eauto | ].
  rewrite IH. eauto.
Qed.

Lemma json_dumps_serializable v :
  (exists s, json_dumps v = Ok s) <-> serializable v = true.
Proof.
  induction v as [ | b | z | str | l IH | l IH | d IH | t ] using PyVal_nested_ind;
    cbn [json_dumps serializable];
    try (split; [reflexivity | eauto]).
  - split.
    + intros [s H]. destruct (all_ok (map json_dumps l)) as [items | ] eqn:E; [ | discriminate].
      apply all_ok_Forall2 in E. clear H.
      revert items E. induction IH as [ | x l Hx _ IHl]; intros items E; [reflexivity | ].
      inversion E; subst. cbn. rewrite (proj1 Hx) by eauto.
      eapply IHl. eassumption.
    + intros H. assert (Hall : Forall (fun r => exists a, r = Ok a) (map json_dumps l)).
      { induction IH as [ | x l Hx _ IHl]; [constructor | ].
        cbn in H. apply andb_true_iff in H. destruct H as [H1 H2].
        constructor; [apply Hx; exact H1 | apply IHl; exact H2]. }
      destruct (all_ok_returns _ Hall) as [items ->]. eauto.
  - split.
    + intros [s H]. destruct (all_ok (map json_dumps l)) as [items | ] eqn:E; [ | discriminate].
      apply all_ok_Forall2 in E. clear H.
      revert items E. induction IH as [ | x l Hx _ IHl]; intros items E; [reflexivity | ].
      inversion E; subst. cbn. rewrite (proj1 Hx) by eauto.
      eapply IHl. eassumption.
    + intros H. assert (Hall : Forall (fun r => exists a, r = Ok a) (map json_dumps l)).
      { induction IH as [ | x l Hx _ IHl]; [constructor | ].
        cbn in H. apply andb_true_iff in H. destruct H as [H1 H2].
        constructor; [apply Hx; exact H1 | apply IHl; exact H2]. }
      destruct (all_ok_returns _ Hall) as [items ->]. eauto.
  - fold dumps_member. split.
    + intros [s H]. destruct (all_ok (map dumps_member d)) as [items | ] eqn:E; [ | discriminate].
      apply all_ok_Forall2 in E. clear H.
      revert items E. induction IH as [ | [k x] d Hx _ IHl]; intros items E; [reflexivity | ].
      inversion E; subst. cbn [forallb snd]. cbn [snd] in Hx.
      rewrite (proj1 Hx).
      * eapply IHl. eassumption.
      * unfold dumps_member in H1.
        destruct (json_dumps x); [eauto | discriminate].
    + intros H. assert (Hall : Forall (fun r => exists a, r = Ok a) (map dumps_member d)).
      { induction IH as [ | [k x] d Hx _ IHl]; [constructor | ].
        cbn in H. apply andb_true_iff in H. destruct H as [H1 H2].
        constructor; [ | apply IHl; exact H2].
        cbn [snd] in Hx. destruct (proj2 Hx H1) as [sx Hsx].
        unfold dumps_member. rewrite Hsx. eauto. }
      destruct (all_ok_returns _ Hall) as [items ->]. eauto.
  - split; [intros [s H]; discriminate | discriminate].
Qed.

(** The [json.loads] of the gate rejects nothing [json.dumps] wrote. *)
Lemma passes_gate_serializable record :
  well_formed (PDict record) = true ->
  passes_gate record = serializable (PDict record).
Proof.
  intros Hwf. unfold passes_gate, gate.
  destruct (json_dumps (PDict record)) as [s | e] eqn:E.
  - rewrite (json_loads_dumps _ _ Hwf E).
    symmetry. apply json_dumps_serializable. eauto.
  - symmetry. destruct (serializable (PDict record)) eqn:Hs; [ | reflexivity].
    apply json_dumps_serializable in Hs. destruct Hs as [s Hs]. congruence.
Qed.

(** *** The text is printable ASCII *)

Lemma all_printable_app a b :
  all_printable (a ++ b)%string = all_printable a && all_printable b.
Proof.
  induction a as [ | c a IH]; cbn; [reflexivity | ].
  rewrite IH, andb_assoc. reflexivity.
Qed.

Lemma all_printable_concat sep items :
  all_printable sep = true ->
  Forall (fun s => all_printable s = true) items ->
  all_printable (String.concat sep items) = true.
Proof.
  intros Hsep. induction 1 as [ | s items Hs Hitems IH]; [reflexivity | ].
  destruct items as [ | t items]; cbn [String.concat]; [exact Hs | ].
  rewrite !all_printable_app, Hs, Hsep. exact IH.
Qed.

Lemma all_printable_uint d : all_printable (NilEmpty.string_of_uint d) = true.
Proof. induction d; cbn; auto. Qed.

Lemma all_printable_str_of_Z z : all_printable (str_of_Z z) = true.
Proof.
  unfold str_of_Z.
  assert (H : forall d, all_printable (NilZero.string_of_uint d) = true).
  { intros d. destruct d; try reflexivity; apply (all_printable_uint (_ d)). }
  destruct (Z.to_int z) as [d | d]; cbn [NilZero.string_of_int]; [apply H | ].
  cbn [all_printable]. rewrite H. reflexivity.
Qed.

Lemma all_printable_escape_char c : all_printable (json_escape_char c) = true.
Proof. destruct c as [[] [] [] [] [] [] [] []]; reflexivity. Qed.

Lemma all_printable_escape s : all_printable (json_escape s) = true.
Proof.
  induction s as [ | c s IH]; cbn [json_escape]; [reflexivity | ].
  rewrite all_printable_app, all_printable_escape_char, IH. reflexivity.
Qed.

Lemma all_printable_quote s : all_printable (json_quote s) = true.
Proof.
  unfold json_quote. cbn [all_printable].
  rewrite all_printable_app, all_printable_escape. reflexivity.
Qed.

Lemma all_printable_dumps v : forall s, json_dumps v = Ok s -> all_printable s = true.
Proof.
  induction v as [ | b | z | str | l IH | l IH | d IH | t ] using PyVal_nested_ind;
    intros s; cbn [json_dumps]; intros H.
  - inversion H. reflexivity.
  - inversion H. destruct b; reflexivity.
  - inversion H. apply all_printable_str_of_Z.
  - inversion H. apply all_printable_quote.
  - destruct (all_ok (map json_dumps l)) as [items | ] eqn:E; inversion H.
    cbn [append all_printable]. rewrite all_printable_app.
    rewrite all_printable_concat; [reflexivity | reflexivity | ].
    apply all_ok_Forall2 in E. clear H H1.
    revert items E. induction IH as [ | x l Hx _ IHl]; intros items E;
      inversion E; subst; constructor; eauto.
  - destruct (all_ok (map json_dumps l)) as [items | ] eqn:E; inversion H.
    cbn [append all_printable]. rewrite all_printable_app.
    rewrite all_printable_concat; [reflexivity | reflexivity | ].
    apply all_ok_Forall2 in E. clear H H1.
    revert items E. induction IH as [ | x l Hx _ IHl]; intros items E;
      inversion E; subst; constructor; eauto.
  - fold dumps_member in H.
    destruct (all_ok (map dumps_member d)) as [items | ] eqn:E; inversion H.
    cbn [append all_printable]. rewrite all_printable_app.
    rewrite all_printable_concat; [reflexivity | reflexivity | ].
    apply all_ok_Forall2 in E. clear H H1.
    revert items E. induction IH as [ | [k x] d Hx _ IHl]; intros items E;
      inversion E as [ | r y rs ys Hy Hrest]; subst; constructor; [ | eauto].
    unfold dumps_member in Hy. cbn [snd] in Hx.
    destruct (json_dumps x) as [sx | ]; inversion Hy.
    cbn [all_printable]. rewrite !all_printable_app, all_printable_escape.
    cbn [all_printable]. rewrite (Hx sx eq_refl). reflexivity.
  - discriminate.
Qed.

Lemma staged_printable name_key clock data : forall tick,
  Forall (fun row : Row => all_printable (snd row) = true) (staged name_key clock tick data).
Proof.
  induction data as [ | record data IH]; intros tick; cbn [staged]; [constructor | ].
  destruct (dict_truthy record); [ | apply IH].
  destruct (gate record) as [json_str | e] eqn:Eg; [ | apply IH].
  constructor; [ | apply IH]. cbn [snd].
  apply gate_passed in Eg. destruct Eg as [Hd _].
  eapply all_printable_dumps. exact Hd.
Qed.

(** *** Records made of JSON's own values *)

Lemma json_native_serializable v : json_native v = true -> serializable v = true.
Proof.
  induction v as [ | b | z | str | l IH | l IH | d IH | t ] using PyVal_nested_ind;
    cbn [json_native serializable]; intros H; try reflexivity; try discriminate.
  - induction IH as [ | x l Hx _ IHl]; [reflexivity | ].
    cbn in *. apply andb_true_iff in H. destruct H as [H1 H2].
    rewrite (Hx H1), (IHl H2). reflexivity.
  - apply andb_true_iff in H. destruct H as [_ H].
    induction IH as [ | [k x] d Hx _ IHl]; [reflexivity | ].
    cbn in *. apply andb_true_iff in H. destruct H as [H1 H2].
    rewrite (Hx H1), (IHl H2). reflexivity.
Qed.

Lemma json_native_lookup d k v :
  json_native (PDict d) = true -> dict_lookup k d = Some v -> json_native v = true.
Proof.
  cbn [json_native]. intros H. apply andb_true_iff in H. destruct H as [_ H].
  induction d as [ | [k' x] d IH]; cbn [dict_lookup]; [discriminate | ].
  cbn in H. apply andb_true_iff in H. destruct H as [H1 H2].
  destruct (String.eqb k k'); [intros E; inversion E; subst; exact H1 | apply IH; exact H2].
Qed.

Lemma json_native_dict_get d k default :
  json_native (PDict d) = true -> json_native default = true ->
  json_native (dict_get d k default) = true.
Proof.
  intros Hd Hdef. unfold dict_get.
  destruct (dict_lookup k d) as [v | ] eqn:E; [ | exact Hdef].
  eapply json_native_lookup; eassumption.
Qed.

Lemma json_native_getitem v i x :
  json_native v = true -> py_getitem v i = Ok x -> json_native x = true.
Proof.
  intros Hv H. destruct v as [ | b | z | s | l | l | d | t]; cbn in H; try discriminate.
  - destruct (py_as_index i); [ | discriminate].
    destruct (str_index s z); inversion H. reflexivity.
  - destruct (py_as_index i) as [z | ]; [ | discriminate].
    unfold seq_index in H.
    destruct (if z <? 0 then z + Z.of_nat (List.length l) else z) as [ | p | p] eqn:Ej;
      cbn in H.
    + destruct l as [ | y l]; cbn in H; [discriminate | ].
      inversion H; subst. cbn in Hv. apply andb_true_iff in Hv. apply Hv.
    + destruct (Z.pos p <? Z.of_nat (List.length l)); [ | discriminate].
      destruct (nth_error l (Pos.to_nat p)) as [y | ] eqn:En; inversion H; subst.
      apply nth_error_In in En. cbn in Hv. rewrite forallb_forall in Hv. apply Hv, En.
    + discriminate.
  - destruct (hashable i); [ | discriminate].
    destruct i; try discriminate.
    destruct (dict_lookup s d) as [y | ] eqn:El; inversion H; subst.
    eapply json_native_lookup; eassumption.
Qed.

Lemma json_native_record d :
  keys_distinct (map fst d) = true ->
  Forall (fun kv => json_native (snd kv) = true) d ->
  json_native (PDict d) = true.
Proof.
  intros Hk Hv. cbn [json_native]. rewrite Hk. cbn [andb].
  apply forallb_forall. rewrite Forall_forall in Hv. exact Hv.
Qed.

Lemma primary_answer_sent self repo w r :
  primary_answer self repo w = Some r ->
  exists n url, w_http w n url = HttpResp r.
Proof.
  unfold primary_answer.
  destruct (w_http w (w_reqs w) (repo_url self repo)) as [m | r1] eqn:E1; [discriminate | ].
  destruct (status_code r1 =? 403).
  - destruct (w_http w (S (w_reqs w)) (repo_url self repo)) as [m | r2] eqn:E2;
      [discriminate | ].
    intros H. inversion H; subst. eauto.
  - intros H. inversion H; subst. eauto.
Qed.

Ltac native :=
  repeat first
    [ reflexivity
    | assumption
    | apply json_native_dict_get ].

Lemma github_record_native self repo w d w1 :
  json_bodies w ->
  GitHub.get_repo_data self repo w = (Ok (Some d), w1) ->
  json_native (PDict d) = true.
Proof.
  intros Hjb H.
  destruct (github_record_content _ _ _ _ _ H)
    as (r & rd & rc & rr & n & m & latest & Hprim & Hbody & Hc & Hrr & Hcount & Hrel & ->).
  destruct (primary_answer_sent _ _ _ _ Hprim) as (k & url & Hsent).
  pose proof (Hjb _ _ _ _ Hsent Hbody) as Hrd.
  assert (Hlatest : json_native latest = true).
  { destruct Hrel as (releases & Hsrc & _ & Hl).
    assert (Hn : json_native releases = true).
    { destruct (status_code rr =? 200); [exact (Hjb _ _ _ _ Hrr Hsrc) | subst; reflexivity]. }
    destruct (truthy releases); [ | subst; reflexivity].
    eapply json_native_getitem; eassumption. }
  assert (Hlic : json_native (match dict_get rd "license" PNone with
                              | PDict l => dict_get l "name" PNone
                              | _ => PNone
                              end) = true).
  { assert (Hl : json_native (dict_get rd "license" PNone) = true) by native.
    destruct (dict_get rd "license" PNone); try reflexivity. native. }
  apply json_native_record; [reflexivity | ].
  unfold github_record. repeat (constructor; [cbn [snd]; native | ]). constructor.
Qed.

Lemma pypi_record_native self package w d w1 :
  json_bodies w ->
  PyPI.get_package_info self package w = (Ok (Some d), w1) ->
  json_native (PDict d) = true.
Proof.
  intros Hjb H.
  destruct (pypi_record_content _ _ _ _ _ H)
    as (r & pd & info & rs & n & lri & ds & Hsent & Hbody & Hinfo & Hlen & Hstat
        & Hds & Hlri & ->).
  pose proof (Hjb _ _ _ _ Hsent Hbody) as Hpd.
  assert (Hinf : json_native (PDict info) = true).
  { rewrite <- Hinfo. native. }
  assert (Hrel : json_native (dict_get pd "releases" (PDict [])) = true) by native.
  assert (Hl : json_native (PDict lri) = true).
  { unfold latest_release_info_of in Hlri.
    destruct (truthy (dict_get info "version" PNone)); [ | subst; reflexivity].
    destruct Hlri as (listed & _ & Hlri). destruct listed; [ | subst; reflexivity].
    destruct Hlri as (files & Hfiles & Hlri).
    pose proof (json_native_getitem _ _ _ Hrel Hfiles) as Hf.
    destruct (truthy files); [ | subst; reflexivity].
    destruct Hlri as (file & Hfile & ->).
    pose proof (json_native_getitem _ _ _ Hf Hfile) as Hfd.
    apply json_native_record; [reflexivity | ].
    unfold file_info. repeat (constructor; [cbn [snd]; native | ]). constructor. }
  unfold download_stats_of in Hds. destruct (status_code rs =? 200).
  - destruct Hds as (sd & data & Hsb & Hdata & ->).
    pose proof (Hjb _ _ _ _ Hstat Hsb) as Hsd.
    assert (Hd : json_native (PDict data) = true) by (rewrite <- Hdata; native).
    apply json_native_record; [reflexivity | ].
    unfold pypi_record. cbn [List.app].
    repeat (constructor; [cbn [snd]; native | ]). constructor.
  - subst ds. apply json_native_record; [reflexivity | ].
    unfold pypi_record. cbn [List.app].
    repeat (constructor; [cbn [snd]; native | ]). constructor.
Qed.

(** A record made of JSON's own values goes through the gate. *)
Lemma json_native_accepted record :
  record <> [] -> json_native (PDict record) = true -> accepted record = true.
Proof.
  intros Hne Hn. unfold accepted.
  destruct (json_native_norm _ Hn) as [_ Hwf].
  rewrite (passes_gate_serializable _ Hwf), (json_native_serializable _ Hn).
  destruct record; [congruence | reflexivity].
Qed.

Lemma keeps_http_silent {A} (m : M A) : silent m -> keeps_http m.
Proof. intros H w r w' E. rewrite (H _ _ _ E). reflexivity. Qed.

Lemma keeps_http_logger lvl fmt args : keeps_http (logger lvl fmt args).
Proof. intros w r w' H. inversion H. reflexivity. Qed.

Lemma keeps_http_sleep n : keeps_http (time_sleep n).
Proof. intros w r w' H. inversion H. reflexivity. Qed.

Lemma keeps_http_now : keeps_http datetime_now.
Proof. intros w r w' H. inversion H. reflexivity. Qed.

Lemma keeps_http_requests_get url hs : keeps_http (requests_get url hs).
Proof.
  intros w r w' H. unfold requests_get in H.
  destruct (w_http w (w_reqs w) url); inversion H; reflexivity.
Qed.

Lemma keeps_http_raise_for_status url r : keeps_http (raise_for_status url r).
Proof.
  intros w x w' H. unfold raise_for_status in H.
  destruct ((400 <=? status_code r) && (status_code r <? 600))%bool; inversion H; reflexivity.
Qed.

Lemma keeps_http_bind {A B} (m : M A) (f : A -> M B) :
  keeps_http m -> (forall a, keeps_http (f a)) -> keeps_http (bind m f).
Proof.
  intros Hm Hf w r w' H. unfold bind in H.
  destruct (m w) as [[a | e] w1] eqn:E.
  - rewrite (Hf a _ _ _ H). exact (Hm _ _ _ E).
  - inversion H; subst. exact (Hm _ _ _ E).
Qed.

Lemma keeps_http_try_except {A} (m : M A) (h : Exn -> M A) :
  keeps_http m -> (forall e, keeps_http (h e)) -> keeps_http (try_except m h).
Proof.
  intros Hm Hh w r w' H. unfold try_except in H.
  destruct (m w) as [[a | e] w1] eqn:E.
  - inversion H; subst. exact (Hm _ _ _ E).
  - rewrite (Hh e _ _ _ H). exact (Hm _ _ _ E).
Qed.

Lemma keeps_http_if {A} (b : bool) (m1 m2 : M A) :
  keeps_http m1 -> keeps_http m2 -> keeps_http (if b then m1 else m2).
Proof. destruct b; auto. Qed.

Ltac kept :=
  repeat first
    [ apply keeps_http_logger | apply keeps_http_sleep | apply keeps_http_now
    | apply keeps_http_requests_get | apply keeps_http_raise_for_status
    | apply keeps_http_bind; [ | intro ]
    | apply keeps_http_try_except; [ | intro ]
    | apply keeps_http_if
    | apply keeps_http_silent; quiet
    | progress unfold PyPI.recent, PyPI.first_file ].

Lemma get_repo_data_keeps_http self repo : keeps_http (GitHub.get_repo_data self repo).
Proof. unfold GitHub.get_repo_data, GitHub.get_repo_data_body. kept. Qed.

Lemma get_package_info_keeps_http self package :
  keeps_http (PyPI.get_package_info self package).
Proof. unfold PyPI.get_package_info, PyPI.get_package_info_body. kept. Qed.

Lemma json_bodies_http w w' : w_http w' = w_http w -> json_bodies w -> json_bodies w'.
Proof. intros E H n url r v. rewrite E. apply H. Qed.

(** Of a pass over services that answer JSON, every record goes through
    the gate. *)
Lemma Pass_accepted fetch entities w rs w' :
  (forall entity, keeps_http (fetch entity)) ->
  (forall entity w d w1, json_bodies w -> fetch entity w = (Ok (Some d), w1) ->
                         d <> [] /\ json_native (PDict d) = true) ->
  Pass fetch entities w rs w' ->
  json_bodies w ->
  Forall (fun d => accepted d = true) (successes rs).
Proof.
  intros Hk Hn HP. induction HP as [ | entity entities w r w1 rs w2 Hf HP IH]; intros Hjb.
  - constructor.
  - assert (Hjb0 : json_bodies (emit (EvLog INFO "Extracting data for {}" [PStr entity]) w))
      by (eapply json_bodies_http; [ | exact Hjb]; reflexivity).
    assert (Hjb1 : json_bodies (emit (EvSleep 1) w1)).
    { eapply json_bodies_http; [ | exact Hjb0]. cbn [emit w_http]. exact (Hk _ _ _ _ Hf). }
    destruct r as [d | ]; cbn [successes]; [ | exact (IH Hjb1)].
    constructor; [ | exact (IH Hjb1)].
    destruct (Hn _ _ _ _ Hjb0 Hf) as [Hne Hnat].
    apply json_native_accepted; assumption.
Qed.

Lemma filter_all {A} (f : A -> bool) l :
  Forall (fun x => f x = true) l -> filter f l = l.
Proof. induction 1 as [ | x l Hx _ IH]; cbn; [reflexivity | rewrite Hx, IH; reflexivity]. Qed.

Lemma drop_logs_accepted name_key data :
  Forall (fun d => accepted d = true) data -> drop_logs name_key data = [].
Proof.
  induction 1 as [ | d data Hd _ IH]; cbn [drop_logs]; [reflexivity | ].
  unfold accepted, passes_gate in Hd. apply andb_true_iff in Hd. destruct Hd as [Ht Hg].
  rewrite Ht. destruct (gate d); [exact IH | discriminate Hg].
Qed.

Lemma github_batch_accepted self w batch w1 :
  json_bodies w ->
  GitHub.extract_all_repositories self w = (Ok batch, w1) ->
  Forall (fun d => accepted d = true) batch.
Proof.
  intros Hjb H.
  destruct (extract_all_pass "Starting extraction for {} repositories"
              "Extraction completed. {} repositories processed successfully"
              (GitHub.get_repo_data self) (GitHub.repositories self) w
              (get_repo_data_never_raises self)
              (fun e w d w' H => proj2 (github_record_name self e w d w' H)))
    as (rs & w2 & HP & Hrun).
  unfold GitHub.extract_all_repositories in H. rewrite Hrun in H. inversion H; subst batch.
  eapply Pass_accepted; [apply get_repo_data_keeps_http | | exact HP | ].
  - intros repo w0 d w3 Hjb0 Hf. split.
    + destruct (github_record_name _ _ _ _ _ Hf) as [_ Ht]. destruct d; [discriminate | congruence].
    + eapply github_record_native; eassumption.
  - eapply json_bodies_http; [ | exact Hjb]. reflexivity.
Qed.

Lemma pypi_batch_accepted self w batch w1 :
  json_bodies w ->
  PyPI.extract_all_packages self w = (Ok batch, w1) ->
  Forall (fun d => accepted d = true) batch.
Proof.
  intros Hjb H.
  destruct (extract_all_pass "Starting extraction for {} packages"
              "Extraction completed. {} packages processed successfully"
              (PyPI.get_package_info self) (PyPI.packages self) w
              (get_package_info_never_raises self)
              (fun e w d w' H => proj2 (pypi_record_name self e w d w' H)))
    as (rs & w2 & HP & Hrun).
  unfold PyPI.extract_all_packages in H. rewrite Hrun in H. inversion H; subst batch.
  eapply Pass_accepted; [apply get_package_info_keeps_http | | exact HP | ].
  - intros package w0 d w3 Hjb0 Hf. split.
    + destruct (pypi_record_name _ _ _ _ _ Hf) as [_ Ht]. destruct d; [discriminate | congruence].
    + eapply pypi_record_native; eassumption.
  - eapply json_bodies_http; [ | exact Hjb]. reflexivity.
Qed.

(** ** The tasks of the DAG *)

Lemma skipn_length_app {A} (t l : list A) : skipn (List.length t) (t ++ l) = l.
Proof. rewrite skipn_app, Nat.sub_diag, skipn_all. reflexivity. Qed.

Lemma new_events_app w w' evs : w_trace w' = w_trace w ++ evs -> new_events w w' = evs.
Proof. unfold new_events. intros ->. apply skipn_length_app. Qed.

Ltac task_unfold :=
  unfold task_try_finally, task_bind, task_ret, task_raise, task_lift, print, task_emit,
    cursor_fetchone, in_world, new_events,
    get_snowflake_connection, conn_cursor, cursor_execute, cursor_close, conn_close,
    wh_call, bind, ret, emit.

Ltac task_step :=
  cbn [tw_world tw_environ tw_rows tw_fetched tw_chdir tw_procs tw_spawned tw_trace
       w_http w_reqs w_clock w_ticks w_wh w_conn w_cursor w_trace map fst snd];
  rewrite ?skipn_length_app;
  cbn [tw_world tw_environ tw_rows tw_fetched tw_chdir tw_procs tw_spawned tw_trace
       w_http w_reqs w_clock w_ticks w_wh w_conn w_cursor w_trace map fst snd].

Lemma py_getitem_first x l : py_getitem (PTuple (x :: l)) (PInt 0) = Ok x.
Proof.
  unfold py_getitem, py_as_index, seq_index. cbn [List.length Z.ltb Z.compare].
  rewrite Nat2Z.inj_succ.
  destruct (Z.ltb_spec 0 (Z.succ (Z.of_nat (List.length l)))) as [_ | H]; [reflexivity | lia].
Qed.

Lemma validate_verdict_rows tw g p rest_g rest_p :
  (forall c, w_wh (tw_world tw) c = None) ->
  tw_rows tw (tw_fetched tw) = Ok (PTuple (g :: rest_g)) ->
  tw_rows tw (S (tw_fetched tw)) = Ok (PTuple (p :: rest_p)) ->
  exists tw',
    Dag.validate_raw_data tw
    = (if py_eq g (PInt 0) || py_eq p (PInt 0)
       then Raised (PyExn (ValueError "No data found for today's extraction"))
       else Returned (PDict [("github_count", g); ("pypi_count", p)]), tw')
    /\ tw_trace tw'
       = tw_trace tw
         ++ [TEv (EvWh WhConnect); TEv (EvWh WhCursor);
             TEv (EvWh (WhExecute Dag.github_count_query)); TFetchone;
             TEv (EvWh (WhExecute Dag.pypi_count_query)); TFetchone;
             TPrint "Data validation results:" [];
             TPrint "- GitHub repos extracted today: {}" [g];
             TPrint "- PyPI packages extracted today: {}" [p];
             TEv (EvWh WhCursorClose); TEv (EvWh WhConnClose)].
Proof.
  intros Hwh Hg Hp.
  unfold Dag.validate_raw_data, Dag.validate_body. task_unfold.
  repeat (task_step; rewrite ?Hwh, ?Hg, ?Hp, ?py_getitem_first).
  destruct (py_eq g (PInt 0) || py_eq p (PInt 0));
    repeat (task_step; rewrite ?Hwh);
    (eexists; split; [reflexivity | ]); task_step; rewrite <- !app_assoc; reflexivity.
Qed.

(** An empty result set: [fetchone()] is [None], and [None[0]] raises. *)
Lemma validate_no_row tw :
  (forall c, w_wh (tw_world tw) c = None) ->
  tw_rows tw (tw_fetched tw) = Ok PNone ->
  exists tw',
    Dag.validate_raw_data tw
    = (Raised (PyExn (TypeError "'NoneType' object is not subscriptable")), tw')
    /\ tw_trace tw'
       = tw_trace tw
         ++ [TEv (EvWh WhConnect); TEv (EvWh WhCursor);
             TEv (EvWh (WhExecute Dag.github_count_query)); TFetchone;
             TEv (EvWh WhCursorClose); TEv (EvWh WhConnClose)].
Proof.
  intros Hwh Hg.
  unfold Dag.validate_raw_data, Dag.validate_body. task_unfold.
  repeat (task_step; rewrite ?Hwh, ?Hg).
  cbn [py_getitem type_name].
  repeat (task_step; rewrite ?Hwh).
  eexists; split; [reflexivity | ]. task_step. rewrite <- !app_assoc. reflexivity.
Qed.

(** The connection and the cursor are made outside the [try]: when
    [conn.cursor()] raises, nothing closes the connection. *)
Lemma validate_cursor_failure tw msg :
  w_wh (tw_world tw) WhConnect = None ->
  w_wh (tw_world tw) WhCursor = Some msg ->
  exists tw',
    Dag.validate_raw_data tw = (Raised (PyExn (SnowflakeError msg)), tw')
    /\ tw_trace tw' = tw_trace tw ++ [TEv (EvWh WhConnect); TEv (EvWh WhCursor)].
Proof.
  intros Hc Hcur.
  unfold Dag.validate_raw_data. task_unfold.
  repeat (task_step; rewrite ?Hc, ?Hcur).
  eexists; split; [reflexivity | ]. task_step. rewrite <- !app_assoc. reflexivity.
Qed.

Lemma validate_connect_failure tw msg :
  w_wh (tw_world tw) WhConnect = Some msg ->
  exists tw',
    Dag.validate_raw_data tw = (Raised (PyExn (SnowflakeError msg)), tw')
    /\ tw_trace tw' = tw_trace tw ++ [TEv (EvWh WhConnect)].
Proof.
  intros Hc.
  unfold Dag.validate_raw_data. task_unfold.
  repeat (task_step; rewrite ?Hc).
  eexists; split; [reflexivity | ]. task_step. reflexivity.
Qed.

Lemma task_emits_only_ret {A} P (a : A) : task_emits_only P (task_ret a).
Proof.
  intros tw r tw' H. inversion H; subst. split; [reflexivity | ].
  exists []. rewrite app_nil_r. auto.
Qed.

Lemma task_emits_only_raise {A} P e : task_emits_only P (@task_raise A e).
Proof.
  intros tw r tw' H. inversion H; subst. split; [reflexivity | ].
  exists []. rewrite app_nil_r. auto.
Qed.

Lemma task_emits_only_lift {A} P (x : Result A) : task_emits_only P (task_lift x).
Proof.
  intros tw r tw' H. unfold task_lift in H. destruct x; inversion H; subst;
    (split; [reflexivity | ]); exists []; rewrite app_nil_r; auto.
Qed.

Lemma task_emits_only_print (P : TaskEvent -> Prop) fmt args :
  P (TPrint fmt args) -> task_emits_only P (print fmt args).
Proof.
  intros HP tw r tw' H. inversion H; subst. split; [reflexivity | ].
  exists [TPrint fmt args]. split; [reflexivity | auto].
Qed.

Lemma task_emits_only_fetchone (P : TaskEvent -> Prop) cursor :
  P TFetchone -> task_emits_only P (cursor_fetchone cursor).
Proof.
  intros HP tw r tw' H. unfold cursor_fetchone in H.
  destruct (tw_rows tw (tw_fetched tw)); inversion H; subst;
    (split; [reflexivity | ]); exists [TFetchone]; (split; [reflexivity | auto]).
Qed.

Lemma task_emits_only_wh_call (P : TaskEvent -> Prop) c :
  P (TEv (EvWh c)) -> task_emits_only P (in_world (wh_call c)).
Proof.
  intros HP tw r tw' H. unfold in_world, wh_call, new_events, emit in H.
  destruct (w_wh (tw_world tw) c); inversion H; subst; cbn;
    (split; [reflexivity | ]); rewrite skipn_length_app;
    exists [TEv (EvWh c)]; (split; [reflexivity | auto]).
Qed.

Lemma task_emits_only_bind {A B} P (m : Task A) (f : A -> Task B) :
  task_emits_only P m -> (forall a, task_emits_only P (f a)) ->
  task_emits_only P (task_bind m f).
Proof.
  intros Hm Hf tw r tw' H. unfold task_bind in H.
  destruct (m tw) as [[a | e] tw1] eqn:E.
  - destruct (Hm _ _ _ E) as (Hw1 & evs1 & Ht1 & HP1).
    destruct (Hf a _ _ _ H) as (Hw2 & evs2 & Ht2 & HP2).
    split; [congruence | ]. exists (evs1 ++ evs2).
    rewrite Ht2, Ht1, app_assoc. split; [reflexivity | apply Forall_app; auto].
  - inversion H; subst. exact (Hm _ _ _ E).
Qed.

Lemma task_emits_only_if {A} P (b : bool) (m1 m2 : Task A) :
  task_emits_only P m1 -> task_emits_only P m2 ->
  task_emits_only P (if b then m1 else m2).
Proof. destruct b; auto. Qed.

Lemma validate_body_steps cursor : task_emits_only validate_step (Dag.validate_body cursor).
Proof.
  unfold Dag.validate_body, cursor_execute.
  repeat first
    [ apply task_emits_only_bind; [ | intro ]
    | apply task_emits_only_if
    | apply task_emits_only_wh_call; cbn; auto
    | apply task_emits_only_fetchone; exact I
    | apply task_emits_only_print; exact I
    | apply task_emits_only_lift
    | apply task_emits_only_ret
    | apply task_emits_only_raise ].
Qed.

(** Once the cursor exists, whatever the body does, the [finally] closes
    the cursor and then -- unless that close raised -- the connection; in
    between, the task has only run its two queries, read rows and
    printed. *)
Lemma validate_closes tw :
  w_wh (tw_world tw) WhConnect = None ->
  w_wh (tw_world tw) WhCursor = None ->
  exists mid,
    tw_trace (snd (Dag.validate_raw_data tw))
    = tw_trace tw ++ [TEv (EvWh WhConnect); TEv (EvWh WhCursor)] ++ mid
      ++ TEv (EvWh WhCursorClose)
         :: match w_wh (tw_world tw) WhCursorClose with
            | None => [TEv (EvWh WhConnClose)]
            | Some _ => []
            end
    /\ Forall validate_step mid.
Proof.
  intros Hc Hcur.
  unfold Dag.validate_raw_data.
  unfold task_bind at 1. unfold in_world at 1, get_snowflake_connection, wh_call, bind, ret.
  rewrite Hc. task_step. unfold new_events, emit. task_step.
  unfold task_bind at 1. unfold in_world at 1, conn_cursor, wh_call, bind, ret.
  task_step. rewrite Hcur. task_step. unfold new_events, emit. task_step.
  unfold task_try_finally.
  match goal with
  | |- context [Dag.validate_body ?c ?t] =>
      destruct (Dag.validate_body c t) as [r tw3] eqn:E;
      destruct (validate_body_steps _ _ _ _ E) as (Hwh & mid & Htr & Hmid)
  end.
  cbn [tw_world w_wh tw_trace] in Hwh, Htr.
  exists mid. split; [ | exact Hmid].
  unfold task_bind, in_world, cursor_close, conn_close, wh_call, new_events, emit.
  rewrite Hwh.
  destruct (w_wh (tw_world tw) WhCursorClose); task_step.
  - rewrite Htr, <- !app_assoc. reflexivity.
  - destruct (w_wh (tw_world tw) WhConnClose); task_step;
      rewrite Htr, <- !app_assoc; reflexivity.
Qed.

(** A computation of the extractors whose trace grows by [evs], run in a
    task. *)
Lemma in_world_run {A} (m : M A) tw evs :
  w_trace (snd (m (tw_world tw))) = w_trace (tw_world tw) ++ evs ->
  in_world m tw
  = (match fst (m (tw_world tw)) with
     | Ok a => Returned a
     | Raise e => Raised (PyExn e)
     end,
     mk_task_world (snd (m (tw_world tw))) (tw_environ tw) (tw_rows tw) (tw_fetched tw)
                   (tw_chdir tw) (tw_procs tw) (tw_spawned tw)
                   (tw_trace tw ++ map TEv evs)).
Proof.
  intros Htr. unfold in_world. destruct (m (tw_world tw)) as [r w'] eqn:E.
  cbn [fst snd] in *. rewrite (new_events_app _ _ _ Htr). destruct r; reflexivity.
Qed.

Lemma extract_github_data_run tw evs :
  let self := GitHub.init (os_getenv (tw_environ tw) "GITHUB_TOKEN") in
  w_trace (snd (GitHub.run self (tw_world tw))) = w_trace (tw_world tw) ++ evs ->
  exists tw',
    Dag.extract_github_data tw
    = (match fst (GitHub.run self (tw_world tw)) with
       | Ok _ => Returned (PInt 10)
       | Raise e => Raised (PyExn e)
       end, tw')
    /\ tw_trace tw'
       = tw_trace tw
         ++ TPrint "Starting GitHub data extraction for {} technologies" [PInt 10]
            :: map TEv evs
         ++ match fst (GitHub.run self (tw_world tw)) with
            | Ok _ => [TPrint "Successfully completed GitHub data extraction" []]
            | Raise _ => []
            end.
Proof.
  intros self Htr. unfold Dag.extract_github_data.
  unfold task_bind at 1. unfold os_environ at 1. fold self.
  unfold task_bind at 1. unfold print at 1.
  unfold task_bind at 1.
  rewrite (in_world_run (GitHub.run self) _ evs) by exact Htr.
  cbn [task_emit tw_world] in *.
  destruct (fst (GitHub.run self (tw_world tw))) as [v | e].
  - eexists. split; [reflexivity | ]. cbn. rewrite <- !app_assoc. reflexivity.
  - eexists. split; [reflexivity | ]. cbn. rewrite <- !app_assoc, app_nil_r. reflexivity.
Qed.

Lemma extract_pypi_data_run tw evs :
  w_trace (snd (PyPI.run PyPI.init (tw_world tw))) = w_trace (tw_world tw) ++ evs ->
  exists tw',
    Dag.extract_pypi_data tw
    = (match fst (PyPI.run PyPI.init (tw_world tw)) with
       | Ok _ => Returned (PInt 10)
       | Raise e => Raised (PyExn e)
       end, tw')
    /\ tw_trace tw'
       = tw_trace tw
         ++ TPrint "Starting PyPI data extraction for {} packages" [PInt 10]
            :: map TEv evs
         ++ match fst (PyPI.run PyPI.init (tw_world tw)) with
            | Ok _ => [TPrint "Successfully completed PyPI data extraction" []]
            | Raise _ => []
            end.
Proof.
  intros Htr. unfold Dag.extract_pypi_data.
  unfold task_bind at 1. unfold print at 1.
  unfold task_bind at 1.
  rewrite (in_world_run (PyPI.run PyPI.init) _ evs) by exact Htr.
  cbn [task_emit tw_world] in *.
  destruct (fst (PyPI.run PyPI.init (tw_world tw))) as [v | e].
  - eexists. split; [reflexivity | ]. cbn. rewrite <- !app_assoc. reflexivity.
  - eexists. split; [reflexivity | ]. cbn. rewrite <- !app_assoc, app_nil_r. reflexivity.
Qed.

(** *** [check_dbt_models] *)

Lemma task_world_eq tw tw' :
  tw_world tw = tw_world tw' -> tw_environ tw = tw_environ tw' ->
  tw_rows tw = tw_rows tw' -> tw_fetched tw = tw_fetched tw' ->
  tw_chdir tw = tw_chdir tw' -> tw_procs tw = tw_procs tw' ->
  tw_spawned tw = tw_spawned tw' -> tw_trace tw = tw_trace tw' -> tw = tw'.
Proof. destruct tw, tw'; simpl; intros; subst; reflexivity. Qed.

Lemma returns_zero_tail tw env args commands i :
  returns_zero tw env (args :: commands) (S i) ->
  returns_zero (spawn_and_emit 1 [TSubprocess args env] tw) env commands i.
Proof.
  intros (result & H & Hz). exists result. split; [ | exact Hz].
  cbn [spawn_and_emit tw_procs tw_spawned nth] in *.
  replace (tw_spawned tw + 1 + i)%nat with (tw_spawned tw + S i)%nat by lia. exact H.
Qed.

Lemma subprocess_run_eq args env tw :
  subprocess_run args env tw
  = (match tw_procs tw (tw_spawned tw) args env with
     | ProcFail msg => Raised (OSError msg)
     | ProcDone result => Returned result
     end, spawn_and_emit 1 [TSubprocess args env] tw).
Proof.
  unfold subprocess_run, spawn_and_emit. rewrite Nat.add_1_r.
  destruct (tw_procs tw (tw_spawned tw) args env); reflexivity.
Qed.

Lemma spawn_and_emit_twice n m evs evs' tw :
  spawn_and_emit n evs (spawn_and_emit m evs' tw) = spawn_and_emit (m + n) (evs' ++ evs) tw.
Proof.
  apply task_world_eq; cbn; try reflexivity; [lia | apply eq_sym, app_assoc].
Qed.

(** When every command returns 0, the loop runs them all, in order. *)
Lemma run_commands_all env : forall commands tw,
  (forall i, (i < List.length commands)%nat -> returns_zero tw env commands i) ->
  Dag.run_commands env commands tw
  = (Returned tt,
     spawn_and_emit (List.length commands) (map (fun args => TSubprocess args env) commands) tw).
Proof.
  induction commands as [ | args commands IH]; intros tw H.
  - cbn. unfold task_ret. f_equal. apply task_world_eq; cbn; auto using app_nil_r.
  - cbn [Dag.run_commands]. unfold task_bind at 1. rewrite subprocess_run_eq.
    destruct (H 0%nat) as (result & Hp & Hz); [cbn; lia | ].
    rewrite Nat.add_0_r in Hp. cbn [nth] in Hp. rewrite Hp, Hz. cbn [Z.eqb negb].
    rewrite IH.
    + rewrite spawn_and_emit_twice. reflexivity.
    + intros i Hi. apply returns_zero_tail. apply H. cbn. lia.
Qed.

(** The loop stops at the first command that does not return 0: it prints
    the report and raises; the commands after it are not started. *)
Lemma run_commands_stops env : forall ok tw args rest,
  (forall i, (i < List.length ok)%nat -> returns_zero tw env ok i) ->
  Dag.run_commands env (ok ++ args :: rest) tw
  = match tw_procs tw (tw_spawned tw + List.length ok)%nat args env with
    | ProcFail msg =>
        (Raised (OSError msg),
         spawn_and_emit (List.length ok + 1)
                        (map (fun a => TSubprocess a env) (ok ++ [args])) tw)
    | ProcDone result =>
        if returncode result =? 0 then
          Dag.run_commands env rest
            (spawn_and_emit (List.length ok + 1)
                            (map (fun a => TSubprocess a env) (ok ++ [args])) tw)
        else
          (Raised (RuntimeError "dbt command failed"),
           spawn_and_emit (List.length ok + 1)
                          (map (fun a => TSubprocess a env) (ok ++ [args])
                           ++ failure_report args result) tw)
    end.
Proof.
  induction ok as [ | c ok IH]; intros tw args rest H.
  - cbn [List.app List.length Dag.run_commands map]. rewrite Nat.add_0_r.
    unfold task_bind at 1. rewrite subprocess_run_eq.
    destruct (tw_procs tw (tw_spawned tw) args env) as [msg | result]; [reflexivity | ].
    destruct (returncode result =? 0); cbn [negb]; [reflexivity | ].
    unfold task_bind, print, task_raise, failure_report. cbn.
    f_equal. apply task_world_eq; cbn; try reflexivity.
    rewrite <- !app_assoc. reflexivity.
  - cbn [List.app Dag.run_commands]. unfold task_bind at 1. rewrite subprocess_run_eq.
    destruct (H 0%nat) as (result & Hp & Hz); [cbn; lia | ].
    rewrite Nat.add_0_r in Hp. cbn [nth] in Hp. rewrite Hp, Hz. cbn [Z.eqb negb].
    rewrite IH.
    + cbn [spawn_and_emit tw_procs tw_spawned List.length].
      replace (tw_spawned tw + 1 + List.length ok)%nat
        with (tw_spawned tw + S (List.length ok))%nat by lia.
      destruct (tw_procs tw (tw_spawned tw + S (List.length ok))%nat args env)
        as [msg | res]; [ | destruct (returncode res =? 0)];
        rewrite ?spawn_and_emit_twice; reflexivity.
    + intros i Hi. apply returns_zero_tail. apply H. cbn. lia.
Qed.

Lemma run_commands_returned env : forall commands tw u tw',
  Dag.run_commands env commands tw = (Returned u, tw') ->
  forall i, (i < List.length commands)%nat -> returns_zero tw env commands i.
Proof.
  induction commands as [ | args commands IH]; intros tw u tw' H i Hi.
  - cbn in Hi. lia.
  - cbn [Dag.run_commands] in H. unfold task_bind at 1 in H.
    rewrite subprocess_run_eq in H.
    destruct (tw_procs tw (tw_spawned tw) args env) as [msg | result] eqn:Hp;
      [discriminate H | ].
    destruct (returncode result =? 0) eqn:Hz; cbn [negb] in H; [ | discriminate H].
    destruct i as [ | i].
    + exists result. rewrite Nat.add_0_r. split; [exact Hp | apply Z.eqb_eq; exact Hz].
    + destruct (IH _ _ _ H i) as (res & Hres & Hres0); [cbn in Hi; lia | ].
      exists res. split; [ | exact Hres0].
      cbn [spawn_and_emit tw_procs tw_spawned nth] in *.
      replace (tw_spawned tw + S i)%nat with (tw_spawned tw + 1 + i)%nat by lia. exact Hres.
Qed.

Lemma os_chdir_eq path tw :
  os_chdir path tw
  = (match tw_chdir tw path with
     | Some msg => Raised (OSError msg)
     | None => Returned tt
     end, task_emit (TChdir path) tw).
Proof. unfold os_chdir. destruct (tw_chdir tw path); reflexivity. Qed.

Lemma check_dbt_models_returns tw v :
  fst (Dag.check_dbt_models tw) = Returned v
  <-> v = PBool true
      /\ tw_chdir tw Dag.DBT_DIR = None
      /\ forall i, (i < List.length Dag.dbt_commands)%nat ->
                   returns_zero tw (Dag.DBT_ENV (tw_environ tw)) Dag.dbt_commands i.
Proof.
  unfold Dag.check_dbt_models. unfold task_bind at 1. rewrite os_chdir_eq.
  destruct (tw_chdir tw Dag.DBT_DIR) as [msg | ] eqn:Hcd.
  - cbn [fst]. split; [discriminate | intros (_ & H & _); discriminate H].
  - unfold task_bind at 1. unfold os_environ at 1. cbn [task_emit tw_environ].
    unfold task_bind at 1.
    destruct (Dag.run_commands _ Dag.dbt_commands _) as [[u | e] tw1] eqn:Hrun.
    + unfold task_bind, print, task_ret. cbn [fst]. split.
      * intros H. inversion H. split; [reflexivity | split; [reflexivity | ]].
        intros i Hi. exact (run_commands_returned _ _ _ _ _ Hrun i Hi).
      * intros (-> & _ & _). reflexivity.
    + cbn [fst]. split; [discriminate | ].
      intros (_ & _ & H). rewrite run_commands_all in Hrun; [discriminate Hrun | exact H].
Qed.

Lemma check_dbt_models_stops tw ok args rest result :
  Dag.dbt_commands = ok ++ args :: rest ->
  tw_chdir tw Dag.DBT_DIR = None ->
  (forall i, (i < List.length ok)%nat ->
             returns_zero tw (Dag.DBT_ENV (tw_environ tw)) ok i) ->
  tw_procs tw (tw_spawned tw + List.length ok)%nat args (Dag.DBT_ENV (tw_environ tw))
  = ProcDone result ->
  returncode result <> 0 ->
  Dag.check_dbt_models tw
  = (Raised (RuntimeError "dbt command failed"),
     spawn_and_emit (List.length ok + 1)
       (TChdir Dag.DBT_DIR
          :: map (fun a => TSubprocess a (Dag.DBT_ENV (tw_environ tw))) (ok ++ [args])
          ++ failure_report args result) tw).
Proof.
  intros Hcmd Hcd Hok Hp Hnz.
  unfold Dag.check_dbt_models. unfold task_bind at 1. rewrite os_chdir_eq, Hcd.
  unfold task_bind at 1. unfold os_environ at 1. cbn [task_emit tw_environ].
  unfold task_bind at 1. rewrite Hcmd.
  rewrite run_commands_stops by exact Hok.
  cbn [task_emit tw_procs tw_spawned]. rewrite Hp.
  apply Z.eqb_neq in Hnz. rewrite Hnz.
  f_equal. apply task_world_eq; cbn; try reflexivity.
  rewrite <- !app_assoc. reflexivity.
Qed.

Lemma check_dbt_models_no_directory tw msg :
  tw_chdir tw Dag.DBT_DIR = Some msg ->
  Dag.check_dbt_models tw
  = (Raised (OSError msg), task_emit (TChdir Dag.DBT_DIR) tw).
Proof.
  intros Hcd. unfold Dag.check_dbt_models. unfold task_bind at 1.
  rewrite os_chdir_eq, Hcd. reflexivity.
Qed.

(** *** [DBT_ENV] *)

Lemma environ_lookup_set_same k v env : environ_lookup k (environ_set k v env) = Some v.
Proof.
  induction env as [ | [k' v'] env IH]; cbn.
  - rewrite String.eqb_refl. reflexivity.
  - destruct (String.eqb k k') eqn:E; cbn; rewrite E; [reflexivity | exact IH].
Qed.

Lemma environ_lookup_set_other k k' v env :
  k <> k' -> environ_lookup k (environ_set k' v env) = environ_lookup k env.
Proof.
  intros Hne. induction env as [ | [k2 v2] env IH]; cbn.
  - apply String.eqb_neq in Hne. rewrite Hne. reflexivity.
  - destruct (String.eqb k' k2) eqn:E; cbn.
    + apply String.eqb_eq in E. subst k2.
      apply String.eqb_neq in Hne. rewrite Hne. reflexivity.
    + rewrite IH. reflexivity.
Qed.

Lemma map_fst_environ_set_in k v env :
  environ_lookup k env <> None -> map fst (environ_set k v env) = map fst env.
Proof.
  induction env as [ | [k' v'] env IH]; cbn; [congruence | ].
  destruct (String.eqb k k') eqn:E; cbn; [reflexivity | ].
  intros H. rewrite IH by exact H. reflexivity.
Qed.

Lemma DBT_ENV_lookup environ :
  environ_lookup "DBT_PROFILES_DIR" (Dag.DBT_ENV environ) = Some Dag.DBT_DIR
  /\ environ_lookup "PATH" (Dag.DBT_ENV environ)
     = Some ("/home/airflow/.local/bin:" ++ environ_get environ "PATH" "")%string
  /\ forall k, k <> "PATH"%string -> k <> "DBT_PROFILES_DIR"%string ->
               environ_lookup k (Dag.DBT_ENV environ) = environ_lookup k environ.
Proof.
  unfold Dag.DBT_ENV. split; [ | split].
  - rewrite environ_lookup_set_other by discriminate. apply environ_lookup_set_same.
  - rewrite environ_lookup_set_same. unfold environ_get.
    rewrite environ_lookup_set_other by discriminate. reflexivity.
  - intros k H1 H2. rewrite !environ_lookup_set_other by assumption. reflexivity.
Qed.

Lemma scripted_offline clock wh : offline (scripted [] clock wh).
Proof. intros n url. exists "connection refused". destruct n; reflexivity. Qed.

Lemma scripted_json_bodies http clock wh :
  Forall json_outcome http -> json_bodies (scripted http clock wh).
Proof.
  intros H n url r v Hr Hb. cbn [scripted w_http] in Hr.
  destruct (nth_in_or_default n http (HttpFail "connection refused")) as [Hin | Hd].
  - rewrite Forall_forall in H. specialize (H _ Hin). rewrite Hr in H.
    cbn [json_outcome] in H. rewrite Hb in H. exact H.
  - rewrite Hd in Hr. discriminate Hr.
Qed.

Lemma loader_commit_then_close_failure tb record data w msg :
  (forall c, c <> WhCursorClose -> w_wh w c = None) ->
  w_wh w WhCursorClose = Some msg ->
  filter accepted (record :: data) <> [] ->
  exists w' evs,
    save_to_snowflake_on tb (record :: data) w = (Raise (SnowflakeError msg), w')
    /\ w_trace w'
       = w_trace w ++ evs
         ++ [EvWh WhCommit;
             EvLog INFO (saved_fmt tb)
                   [PInt (Z.of_nat (List.length (filter accepted (record :: data))))];
             EvWh WhCursorClose].
Proof.
  intros Hok Hcc Hacc.
  pose proof (save_to_snowflake_run tb record data w) as Hrun. cbv zeta in Hrun.
  set (rows := staged (name_key tb) (w_clock w) (w_ticks w) (record :: data)) in *.
  assert (Hlen : List.length rows = List.length (filter accepted (record :: data))).
  { unfold rows. apply staged_length. }
  assert (Hrows : rows <> []).
  { intros H. rewrite H in Hlen.
    destruct (filter accepted (record :: data)); [congruence | discriminate Hlen]. }
  assert (Ho : body_outcome tb (w_wh w) rows = Saved).
  { unfold body_outcome. rewrite !Hok by discriminate. destruct rows; congruence. }
  rewrite Ho in Hrun. rewrite Hrun.
  eexists. exists (open_session tb ++ drop_logs (name_key tb) (record :: data)
                   ++ [EvWh (WhExecuteMany (temp_insert_query tb) rows);
                       EvWh (WhExecute (final_insert_query tb))]).
  split.
  - unfold load_result, cursor_close_raises. cbn [has_cursor]. rewrite Hcc. reflexivity.
  - cbn [w_trace]. f_equal. unfold load_events, finally_events, cursor_close_raises.
    cbn [body_events handler_events has_cursor]. rewrite Hcc, Hlen.
    rewrite <- !app_assoc. reflexivity.
Qed.

(** ** Further properties of the extractors *)

(** X1.  [run] is the extraction followed by the load.  With a token (and,
    for PyPI, always) the run logs its first line, extracts a batch without
    touching the warehouse, then: with an empty batch it logs the warning
    and returns [None] with no warehouse call; otherwise it makes exactly
    the calls of [save_to_snowflake] on the batch, and returns [None] after
    the closing line when the load returned, or raises the load's exception
    after the error line when it raised. *)
Theorem run_extracts_then_loads :
  (forall self w,
     GitHub.token_missing self = false ->
     run_phases (GitHub.run self) (GitHub.extract_all_repositories self) GitHub.tables
                "Starting GitHub data extraction" "GitHub extraction completed successfully"
                "No data extracted" "GitHub extraction failed: {}" w)
  /\ (forall self w,
        run_phases (PyPI.run self) (PyPI.extract_all_packages self) PyPI.tables
                   "Starting PyPI data extraction" "PyPI extraction completed successfully"
                   "No data extracted" "PyPI extraction failed: {}" w).
Proof.
  split; [exact github_run_phases | exact pypi_run_phases].
Qed.

Lemma run_extracts_then_loads_witness :
  run_phases (GitHub.run gh) (GitHub.extract_all_repositories gh) GitHub.tables
             "Starting GitHub data extraction" "GitHub extraction completed successfully"
             "No data extracted" "GitHub extraction failed: {}" airflow_world.
Proof.
  apply (proj1 run_extracts_then_loads gh airflow_world). reflexivity.
Defined.

(** X2.  With the network down, a run makes one request per catalogued
    entity, never calls the warehouse and returns [None] without raising. *)
Theorem offline_run_skips_warehouse :
  (forall self w,
     GitHub.token_missing self = false -> offline w ->
     exists w' evs,
       GitHub.run self w = (Ok PNone, w')
       /\ w_trace w' = w_trace w ++ evs
       /\ Forall not_warehouse evs
       /\ w_reqs w' = (w_reqs w + List.length (GitHub.repositories self))%nat)
  /\ (forall self w,
        offline w ->
        exists w' evs,
          PyPI.run self w = (Ok PNone, w')
          /\ w_trace w' = w_trace w ++ evs
          /\ Forall not_warehouse evs
          /\ w_reqs w' = (w_reqs w + List.length (PyPI.packages self))%nat).
Proof.
  split; [exact github_run_offline | exact pypi_run_offline].
Qed.

Lemma offline_run_skips_warehouse_witness :
  (exists w' evs,
     GitHub.run gh (scripted [] [] wh_ok) = (Ok PNone, w')
     /\ w_trace w' = w_trace (scripted [] [] wh_ok) ++ evs
     /\ Forall not_warehouse evs
     /\ w_reqs w' = (w_reqs (scripted [] [] wh_ok) + List.length (GitHub.repositories gh))%nat)
  /\ (exists w' evs,
        PyPI.run pypi (scripted [] [] wh_ok) = (Ok PNone, w')
        /\ w_trace w' = w_trace (scripted [] [] wh_ok) ++ evs
        /\ Forall not_warehouse evs
        /\ w_reqs w'
           = (w_reqs (scripted [] [] wh_ok) + List.length (PyPI.packages pypi))%nat).
Proof.
  split.
  - apply (proj1 offline_run_skips_warehouse gh (scripted [] [] wh_ok)).
    + reflexivity.
    + apply scripted_offline.
  - apply (proj2 offline_run_skips_warehouse pypi (scripted [] [] wh_ok)).
    apply scripted_offline.
Defined.

(** X3.  When [connect] raises, the loader logs the error and re-raises it
    with no rollback and nothing to close.  When [conn.cursor()] raises,
    the loader logs the error, rolls back and closes the connection, with no
    cursor to close, and re-raises the error (or the one of the rollback or
    of the close, if one of them raises too). *)
Theorem session_open_failure tb record data w msg :
  (w_wh w WhConnect = Some msg ->
   exists w',
     save_to_snowflake_on tb (record :: data) w = (Raise (SnowflakeError msg), w')
     /\ w_trace w'
        = w_trace w ++ [EvWh WhConnect;
                        EvLog ERROR "Error saving to Snowflake: {}" [PStr msg]])
  /\ (w_wh w WhConnect = None ->
      w_wh w WhCursor = Some msg ->
      exists r w',
        save_to_snowflake_on tb (record :: data) w = (Raise (SnowflakeError r), w')
        /\ w_trace w'
           = w_trace w ++ [EvWh WhConnect; EvWh WhCursor;
                           EvLog ERROR "Error saving to Snowflake: {}" [PStr msg];
                           EvWh WhRollback; EvWh WhConnClose]
        /\ (w_wh w WhRollback = None -> w_wh w WhConnClose = None -> r = msg)).
Proof.
  split.
  - apply loader_connect_failure.
  - apply loader_cursor_failure.
Qed.

Lemma session_open_failure_witness :
  (exists w',
     save_to_snowflake_on GitHub.tables [airflow_record]
       (scripted [] [] (wh_fails is_connect_call "250001: could not connect"))
     = (Raise (SnowflakeError "250001: could not connect"), w')
     /\ w_trace w'
        = [EvWh WhConnect;
           EvLog ERROR "Error saving to Snowflake: {}" [PStr "250001: could not connect"]])
  /\ (exists r w',
        save_to_snowflake_on GitHub.tables [airflow_record]
          (scripted [] [] (wh_fails is_cursor_call "connection is closed"))
        = (Raise (SnowflakeError r), w')
        /\ w_trace w'
           = [EvWh WhConnect; EvWh WhCursor;
              EvLog ERROR "Error saving to Snowflake: {}" [PStr "connection is closed"];
              EvWh WhRollback; EvWh WhConnClose]
        /\ (wh_fails is_cursor_call "connection is closed" WhRollback = None ->
            wh_fails is_cursor_call "connection is closed" WhConnClose = None ->
            r = "connection is closed"%string)).
Proof.
  split.
  - apply (proj1 (session_open_failure GitHub.tables airflow_record []
                    (scripted [] [] (wh_fails is_connect_call "250001: could not connect"))
                    "250001: could not connect")).
    reflexivity.
  - apply (proj2 (session_open_failure GitHub.tables airflow_record []
                    (scripted [] [] (wh_fails is_cursor_call "connection is closed"))
                    "connection is closed")); reflexivity.
Defined.

(** X4.  Once [connect] returned, and unless [cursor.close()] raises, a
    load of a non-empty batch ends, whatever else failed, with
    [conn.close()]: the connection is opened once, first, and closed once,
    last. *)
Theorem connection_closed_last tb record data w :
  w_wh w WhConnect = None ->
  (w_wh w WhCursor = None -> w_wh w WhCursorClose = None) ->
  exists mid,
    w_trace (snd (save_to_snowflake_on tb (record :: data) w))
    = w_trace w ++ EvWh WhConnect :: mid ++ [EvWh WhConnClose]
    /\ Forall within_session mid.
Proof.
  apply loader_closes_connection.
Qed.

Lemma connection_closed_last_witness :
  exists mid,
    w_trace (snd (save_to_snowflake_on GitHub.tables [airflow_record]
                    (scripted [] [] (wh_fails (is_promotion GitHub.tables) "table is gone"))))
    = EvWh WhConnect :: mid ++ [EvWh WhConnClose]
    /\ Forall within_session mid.
Proof.
  apply (connection_closed_last GitHub.tables airflow_record []
           (scripted [] [] (wh_fails (is_promotion GitHub.tables) "table is gone"))).
  - reflexivity.
  - intros _. reflexivity.
Defined.

(** X5.  When [cursor.close()] raises in the [finally], the load raises that
    error and [conn.close()] is never called: the connection is left open.
    This also happens after a batch was committed and reported as saved. *)
Theorem cursor_close_failure_leaks tb record data w msg :
  w_wh w WhConnect = None ->
  w_wh w WhCursor = None ->
  w_wh w WhCursorClose = Some msg ->
  (exists w' evs,
     save_to_snowflake_on tb (record :: data) w = (Raise (SnowflakeError msg), w')
     /\ w_trace w' = w_trace w ++ EvWh WhConnect :: evs ++ [EvWh WhCursorClose]
     /\ Forall within_session evs)
  /\ ((forall c, c <> WhCursorClose -> w_wh w c = None) ->
      filter accepted (record :: data) <> [] ->
      exists w' evs,
        save_to_snowflake_on tb (record :: data) w = (Raise (SnowflakeError msg), w')
        /\ w_trace w'
           = w_trace w ++ evs
             ++ [EvWh WhCommit;
                 EvLog INFO (saved_fmt tb)
                       [PInt (Z.of_nat (List.length (filter accepted (record :: data))))];
                 EvWh WhCursorClose]).
Proof.
  intros Hc Hcu Hcc. split.
  - apply loader_cursor_close_failure; assumption.
  - intros Hok Hacc. apply loader_commit_then_close_failure; assumption.
Qed.

Lemma cursor_close_failure_leaks_witness :
  exists w' evs,
    save_to_snowflake_on GitHub.tables [airflow_record]
      (scripted [] [] (wh_fails is_cursor_close_call "session expired"))
    = (Raise (SnowflakeError "session expired"), w')
    /\ w_trace w'
       = evs ++ [EvWh WhCommit;
                 EvLog INFO (saved_fmt GitHub.tables)
                       [PInt (Z.of_nat (List.length (filter accepted [airflow_record])))];
                 EvWh WhCursorClose].
Proof.
  apply (proj2 (cursor_close_failure_leaks GitHub.tables airflow_record []
                  (scripted [] [] (wh_fails is_cursor_close_call "session expired"))
                  "session expired" eq_refl eq_refl eq_refl)).
  - intros c Hc. destruct c; try reflexivity. contradiction Hc. reflexivity.
  - vm_compute. discriminate.
Defined.

(** X6.  A fetch of a repository that returns a record made exactly these
    requests, in this order: the repository, the contributors page, the
    releases -- preceded, when the first answer was a 403, by the warning,
    a sleep of 60 seconds and the repository again.  It read the clock
    once. *)
Theorem github_fetch_requests self repo w d :
  fst (GitHub.get_repo_data self repo w) = Ok (Some d) ->
  exists r1,
    w_http w (w_reqs w) (repo_url self repo) = HttpResp r1
    /\ w_trace (snd (GitHub.get_repo_data self repo w))
       = w_trace w ++ github_fetch_events self repo (status_code r1 =? 403)
    /\ w_reqs (snd (GitHub.get_repo_data self repo w))
       = (w_reqs w + (if (status_code r1 =? 403)%Z then 4 else 3))%nat
    /\ w_ticks (snd (GitHub.get_repo_data self repo w)) = S (w_ticks w).
Proof.
  intros H. destruct (GitHub.get_repo_data self repo w) as [r w1] eqn:E.
  cbn [fst] in H. subst r. cbn [snd]. eapply github_fetch_trace. exact E.
Qed.

Lemma github_fetch_requests_witness :
  exists r1,
    w_http airflow_world (w_reqs airflow_world) (repo_url gh "apache/airflow") = HttpResp r1
    /\ w_trace (snd (GitHub.get_repo_data gh "apache/airflow" airflow_world))
       = w_trace airflow_world
         ++ github_fetch_events gh "apache/airflow" (status_code r1 =? 403)
    /\ w_reqs (snd (GitHub.get_repo_data gh "apache/airflow" airflow_world))
       = (w_reqs airflow_world + (if (status_code r1 =? 403)%Z then 4 else 3))%nat
    /\ w_ticks (snd (GitHub.get_repo_data gh "apache/airflow" airflow_world))
       = S (w_ticks airflow_world).
Proof.
  apply (github_fetch_requests gh "apache/airflow" airflow_world airflow_fetched).
  vm_compute. reflexivity.
Defined.

(** X7.  A fetch of a package that returns a record made exactly two
    requests, the package and then its download counts, and read the clock
    once. *)
Theorem pypi_fetch_requests self package w d :
  fst (PyPI.get_package_info self package w) = Ok (Some d) ->
  w_trace (snd (PyPI.get_package_info self package w))
  = w_trace w ++ pypi_fetch_events self package
  /\ w_reqs (snd (PyPI.get_package_info self package w)) = (w_reqs w + 2)%nat
  /\ w_ticks (snd (PyPI.get_package_info self package w)) = S (w_ticks w).
Proof.
  intros H. destruct (PyPI.get_package_info self package w) as [r w1] eqn:E.
  cbn [fst] in H. subst r. cbn [snd]. eapply pypi_fetch_trace. exact E.
Qed.

Lemma pypi_fetch_requests_witness :
  w_trace (snd (PyPI.get_package_info pypi "pandas" pandas_world))
  = w_trace pandas_world ++ pypi_fetch_events pypi "pandas"
  /\ w_reqs (snd (PyPI.get_package_info pypi "pandas" pandas_world))
     = (w_reqs pandas_world + 2)%nat
  /\ w_ticks (snd (PyPI.get_package_info pypi "pandas" pandas_world))
     = S (w_ticks pandas_world).
Proof.
  apply (pypi_fetch_requests pypi "pandas" pandas_world pandas_fetched).
  vm_compute. reflexivity.
Defined.

(** X8.  The secondary requests have no error handling of their own: when
    the main request succeeded with a JSON body but the connection fails on
    the contributors request (GitHub) or on the download counts request
    (PyPI), the whole record is lost -- the fetch logs the error and
    returns [None]. *)
Theorem secondary_request_failure :
  (forall self repo w r1 v msg,
     w_http w (w_reqs w) (repo_url self repo) = HttpResp r1 ->
     status_code r1 <> 403 ->
     http_refused (HttpResp r1) = false ->
     json_body r1 = Some v ->
     w_http w (S (w_reqs w)) (contributors_url self repo) = HttpFail msg ->
     exists w',
       GitHub.get_repo_data self repo w = (Ok None, w')
       /\ w_trace w'
          = w_trace w
            ++ [EvGet (repo_url self repo) (GitHub.headers self);
                EvGet (contributors_url self repo) (GitHub.headers self);
                EvLog ERROR "Error fetching data for {}: {}" [PStr repo; PStr msg]])
  /\ (forall self package w r1 v msg,
        w_http w (w_reqs w) (package_url self package) = HttpResp r1 ->
        http_refused (HttpResp r1) = false ->
        json_body r1 = Some v ->
        w_http w (S (w_reqs w)) (recent_url self package) = HttpFail msg ->
        exists w',
          PyPI.get_package_info self package w = (Ok None, w')
          /\ w_trace w'
             = w_trace w
               ++ [EvGet (package_url self package) [];
                   EvGet (recent_url self package) [];
                   EvLog ERROR "Error fetching data for {}: {}" [PStr package; PStr msg]]).
Proof.
  split.
  - exact github_contributors_offline.
  - exact pypi_stats_offline.
Qed.

Lemma secondary_request_failure_witness :
  (exists w',
     GitHub.get_repo_data gh "apache/airflow"
       (scripted [resp 200 (Some (PDict []))] [] wh_ok) = (Ok None, w')
     /\ w_trace w'
        = [EvGet (repo_url gh "apache/airflow") (GitHub.headers gh);
           EvGet (contributors_url gh "apache/airflow") (GitHub.headers gh);
           EvLog ERROR "Error fetching data for {}: {}"
                 [PStr "apache/airflow"; PStr "connection refused"]])
  /\ (exists w',
        PyPI.get_package_info pypi "pandas"
          (scripted [resp 200 (Some (PDict []))] [] wh_ok) = (Ok None, w')
        /\ w_trace w'
           = [EvGet (package_url pypi "pandas") [];
              EvGet (recent_url pypi "pandas") [];
              EvLog ERROR "Error fetching data for {}: {}"
                    [PStr "pandas"; PStr "connection refused"]]).
Proof.
  split.
  - apply (proj1 secondary_request_failure gh "apache/airflow"
             (scripted [resp 200 (Some (PDict []))] [] wh_ok)
             (mk_response 200 (Some (PDict []))) (PDict []) "connection refused");
      try reflexivity.
    vm_compute. discriminate.
  - apply (proj2 secondary_request_failure pypi "pandas"
             (scripted [resp 200 (Some (PDict []))] [] wh_ok)
             (mk_response 200 (Some (PDict []))) (PDict []) "connection refused");
      reflexivity.
Defined.

(** X9.  The record a fetch of a repository returns is built from the
    answers to its three requests: each field is the field of the
    repository object it is mapped from, with its default when the object
    has no such key; [contributors_count] is the length of the contributors
    page, 0 unless that answer is a 200; [releases_count] and
    [latest_release] are the length and the first element of the releases,
    taken as empty unless that answer is a 200; [license] is the name of
    the license object, [None] when there is none; [extracted_at] is the
    reading of the clock. *)
Theorem github_record_mapping self repo w d :
  fst (GitHub.get_repo_data self repo w) = Ok (Some d) ->
  exists r rd rc rr n m latest,
    primary_answer self repo w = Some r
    /\ json_body r = Some (PDict rd)
    /\ w_http w (w_reqs w + primary_requests self repo w)%nat (contributors_url self repo)
       = HttpResp rc
    /\ w_http w (w_reqs w + primary_requests self repo w + 1)%nat (releases_url self repo)
       = HttpResp rr
    /\ contributors_counted rc n
    /\ releases_listed rr m latest
    /\ d = github_record repo rd n m latest (w_clock w (w_ticks w)).
Proof.
  intros H. destruct (GitHub.get_repo_data self repo w) as [r w1] eqn:E.
  cbn [fst] in H. subst r. eapply github_record_content. exact E.
Qed.

Lemma github_record_mapping_witness :
  exists r rd rc rr n m latest,
    primary_answer gh "apache/airflow" airflow_world = Some r
    /\ json_body r = Some (PDict rd)
    /\ w_http airflow_world
              (w_reqs airflow_world + primary_requests gh "apache/airflow" airflow_world)%nat
              (contributors_url gh "apache/airflow")
       = HttpResp rc
    /\ w_http airflow_world
              (w_reqs airflow_world + primary_requests gh "apache/airflow" airflow_world + 1)%nat
              (releases_url gh "apache/airflow")
       = HttpResp rr
    /\ contributors_counted rc n
    /\ releases_listed rr m latest
    /\ airflow_fetched
       = github_record "apache/airflow" rd n m latest
                       (w_clock airflow_world (w_ticks airflow_world)).
Proof.
  apply (github_record_mapping gh "apache/airflow" airflow_world airflow_fetched).
  vm_compute. reflexivity.
Defined.

(** X10.  The record a fetch of a package returns is built from the answers
    to its two requests: each field is the field of the [info] object it is
    mapped from, with its default; [release_count] is the number of
    releases; [latest_release_info] describes the first file of the release
    named by [info.version], and is empty when there is no version, no such
    release or no file; the three download counts are there only when the
    counts answer is a 200; [extracted_at] is the reading of the clock. *)
Theorem pypi_record_mapping self package w d :
  fst (PyPI.get_package_info self package w) = Ok (Some d) ->
  exists r pd info rs n lri ds,
    w_http w (w_reqs w) (package_url self package) = HttpResp r
    /\ json_body r = Some (PDict pd)
    /\ dict_get pd "info" (PDict []) = PDict info
    /\ py_len (dict_get pd "releases" (PDict [])) = Ok n
    /\ w_http w (S (w_reqs w)) (recent_url self package) = HttpResp rs
    /\ download_stats_of rs ds
    /\ latest_release_info_of (dict_get info "version" PNone)
                              (dict_get pd "releases" (PDict [])) lri
    /\ d = pypi_record package info n lri ds (w_clock w (w_ticks w)).
Proof.
  intros H. destruct (PyPI.get_package_info self package w) as [r w1] eqn:E.
  cbn [fst] in H. subst r. eapply pypi_record_content. exact E.
Qed.

Lemma pypi_record_mapping_witness :
  exists r pd info rs n lri ds,
    w_http pandas_world (w_reqs pandas_world) (package_url pypi "pandas") = HttpResp r
    /\ json_body r = Some (PDict pd)
    /\ dict_get pd "info" (PDict []) = PDict info
    /\ py_len (dict_get pd "releases" (PDict [])) = Ok n
    /\ w_http pandas_world (S (w_reqs pandas_world)) (recent_url pypi "pandas") = HttpResp rs
    /\ download_stats_of rs ds
    /\ latest_release_info_of (dict_get info "version" PNone)
                              (dict_get pd "releases" (PDict [])) lri
    /\ pandas_fetched
       = pypi_record "pandas" info n lri ds (w_clock pandas_world (w_ticks pandas_world)).
Proof.
  apply (pypi_record_mapping pypi "pandas" pandas_world pandas_fetched).
  vm_compute. reflexivity.
Defined.

(** X11.  The re-parse in the gate of the loader never stops a record: a
    record whose dictionaries have distinct keys passes the gate exactly
    when [json.dumps] returns for it.  A record that holds a datetime, at
    any depth, is refused by [json.dumps]: the gate raises what
    [json.dumps] raised and the record is not staged. *)
Theorem gate_follows_dumps :
  (forall record,
     well_formed (PDict record) = true ->
     (passes_gate record = true <-> exists s, json_dumps (PDict record) = Ok s))
  /\ (forall record,
        serializable (PDict record) = false ->
        accepted record = false
        /\ exists e, json_dumps (PDict record) = Raise e /\ gate record = Raise e).
Proof.
  split.
  - intros record Hwf. unfold passes_gate, gate.
    destruct (json_dumps (PDict record)) as [s | e] eqn:E.
    + rewrite (json_loads_dumps _ _ Hwf E). split; [eauto | reflexivity].
    + split; [discriminate | ]. intros [s Hs]. discriminate Hs.
  - intros record Hs. unfold accepted, passes_gate, gate.
    destruct (json_dumps (PDict record)) as [s | e] eqn:E.
    + assert (Ht : serializable (PDict record) = true)
        by (apply json_dumps_serializable; eauto).
      rewrite Ht in Hs. discriminate Hs.
    + split; [apply andb_false_r | eauto].
Qed.

Lemma gate_follows_dumps_witness :
  (passes_gate airflow_record = true <-> exists s, json_dumps (PDict airflow_record) = Ok s)
  /\ (accepted unserializable_record = false
      /\ exists e, json_dumps (PDict unserializable_record) = Raise e
                   /\ gate unserializable_record = Raise e).
Proof.
  split.
  - apply (proj1 gate_follows_dumps airflow_record). reflexivity.
  - apply (proj2 gate_follows_dumps unserializable_record). reflexivity.
Defined.

(** X12.  When the bodies the APIs answer with are JSON values (as
    [response.json()] gives them), every record a fetcher returns is a JSON
    value with distinct keys, and the loader accepts it. *)
Theorem fetched_record_is_json :
  (forall self repo w d,
     json_bodies w ->
     fst (GitHub.get_repo_data self repo w) = Ok (Some d) ->
     json_native (PDict d) = true /\ accepted d = true)
  /\ (forall self package w d,
        json_bodies w ->
        fst (PyPI.get_package_info self package w) = Ok (Some d) ->
        json_native (PDict d) = true /\ accepted d = true).
Proof.
  split.
  - intros self repo w d Hjb H.
    destruct (GitHub.get_repo_data self repo w) as [r w1] eqn:E.
    cbn [fst] in H. subst r.
    pose proof (github_record_native self repo w d w1 Hjb E) as Hn.
    split; [exact Hn | ]. apply json_native_accepted; [ | exact Hn].
    intros ->. apply github_record_name in E. destruct E as [_ E]. discriminate E.
  - intros self package w d Hjb H.
    destruct (PyPI.get_package_info self package w) as [r w1] eqn:E.
    cbn [fst] in H. subst r.
    pose proof (pypi_record_native self package w d w1 Hjb E) as Hn.
    split; [exact Hn | ]. apply json_native_accepted; [ | exact Hn].
    intros ->. apply pypi_record_name in E. destruct E as [_ E]. discriminate E.
Qed.

Lemma fetched_record_is_json_witness :
  (json_native (PDict airflow_fetched) = true /\ accepted airflow_fetched = true)
  /\ (json_native (PDict pandas_fetched) = true /\ accepted pandas_fetched = true).
Proof.
  split.
  - apply (proj1 fetched_record_is_json gh "apache/airflow" airflow_world airflow_fetched).
    + apply scripted_json_bodies. unfold airflow_answers.
      repeat (constructor; try exact I; try reflexivity).
    + vm_compute. reflexivity.
  - apply (proj2 fetched_record_is_json pypi "pandas" pandas_world pandas_fetched).
    + apply scripted_json_bodies. unfold pandas_answers.
      repeat (constructor; try exact I; try reflexivity).
    + vm_compute. reflexivity.
Defined.

(** X13.  When the bodies the APIs answer with are JSON values, the loader
    drops no record of an extracted batch: the filter keeps the whole
    batch, no drop is logged, and one row is staged per record. *)
Theorem fetched_batch_all_staged :
  (forall self w batch,
     json_bodies w ->
     fst (GitHub.extract_all_repositories self w) = Ok batch ->
     filter accepted batch = batch
     /\ drop_logs (name_key GitHub.tables) batch = []
     /\ forall clock tick,
          List.length (staged (name_key GitHub.tables) clock tick batch) = List.length batch)
  /\ (forall self w batch,
        json_bodies w ->
        fst (PyPI.extract_all_packages self w) = Ok batch ->
        filter accepted batch = batch
        /\ drop_logs (name_key PyPI.tables) batch = []
        /\ forall clock tick,
             List.length (staged (name_key PyPI.tables) clock tick batch) = List.length batch).
Proof.
  split.
  - intros self w batch Hjb H.
    destruct (GitHub.extract_all_repositories self w) as [r w1] eqn:E.
    cbn [fst] in H. subst r.
    pose proof (github_batch_accepted self w batch w1 Hjb E) as Hacc.
    pose proof (filter_all accepted batch Hacc) as Hf.
    split; [exact Hf | ]. split; [apply drop_logs_accepted; exact Hacc | ].
    intros clock tick. rewrite staged_length, Hf. reflexivity.
  - intros self w batch Hjb H.
    destruct (PyPI.extract_all_packages self w) as [r w1] eqn:E.
    cbn [fst] in H. subst r.
    pose proof (pypi_batch_accepted self w batch w1 Hjb E) as Hacc.
    pose proof (filter_all accepted batch Hacc) as Hf.
    split; [exact Hf | ]. split; [apply drop_logs_accepted; exact Hacc | ].
    intros clock tick. rewrite staged_length, Hf. reflexivity.
Qed.

Lemma fetched_batch_all_staged_witness :
  filter accepted airflow_batch = airflow_batch
  /\ drop_logs (name_key GitHub.tables) airflow_batch = []
  /\ forall clock tick,
       List.length (staged (name_key GitHub.tables) clock tick airflow_batch)
       = List.length airflow_batch.
Proof.
  apply (proj1 fetched_batch_all_staged gh airflow_world airflow_batch).
  - apply scripted_json_bodies. unfold airflow_answers.
    repeat (constructor; try exact I; try reflexivity).
  - vm_compute. reflexivity.
Defined.

(** X14.  Every [raw_data] string handed to [executemany] is made of
    printable ASCII characters only: [json.dumps] escapes everything
    else. *)
Theorem raw_data_printable_ascii tb data w evs sql rows :
  w_trace (snd (save_to_snowflake_on tb data w)) = w_trace w ++ evs ->
  In (EvWh (WhExecuteMany sql rows)) evs ->
  Forall (fun row : Row => all_printable (snd row) = true) rows.
Proof.
  intros Htr Hin. destruct (loader_executemany tb data w evs sql rows Htr Hin) as [_ ->].
  apply staged_printable.
Qed.

Lemma raw_data_printable_ascii_witness :
  Forall (fun row : Row => all_printable (snd row) = true)
         [(ticking_clock 1, PStr "apache/airflow", airflow_json)].
Proof.
  apply (raw_data_printable_ascii GitHub.tables [airflow_record] after_fetch_world
           (w_trace (snd (save_to_snowflake_on GitHub.tables [airflow_record]
                                               after_fetch_world)))
           (temp_insert_query GitHub.tables)).
  - reflexivity.
  - vm_compute. do 4 right. left. reflexivity.
Defined.

(** ** Properties of the Airflow tasks *)

(** X15.  The extraction tasks print their first line, run the extractor
    and then: when [run] returned, print the closing line and return the
    size of the catalogue, 10, whatever was extracted or loaded; when [run]
    raised, raise the same exception without the closing line. *)
Theorem extract_tasks_follow_run tw :
  (exists evs tw',
     w_trace (snd (GitHub.run (GitHub.init (os_getenv (tw_environ tw) "GITHUB_TOKEN"))
                              (tw_world tw)))
     = w_trace (tw_world tw) ++ evs
     /\ Dag.extract_github_data tw
        = (match fst (GitHub.run (GitHub.init (os_getenv (tw_environ tw) "GITHUB_TOKEN"))
                                 (tw_world tw)) with
           | Ok _ => Returned (PInt 10)
           | Raise e => Raised (PyExn e)
           end, tw')
     /\ tw_trace tw'
        = tw_trace tw
          ++ TPrint "Starting GitHub data extraction for {} technologies" [PInt 10]
             :: map TEv evs
          ++ match fst (GitHub.run (GitHub.init (os_getenv (tw_environ tw) "GITHUB_TOKEN"))
                                   (tw_world tw)) with
             | Ok _ => [TPrint "Successfully completed GitHub data extraction" []]
             | Raise _ => []
             end)
  /\ (exists evs tw',
        w_trace (snd (PyPI.run PyPI.init (tw_world tw))) = w_trace (tw_world tw) ++ evs
        /\ Dag.extract_pypi_data tw
           = (match fst (PyPI.run PyPI.init (tw_world tw)) with
              | Ok _ => Returned (PInt 10)
              | Raise e => Raised (PyExn e)
              end, tw')
        /\ tw_trace tw'
           = tw_trace tw
             ++ TPrint "Starting PyPI data extraction for {} packages" [PInt 10]
                :: map TEv evs
             ++ match fst (PyPI.run PyPI.init (tw_world tw)) with
                | Ok _ => [TPrint "Successfully completed PyPI data extraction" []]
                | Raise _ => []
                end).
Proof.
  split.
  - destruct (github_run_extends (GitHub.init (os_getenv (tw_environ tw) "GITHUB_TOKEN"))
                                 (tw_world tw)) as [evs Hevs].
    destruct (extract_github_data_run tw evs Hevs) as (tw' & Hrun & Htr).
    exists evs, tw'. split; [exact Hevs | ]. split; [exact Hrun | exact Htr].
  - destruct (pypi_run_extends PyPI.init (tw_world tw)) as [evs Hevs].
    destruct (extract_pypi_data_run tw evs Hevs) as (tw' & Hrun & Htr).
    exists evs, tw'. split; [exact Hevs | ]. split; [exact Hrun | exact Htr].
Qed.

(** X16.  Without a [GITHUB_TOKEN] in the environment (unset or empty),
    [extract_github_data] prints its first line and raises the
    [ValueError] of [run]: the only other event is the error line, no
    request is sent and the warehouse is not called. *)
Theorem extract_github_task_needs_token tw :
  os_getenv (tw_environ tw) "GITHUB_TOKEN" = None
  \/ os_getenv (tw_environ tw) "GITHUB_TOKEN" = Some "" ->
  exists tw',
    Dag.extract_github_data tw = (Raised (PyExn GitHub.token_error), tw')
    /\ tw_trace tw'
       = tw_trace tw
         ++ [TPrint "Starting GitHub data extraction for {} technologies" [PInt 10];
             TEv (EvLog ERROR "GitHub extraction failed: {}"
                        [PStr "GitHub token not provided. Set GITHUB_TOKEN environment variable."])].
Proof.
  intros Htok.
  assert (Hmiss : GitHub.token_missing
                    (GitHub.init (os_getenv (tw_environ tw) "GITHUB_TOKEN")) = true).
  { destruct Htok as [-> | ->]; reflexivity. }
  pose proof (github_run_token_missing _ (tw_world tw) Hmiss) as Hrun.
  destruct (extract_github_data_run tw
              [EvLog ERROR "GitHub extraction failed: {}"
                     [PStr "GitHub token not provided. Set GITHUB_TOKEN environment variable."]])
    as (tw' & Htask & Htr).
  { cbv zeta. rewrite Hrun. reflexivity. }
  cbv zeta in Htask, Htr. rewrite Hrun in Htask, Htr. cbn [fst] in Htask, Htr.
  exists tw'. split; [exact Htask | ]. rewrite Htr. reflexivity.
Qed.

Lemma extract_github_task_needs_token_witness :
  exists tw',
    Dag.extract_github_data (task_world airflow_world [] [] (fun _ => 0))
    = (Raised (PyExn GitHub.token_error), tw')
    /\ tw_trace tw'
       = [TPrint "Starting GitHub data extraction for {} technologies" [PInt 10];
          TEv (EvLog ERROR "GitHub extraction failed: {}"
                     [PStr "GitHub token not provided. Set GITHUB_TOKEN environment variable."])].
Proof.
  apply (extract_github_task_needs_token (task_world airflow_world [] [] (fun _ => 0))).
  left. reflexivity.
Defined.

(** X17.  With the network down the extraction tasks still succeed: they
    return 10 after the closing line, and the warehouse was never called. *)
Theorem extract_tasks_succeed_offline tw :
  offline (tw_world tw) ->
  (forall token,
     os_getenv (tw_environ tw) "GITHUB_TOKEN" = Some token -> token <> ""%string ->
     exists evs tw',
       Dag.extract_github_data tw = (Returned (PInt 10), tw')
       /\ tw_trace tw'
          = tw_trace tw
            ++ TPrint "Starting GitHub data extraction for {} technologies" [PInt 10]
               :: map TEv evs
            ++ [TPrint "Successfully completed GitHub data extraction" []]
       /\ Forall not_warehouse evs)
  /\ (exists evs tw',
        Dag.extract_pypi_data tw = (Returned (PInt 10), tw')
        /\ tw_trace tw'
           = tw_trace tw
             ++ TPrint "Starting PyPI data extraction for {} packages" [PInt 10]
                :: map TEv evs
             ++ [TPrint "Successfully completed PyPI data extraction" []]
        /\ Forall not_warehouse evs).
Proof.
  intros Hoff. split.
  - intros token Htok Hne.
    assert (Hmiss : GitHub.token_missing
                      (GitHub.init (os_getenv (tw_environ tw) "GITHUB_TOKEN")) = false).
    { rewrite Htok. unfold GitHub.token_missing. cbn. apply String.eqb_neq. exact Hne. }
    destruct (github_run_offline _ (tw_world tw) Hmiss Hoff) as (w' & evs & Hrun & Htr & Hnw & _).
    destruct (extract_github_data_run tw evs) as (tw' & Htask & Htr').
    { cbv zeta. rewrite Hrun. exact Htr. }
    cbv zeta in Htask, Htr'. rewrite Hrun in Htask, Htr'. cbn [fst] in Htask, Htr'.
    exists evs, tw'. split; [exact Htask | ]. split; [exact Htr' | exact Hnw].
  - destruct (pypi_run_offline PyPI.init (tw_world tw) Hoff) as (w' & evs & Hrun & Htr & Hnw & _).
    destruct (extract_pypi_data_run tw evs) as (tw' & Htask & Htr').
    { rewrite Hrun. exact Htr. }
    rewrite Hrun in Htask, Htr'. cbn [fst] in Htask, Htr'.
    exists evs, tw'. split; [exact Htask | ]. split; [exact Htr' | exact Hnw].
Qed.

Lemma extract_tasks_succeed_offline_witness :
  exists evs tw',
    Dag.extract_github_data (task_world (scripted [] [] wh_ok) with_token [] (fun _ => 0))
    = (Returned (PInt 10), tw')
    /\ tw_trace tw'
       = tw_trace (task_world (scripted [] [] wh_ok) with_token [] (fun _ => 0))
         ++ TPrint "Starting GitHub data extraction for {} technologies" [PInt 10]
            :: map TEv evs
         ++ [TPrint "Successfully completed GitHub data extraction" []]
    /\ Forall not_warehouse evs.
Proof.
  apply (proj1 (extract_tasks_succeed_offline
                  (task_world (scripted [] [] wh_ok) with_token [] (fun _ => 0))
                  (scripted_offline [] wh_ok)) "ghp_token").
  - reflexivity.
  - discriminate.
Defined.

(** X18.  With a healthy warehouse, [validate_raw_data] runs the two count
    queries and reads one row after each.  When both rows are tuples it
    prints the two counts, closes the cursor and the connection, and
    returns the two counts -- or raises [ValueError] when one of them
    equals 0.  When the first [fetchone] returns [None] it raises
    [TypeError] before the second query, and still closes both. *)
Theorem validate_raw_data_verdict tw :
  (forall c, w_wh (tw_world tw) c = None) ->
  (forall g p rest_g rest_p,
     tw_rows tw (tw_fetched tw) = Ok (PTuple (g :: rest_g)) ->
     tw_rows tw (S (tw_fetched tw)) = Ok (PTuple (p :: rest_p)) ->
     exists tw',
       Dag.validate_raw_data tw
       = (if py_eq g (PInt 0) || py_eq p (PInt 0)
          then Raised (PyExn (ValueError "No data found for today's extraction"))
          else Returned (PDict [("github_count", g); ("pypi_count", p)]), tw')
       /\ tw_trace tw'
          = tw_trace tw
            ++ [TEv (EvWh WhConnect); TEv (EvWh WhCursor);
                TEv (EvWh (WhExecute Dag.github_count_query)); TFetchone;
                TEv (EvWh (WhExecute Dag.pypi_count_query)); TFetchone;
                TPrint "Data validation results:" [];
                TPrint "- GitHub repos extracted today: {}" [g];
                TPrint "- PyPI packages extracted today: {}" [p];
                TEv (EvWh WhCursorClose); TEv (EvWh WhConnClose)])
  /\ (tw_rows tw (tw_fetched tw) = Ok PNone ->
      exists tw',
        Dag.validate_raw_data tw
        = (Raised (PyExn (TypeError "'NoneType' object is not subscriptable")), tw')
        /\ tw_trace tw'
           = tw_trace tw
             ++ [TEv (EvWh WhConnect); TEv (EvWh WhCursor);
                 TEv (EvWh (WhExecute Dag.github_count_query)); TFetchone;
                 TEv (EvWh WhCursorClose); TEv (EvWh WhConnClose)]).
Proof.
  intros Hok. split.
  - intros g p rest_g rest_p Hg Hp. eapply validate_verdict_rows; eassumption.
  - intros Hnone. apply validate_no_row; assumption.
Qed.

Lemma validate_raw_data_verdict_witness :
  exists tw',
    Dag.validate_raw_data
      (task_world (scripted [] [] wh_ok) [] [PTuple [PInt 10]; PTuple [PInt 0]] (fun _ => 0))
    = (if py_eq (PInt 10) (PInt 0) || py_eq (PInt 0) (PInt 0)
       then Raised (PyExn (ValueError "No data found for today's extraction"))
       else Returned (PDict [("github_count", PInt 10); ("pypi_count", PInt 0)]), tw')
    /\ tw_trace tw'
       = tw_trace (task_world (scripted [] [] wh_ok) []
                              [PTuple [PInt 10]; PTuple [PInt 0]] (fun _ => 0))
         ++ [TEv (EvWh WhConnect); TEv (EvWh WhCursor);
             TEv (EvWh (WhExecute Dag.github_count_query)); TFetchone;
             TEv (EvWh (WhExecute Dag.pypi_count_query)); TFetchone;
             TPrint "Data validation results:" [];
             TPrint "- GitHub repos extracted today: {}" [PInt 10];
             TPrint "- PyPI packages extracted today: {}" [PInt 0];
             TEv (EvWh WhCursorClose); TEv (EvWh WhConnClose)].
Proof.
  apply (proj1 (validate_raw_data_verdict
                  (task_world (scripted [] [] wh_ok) []
                              [PTuple [PInt 10]; PTuple [PInt 0]] (fun _ => 0))
                  (fun c => eq_refl)) (PInt 10) (PInt 0) [] []); reflexivity.
Defined.

(** X19.  Once the connection and the cursor are made, [validate_raw_data]
    always closes the cursor, whatever the queries and the rows do, and then
    the connection unless closing the cursor raised.  In between it only
    runs its two count queries, reads rows and prints: it never writes to
    the warehouse. *)
Theorem validate_raw_data_closes tw :
  w_wh (tw_world tw) WhConnect = None ->
  w_wh (tw_world tw) WhCursor = None ->
  exists mid,
    tw_trace (snd (Dag.validate_raw_data tw))
    = tw_trace tw ++ [TEv (EvWh WhConnect); TEv (EvWh WhCursor)] ++ mid
      ++ TEv (EvWh WhCursorClose)
         :: match w_wh (tw_world tw) WhCursorClose with
            | None => [TEv (EvWh WhConnClose)]
            | Some _ => []
            end
    /\ Forall validate_step mid.
Proof.
  apply validate_closes.
Qed.

Lemma validate_raw_data_closes_witness :
  exists mid,
    tw_trace (snd (Dag.validate_raw_data
                     (task_world (scripted [] [] wh_ok) [] [PTuple []] (fun _ => 0))))
    = tw_trace (task_world (scripted [] [] wh_ok) [] [PTuple []] (fun _ => 0))
      ++ [TEv (EvWh WhConnect); TEv (EvWh WhCursor)] ++ mid
      ++ TEv (EvWh WhCursorClose)
         :: match w_wh (tw_world (task_world (scripted [] [] wh_ok) [] [PTuple []]
                                             (fun _ => 0))) WhCursorClose with
            | None => [TEv (EvWh WhConnClose)]
            | Some _ => []
            end
    /\ Forall validate_step mid.
Proof.
  apply (validate_raw_data_closes
           (task_world (scripted [] [] wh_ok) [] [PTuple []] (fun _ => 0)));
    reflexivity.
Defined.

(** X20.  The connection and the cursor of [validate_raw_data] are made
    before its [try]: when [conn.cursor()] raises, the task raises that
    error and the connection it opened is never closed.  When [connect]
    raises, the task raises with nothing opened. *)
Theorem validate_raw_data_open_failure tw msg :
  (w_wh (tw_world tw) WhConnect = None ->
   w_wh (tw_world tw) WhCursor = Some msg ->
   exists tw',
     Dag.validate_raw_data tw = (Raised (PyExn (SnowflakeError msg)), tw')
     /\ tw_trace tw' = tw_trace tw ++ [TEv (EvWh WhConnect); TEv (EvWh WhCursor)])
  /\ (w_wh (tw_world tw) WhConnect = Some msg ->
      exists tw',
        Dag.validate_raw_data tw = (Raised (PyExn (SnowflakeError msg)), tw')
        /\ tw_trace tw' = tw_trace tw ++ [TEv (EvWh WhConnect)]).
Proof.
  split.
  - apply validate_cursor_failure.
  - apply validate_connect_failure.
Qed.

Lemma validate_raw_data_open_failure_witness :
  exists tw',
    Dag.validate_raw_data
      (task_world (scripted [] [] (wh_fails is_cursor_call "connection is closed")) [] []
                  (fun _ => 0))
    = (Raised (PyExn (SnowflakeError "connection is closed")), tw')
    /\ tw_trace tw' = [TEv (EvWh WhConnect); TEv (EvWh WhCursor)].
Proof.
  apply (proj1 (validate_raw_data_open_failure
                  (task_world (scripted [] [] (wh_fails is_cursor_call "connection is closed"))
                              [] [] (fun _ => 0))
                  "connection is closed")); reflexivity.
Defined.

(** X21.  [check_dbt_models] fails fast.  It returns, and then returns
    [True], exactly when the directory is there and each of the three dbt
    commands, started in order, returns code 0.  When the directory is not
    there it raises before starting any process.  At the first command
    that returns another code it prints the command, its output and its
    errors, raises [RuntimeError] and starts no later command. *)
Theorem check_dbt_models_fail_fast tw :
  (forall v,
     fst (Dag.check_dbt_models tw) = Returned v
     <-> v = PBool true
         /\ tw_chdir tw Dag.DBT_DIR = None
         /\ forall i, (i < List.length Dag.dbt_commands)%nat ->
                      returns_zero tw (Dag.DBT_ENV (tw_environ tw)) Dag.dbt_commands i)
  /\ (forall msg,
        tw_chdir tw Dag.DBT_DIR = Some msg ->
        Dag.check_dbt_models tw = (Raised (OSError msg), task_emit (TChdir Dag.DBT_DIR) tw))
  /\ (forall ok args rest result,
        Dag.dbt_commands = ok ++ args :: rest ->
        tw_chdir tw Dag.DBT_DIR = None ->
        (forall i, (i < List.length ok)%nat ->
                   returns_zero tw (Dag.DBT_ENV (tw_environ tw)) ok i) ->
        tw_procs tw (tw_spawned tw + List.length ok)%nat args (Dag.DBT_ENV (tw_environ tw))
        = ProcDone result ->
        returncode result <> 0 ->
        Dag.check_dbt_models tw
        = (Raised (RuntimeError "dbt command failed"),
           spawn_and_emit (List.length ok + 1)
             (TChdir Dag.DBT_DIR
                :: map (fun a => TSubprocess a (Dag.DBT_ENV (tw_environ tw))) (ok ++ [args])
                ++ failure_report args result) tw)).
Proof.
  split; [ | split].
  - intros v. apply check_dbt_models_returns.
  - intros msg. apply check_dbt_models_no_directory.
  - intros ok args rest result. apply check_dbt_models_stops.
Qed.

Lemma check_dbt_models_fail_fast_witness :
  Dag.check_dbt_models
    (task_world (scripted [] [] wh_ok) with_token [] (fun n => Z.of_nat n))
  = (Raised (RuntimeError "dbt command failed"),
     spawn_and_emit 2
       (TChdir Dag.DBT_DIR
          :: map (fun a => TSubprocess a (Dag.DBT_ENV with_token))
                 [["dbt"; "clean"]; ["dbt"; "deps"]]
          ++ failure_report ["dbt"; "deps"] (mk_completed 1 "" "Compilation Error"))
       (task_world (scripted [] [] wh_ok) with_token [] (fun n => Z.of_nat n))).
Proof.
  apply (proj2 (proj2 (check_dbt_models_fail_fast
                         (task_world (scripted [] [] wh_ok) with_token []
                                     (fun n => Z.of_nat n))))
           [["dbt"; "clean"]] ["dbt"; "deps"] [["dbt"; "compile"; "--no-partial-parse"]]
           (mk_completed 1 "" "Compilation Error")).
  - reflexivity.
  - reflexivity.
  - intros i Hi. destruct i as [ | i]; [ | simpl in Hi; lia].
    exists (mk_completed 0 "" "Compilation Error"). split; reflexivity.
  - reflexivity.
  - simpl. discriminate.
Defined.

(** X22.  The environment the dbt commands run in is the task's
    environment with two variables set: [DBT_PROFILES_DIR] is the project
    directory, and [PATH] is the old [PATH] (empty when unset) behind the
    user's [bin]; every other variable is as it was. *)
Theorem dbt_env_lookup environ :
  environ_lookup "DBT_PROFILES_DIR" (Dag.DBT_ENV environ) = Some Dag.DBT_DIR
  /\ environ_lookup "PATH" (Dag.DBT_ENV environ)
     = Some ("/home/airflow/.local/bin:" ++ environ_get environ "PATH" "")%string
  /\ forall k, k <> "PATH"%string -> k <> "DBT_PROFILES_DIR"%string ->
               environ_lookup k (Dag.DBT_ENV environ) = environ_lookup k environ.
Proof.
  apply DBT_ENV_lookup.
Qed.

Lemma dbt_env_lookup_witness :
  environ_lookup "GITHUB_TOKEN" (Dag.DBT_ENV with_token)
  = environ_lookup "GITHUB_TOKEN" with_token.
Proof.
  apply (proj2 (proj2 (dbt_env_lookup with_token)) "GITHUB_TOKEN"); discriminate.
Defined.
